(* ===== verification/_CoqProject ===== *)
-Q . S2P
Prelude.v
PyNum.v
Keys.v
Coef.v
Predictor.v
Refinement.v
Series.v
Options.v
Simulation.v
Charts.v
App.v
Cleaning.v
