(* ===== verification/Prelude.v ===== *)
(** * A verification of USCDM/emulator_interface

    ** The program

    [src/app.py] is a Streamlit dashboard that projects population-health
    outcomes under hypothetical interventions.  Its parts, and how they
    interact:
    - the selection vocabulary (lines 6-60): dict literals mapping display
      names to dataset keys, outcome codes and subgroup codes;
    - [load_cleaned_data] (lines 13-22): one regression table per
      intervention whose cleaned CSV exists;
    - the sidebar (lines 79-91): the selected outcome, subgroup,
      interventions, year range, and the [intervention_levels] dict filled
      from the level sliders;
    - the run (lines 93-211): for each selected intervention, skip it with
      an [st.error] when its table or the target column is missing;
      otherwise read the coefficient column [beta], run the linear
      predictor for every year of [range(start, end + 1, 2)] and store the
      baseline, intervention and change columns in [results_df];
      [st.stop()] when no intervention was usable;
    - the linear predictor (lines 129-189), the core: [beta.get(name, 0)]
      lookups of row names built with f-strings from the year offset
      [year - 2024], and either the single-level formula or, for
      ["pcogstate"], the two-level formula with the pair interaction;
    - the charts (lines 213-339): per selected intervention, a dashed
      baseline and a solid intervention trace in the main figure and a
      change trace in the second, read back from [results_df].
    [src/clean_data.py] is the offline script that produces the cleaned
    CSV files [load_cleaned_data] reads: it strips the Excel escaping and
    quotes from headers ([clean_column]) and cells ([clean_cell]), coerces
    every column but [Year] to numbers with [pd.to_numeric] and
    [errors] set to ignore, and writes [clean_data/<key>_cleaned.csv].

    ** The development (files in dependency order)

    - [Prelude.v] (this file): the [emu_scope] notations, Python's
      [dict.get] ([py_get]), [d[k]] ([py_index]) and [range] ([py_range]),
      Python exceptions as values ([PyExc], [PyRes] with stdpp's monad
      notation), the [emu] hint databases and shared tactics.
    - [PyNum.v]: the interface [PyArith] of the arithmetic the code uses,
      with an instance on binary64 primitive floats (what CPython
      computes, used for concrete runs) and one on exact rationals [Q]
      (used for the algebraic theorems).
    - [Keys.v]: the structured key [CoefKey] of the model terms, their row
      names [key_name] as the f-strings print them, a parser and the round
      trip, hence injectivity of the names.
    - [Coef.v]: the accessor [coefficient] ([beta.get(name, 0)]) and the
      equivalence [tbl_equiv] of tables that read the same coefficients,
      with its [Proper] instances.
    - [Predictor.v]: [single_value], [two_value] and [predict_year], the
      body of the per-year loop, generic in the number type; what they
      read, their errors, the zero-default policy, and that the baseline
      ignores the levels and equals the intervention at level [1.0] in
      every number type, binary64 included.
    - [Refinement.v]: module [Spec], the spec's regression polynomial and
      predictor, and the refinement of [predict_year] to it on [Q]; the
      change from baseline, its bounds over the slider range [[0.5, 1]]
      and monotonicity, all in exact arithmetic, with binary64
      counterexamples showing that the bound and the monotonicity do not
      carry over to the floats the program computes with.
    - [Series.v]: [year_range], the accumulator loop [series_loop] and
      [diff_values]; the loop equals the predictor mapped over the years,
      its rows do not depend on the order of the years, it is total; the
      spec's worked example of section 8 run in binary64.
    - [Options.v]: the option dicts and [load_cleaned_data].
    - [Simulation.v]: the widget values [UI], [build_levels], the pandas
      column assignment [df_set], [run_one], [run_loop] and
      [run_simulation]; the interface [SeriesEngine] through which the run
      calls the series component; the run never raises under the widget
      contract, it reports and skips exactly the unusable interventions,
      and the results table holds [Year] then three columns per usable
      intervention.
    - [Charts.v]: the [go.Scatter] traces of both figures as records
      ([Trace]) and their [update_layout] arguments ([Layout]),
      [main_traces], [change_traces] and [dashboard], the whole page
      after the sidebar; it never raises, and each usable
      intervention's series reach its three traces.
    - [App.v]: the page header, the sidebar's widgets and values
      ([sidebar_ui], [level_widgets]) and the whole script [app], proved
      against the interface [Streamlit] of the widget library and its
      laws [StreamlitLaws]; the sidebar always meets the run's contract,
      no two widgets share a label, and the script never raises.  An
      executable instance [session_widgets] models a browser session.
    - [Cleaning.v]: Python's [strip], [startswith], [endswith] and
      slicing on ASCII strings, [clean_column], [clean_cell], the
      coercion loop [convert_loop] and the script loop [clean_loop]
      with its file writes; the unquoting and round-trip properties of
      [clean_column], the coercion policy, the [TypeError] on duplicate
      names, and the agreement of the written paths with the paths
      [app.py] loads.

    ** Modelling choices

    Numbers are generic ([PyArith]); the concrete runs use binary64 floats
    so that results are bit-exact, and the algebra uses [Q].  A pandas
    Series or dict keyed by strings is a [gmap string _]; a dict literal
    is an association list in insertion order; a DataFrame under
    construction is an ordered list of named columns with its row count.
    Exceptions are values of [PyRes].  The run is proved under the
    contract [ui_wf] on the widget values (each selection is an offered
    option), and [App.v] proves that the sidebar meets it under the
    widget library's laws.  Decimal literals such as [0.85] are
    [py_dec 85 2], one correctly rounded division ([PyDec]).  There is
    no fuel: every loop is structural recursion over a list, and
    totality is proved as "returns [Ok]".
    The cleaning script's files are a map from path to parsed frame;
    pandas' number parser is a parameter [parse_num] of the cleaning
    model, and Python's [str] of a float one ([show]) of the charts.

    ** Not modelled

    Streamlit and plotly themselves: what a widget returns is the
    interface [Streamlit] with the laws the library guarantees, and the
    rendering of the page and of the figures is not modelled.  CSV
    parsing and printing by pandas, [print] calls, and the numeric parser
    of [pd.to_numeric] (a parameter).
    *)

From stdpp Require Import base gmap strings list.
From Stdlib Require Import ZArith Lia.

Declare Scope emu_scope.
Delimit Scope emu_scope with emu.
Open Scope emu_scope.

(** ** Python's [dict.get] / pandas' [Series.get] with a default *)

(** [m.get(k, d)]: the value stored under [k], or [d] when [k] is absent.
    It never raises. *)
Definition py_get {V} (m : gmap string V) (k : string) (d : V) : V :=
  default d (m !! k).

Notation "m .get[ k , d ]" := (py_get m k d)
  (at level 1, k at level 200, d at level 200, format "m .get[ k ,  d ]") : emu_scope.

Create HintDb emu discriminated.
Create Rewrite HintDb emu_rw.

Section py_get_lemmas.
Context {V : Type}.
Implicit Types (m : gmap string V) (k j : string) (d v : V).

Lemma py_get_Some m k d v : m !! k = Some v -> m.get[k, d] = v.
Proof. unfold py_get. by intros ->. Qed.

Lemma py_get_None m k d : m !! k = None -> m.get[k, d] = d.
Proof. unfold py_get. by intros ->. Qed.

Lemma py_get_insert_eq m k d v : (<[k:=v]> m).get[k, d] = v.
Proof. unfold py_get. by rewrite lookup_insert_eq. Qed.

Lemma py_get_insert_ne m k j d v : k <> j -> (<[k:=v]> m).get[j, d] = m.get[j, d].
Proof. intros Hne. unfold py_get. by rewrite lookup_insert_ne. Qed.

Lemma py_get_delete_eq m k d : (delete k m).get[k, d] = d.
Proof. unfold py_get. by rewrite lookup_delete_eq. Qed.

Lemma py_get_delete_ne m k j d : k <> j -> (delete k m).get[j, d] = m.get[j, d].
Proof. intros Hne. unfold py_get. by rewrite lookup_delete_ne. Qed.

Lemma py_get_empty k d : (∅ : gmap string V).get[k, d] = d.
Proof. unfold py_get. by rewrite lookup_empty. Qed.
End py_get_lemmas.

#[export] Hint Rewrite @py_get_insert_eq @py_get_delete_eq @py_get_empty : emu_rw.

(** ** Python's [range(start, stop, step)] for a positive step *)

(** CPython's [range] object holds [ceil((stop - start) / step)] elements
    when [start < stop] and none otherwise; element [i] is
    [start + i * step]. *)
Definition py_range_len (start stop : Z) (step : positive) : nat :=
  Z.to_nat ((stop - start + Z.pos step - 1) / Z.pos step).

Definition py_range (start stop : Z) (step : positive) : list Z :=
  map (fun i => start + Z.of_nat i * Z.pos step)%Z (seq 0 (py_range_len start stop step)).

Lemma length_py_range start stop step :
  length (py_range start stop step) = py_range_len start stop step.
Proof. unfold py_range. by rewrite length_map, length_seq. Qed.

Lemma py_range_lookup start stop step i y :
  py_range start stop step !! i = Some y <->
  (i < py_range_len start stop step)%nat /\ y = (start + Z.of_nat i * Z.pos step)%Z.
Proof.
  unfold py_range. rewrite list_lookup_fmap, fmap_Some.
  setoid_rewrite lookup_seq. naive_solver.
Qed.

(** ** Tactics shared by the components *)

(** Rewrite with the [emu] rewrite base and close what is left. *)
Ltac emu_simpl := autorewrite with emu_rw in *.

(** [lia] after turning [/] and [mod] into their defining equations. *)
Ltac zlia := Z.to_euclidean_division_equations; lia.

(** Case on a string comparison [String.eqb a b] in the goal. *)
Ltac case_str_eqb :=
  match goal with
  | |- context [String.eqb ?a ?b] =>
      destruct (String.eqb_spec a b); subst
  end.

(** ** Python exceptions as values *)

(** The exceptions the modelled code can raise. *)
Inductive PyExc :=
  | KeyError (k : string)
  | ValueError (msg : string)
  | TypeError (msg : string)
  | AttributeError (msg : string).

(** A Python computation returns a value or raises. *)
Inductive PyRes (T : Type) :=
  | Ok (v : T)
  | Raise (e : PyExc).
Arguments Ok {T} v.
Arguments Raise {T} e.

#[export] Instance PyRes_ret : MRet PyRes := @Ok.
#[export] Instance PyRes_bind : MBind PyRes :=
  fun A B f r => match r with Ok v => f v | Raise e => Raise e end.

(** [m[k]] on a dict: raises [KeyError] when [k] is absent. *)
Definition py_index {V} (m : gmap string V) (k : string) : PyRes V :=
  match m !! k with Some v => Ok v | None => Raise (KeyError k) end.

Lemma py_index_Some {V} (m : gmap string V) k v : m !! k = Some v -> py_index m k = Ok v.
Proof. unfold py_index. by intros ->. Qed.

Lemma py_index_None {V} (m : gmap string V) k : m !! k = None -> py_index m k = Raise (KeyError k).
Proof. unfold py_index. by intros ->. Qed.

Lemma py_bind_Ok {A B} (v : A) (f : A -> PyRes B) : (Ok v ≫= f) = f v.
Proof. reflexivity. Qed.

Lemma py_bind_Raise {A B} e (f : A -> PyRes B) : (Raise e ≫= f) = Raise e.
Proof. reflexivity. Qed.

Lemma py_ret_Ok {A} (v : A) : (mret v : PyRes A) = Ok v.
Proof. reflexivity. Qed.

#[export] Hint Rewrite @py_bind_Ok @py_bind_Raise @py_ret_Ok : emu_rw.

(** Two Python results related pointwise: both return related values, or
    both raise the same exception. *)
Inductive res_rel {T U} (R : T -> U -> Prop) : PyRes T -> PyRes U -> Prop :=
  | res_rel_Ok v w : R v w -> res_rel R (Ok v) (Ok w)
  | res_rel_Raise e : res_rel R (Raise e) (Raise e).

(** [f] applied to each element in turn: all the results, or the first
    exception. *)
Fixpoint py_map_res {B C} (f : B -> PyRes C) (l : list B) : PyRes (list C) :=
  match l with
  | [] => Ok []
  | x :: l' => y ← f x; ys ← py_map_res f l'; Ok (y :: ys)
  end.

Section py_map_res_lemmas.
Context {B C : Type} (f : B -> PyRes C).

Lemma py_map_res_Ok (l : list B) (ys : list C) :
  py_map_res f l = Ok ys <-> Forall2 (fun x y => f x = Ok y) l ys.
Proof.
  revert ys. induction l as [| x l IH]; intros ys; simpl.
  - split; [by intros [= <-] | by inversion 1].
  - split.
    + destruct (f x) as [y |] eqn:Ef; emu_simpl; [| done].
      destruct (py_map_res f l) as [ys' |] eqn:E; emu_simpl; [| done].
      intros [= <-]. constructor; [done | by apply IH].
    + intros Hf. inversion Hf as [| ? y ? ys' Hx Hl]; subst.
      apply IH in Hl. by rewrite Hx, Hl.
Qed.

(** A pure [f] never raises: the map returns the list of results. *)
Lemma py_map_res_pure (g : B -> C) (l : list B) :
  (forall x, x ∈ l -> f x = Ok (g x)) -> py_map_res f l = Ok (g <$> l).
Proof.
  induction l as [| x l IH]; intros Hf; simpl; [done |].
  rewrite Hf by set_solver. emu_simpl. rewrite IH by set_solver. done.
Qed.

Lemma py_map_res_app (l1 l2 : list B) :
  py_map_res f (l1 ++ l2) =
  ys1 ← py_map_res f l1; ys2 ← py_map_res f l2; Ok (ys1 ++ ys2).
Proof.
  induction l1 as [| x l1 IH]; simpl.
  - by destruct (py_map_res f l2).
  - destruct (f x); emu_simpl; [| done]. rewrite IH.
    destruct (py_map_res f l1); emu_simpl; [| done].
    by destruct (py_map_res f l2).
Qed.
End py_map_res_lemmas.

(** ** Lists *)

Lemma zip_fmap_diag {B C} (f : B -> C) (l : list B) :
  zip l (f <$> l) = (fun x => (x, f x)) <$> l.
Proof. induction l as [| x l IH]; csimpl; [done | by f_equal]. Qed.

(** ** Strings *)

(** stdpp makes [String.append] opaque to [simpl]; its two equations. *)
Lemma string_append_nil (t : string) : String.append "" t = t.
Proof. reflexivity. Qed.

Lemma string_append_cons (a : Ascii.ascii) (s t : string) :
  String.append (String a s) t = String a (String.append s t).
Proof. reflexivity. Qed.

Create Rewrite HintDb str_rw.
#[export] Hint Rewrite string_append_nil string_append_cons : str_rw.

Lemma string_length_append (s1 s2 : string) :
  String.length (String.append s1 s2) = (String.length s1 + String.length s2)%nat.
Proof.
  induction s1 as [| a s1 IH]; autorewrite with str_rw; simpl; [done | by rewrite IH].
Qed.

(** Cancelling a common suffix. *)
Lemma string_append_inj_r (t s1 s2 : string) :
  String.append s1 t = String.append s2 t -> s1 = s2.
Proof.
  revert s2. induction s1 as [| a s1 IH]; intros [| b s2] Heq;
    autorewrite with str_rw in Heq; try done;
    try (apply (f_equal String.length) in Heq; simpl in Heq;
         rewrite ?string_length_append in Heq; lia).
  injection Heq as -> Heq. f_equal. by apply IH.
Qed.

Lemma string_append_inj_l (p s1 s2 : string) :
  String.append p s1 = String.append p s2 -> s1 = s2.
Proof.
  induction p as [| a p IH]; autorewrite with str_rw; [done | intros [= ?]; auto].
Qed.

(** The column names ["<prefix>" ++ d ++ ")"] determine [d]. *)
Lemma wrapped_name_inj (p d1 d2 : string) :
  String.append p (String.append d1 ")") = String.append p (String.append d2 ")") -> d1 = d2.
Proof. intros Heq%string_append_inj_l. by eapply string_append_inj_r. Qed.

(** An association list with distinct keys holds one value per key. *)
Lemma NoDup_fst_functional {K V} (l : list (K * V)) (k : K) (v1 v2 : V) :
  NoDup l.*1 -> (k, v1) ∈ l -> (k, v2) ∈ l -> v1 = v2.
Proof.
  induction l as [| [k' v'] l IH]; csimpl; [set_solver |].
  rewrite NoDup_cons. intros [Hk Hnd] H1%elem_of_cons H2%elem_of_cons.
  destruct H1 as [H1 | H1], H2 as [H2 | H2]; simplify_eq; auto;
    destruct Hk; apply list_elem_of_fmap; eexists (_, _); by split.
Qed.

Lemma NoDup_names_snoc {K V} (l : list (K * V)) (k : K) (v : V) :
  NoDup l.*1 -> k ∉ l.*1 -> NoDup (l ++ [(k, v)]).*1.
Proof.
  intros Hnd Hk. rewrite fmap_app. apply NoDup_app. split; [done |].
  split; [| apply NoDup_singleton]. intros x Hx ->%list_elem_of_singleton. done.
Qed.

Lemma elem_of_concat_fmap {B C} (f : B -> list C) (l : list B) (y : B) (x : C) :
  y ∈ l -> x ∈ f y -> x ∈ concat (f <$> l).
Proof.
  induction l as [| z l IH]; [set_solver |]. intros [-> | Hy]%elem_of_cons Hx; csimpl;
    apply elem_of_app; auto.
Qed.

Lemma elem_of_concat_fmap_inv {B C} (f : B -> list C) (l : list B) (x : C) :
  x ∈ concat (f <$> l) -> exists y, y ∈ l /\ x ∈ f y.
Proof.
  induction l as [| z l IH]; csimpl; [set_solver |].
  intros [Hx | Hx]%elem_of_app; [exists z; set_solver |].
  destruct (IH Hx) as (y & ? & ?). exists y. set_solver.
Qed.

(** The concatenation of lists that are each free of duplicates and
    pairwise disjoint for distinct indices is free of duplicates. *)
Lemma NoDup_concat_fmap {X Y} (f : X -> list Y) (xs : list X) :
  NoDup xs -> (forall x, x ∈ xs -> NoDup (f x)) ->
  (forall x y z, x ∈ xs -> y ∈ xs -> x <> y -> z ∈ f x -> z ∉ f y) ->
  NoDup (concat (f <$> xs)).
Proof.
  induction xs as [| x xs IH]; intros Hnd Hf Hdis; csimpl; [constructor |].
  apply NoDup_cons in Hnd as [Hx Hnd]. apply NoDup_app. split_and!.
  - apply Hf. set_solver.
  - intros z Hz (y & Hy & Hzy)%elem_of_concat_fmap_inv.
    apply (Hdis x y z); [set_solver | set_solver | by intros -> | done | done].
  - apply IH; [done | set_solver |]. intros; eapply Hdis; eauto; set_solver.
Qed.
