(* ===== verification/PyNum.v ===== *)
(** * Python numbers

    The arithmetic the predictor performs on the coefficients it reads from
    a pandas [Series] and on the slider levels.  In the program these are
    Python [float]s (IEEE-754 binary64) and the integer [0] that
    [Series.get] returns for a missing row.  The interface [PyArith] names
    the operations the code uses; it has two instances:
    - [float_arith] on the kernel's primitive binary64 floats, which is
      what CPython computes, bit for bit (used for concrete runs);
    - [Q_arith] on exact rationals, the "real numbers" of the spec, on which
      the algebraic properties of the model are proved. *)

From stdpp Require Import base.
From Stdlib Require Import ZArith QArith Floats Uint63.
From S2P Require Import Prelude.

(** The operations the source applies to numbers: [+], [-], [*], the
    default [0] of [beta.get(k, 0)], the literal [1.0], and the
    conversion of an [int] operand (the [100] of [y_val * 100]) when it
    meets a float. *)
Class PyArith (A : Type) := {
  py_zero : A;
  py_one : A;
  py_of_Z : Z -> A;
  py_add : A -> A -> A;
  py_sub : A -> A -> A;
  py_mul : A -> A -> A
}.

Notation "x +. y" := (py_add x y) (at level 50, left associativity) : emu_scope.
Notation "x -. y" := (py_sub x y) (at level 50, left associativity) : emu_scope.
Notation "x *. y" := (py_mul x y) (at level 40, left associativity) : emu_scope.

(** [float(n)] for an [int] [n]: exact below [2^53] in absolute value,
    which covers the constants the code converts. *)
Definition float_of_Z (n : Z) : float :=
  if (n <? 0)%Z then PrimFloat.opp (PrimFloat.of_uint63 (Uint63.of_Z (- n)))
  else PrimFloat.of_uint63 (Uint63.of_Z n).

(** CPython's float arithmetic.  The int [0] is converted to [0.0] before
    it meets a float, so it is the float [0]. *)
#[export] Instance float_arith : PyArith float := {
  py_zero := 0%float;
  py_one := 1%float;
  py_of_Z := float_of_Z;
  py_add := PrimFloat.add;
  py_sub := PrimFloat.sub;
  py_mul := PrimFloat.mul
}.

(** Exact arithmetic, the reference semantics of the spec. *)
#[export] Instance Q_arith : PyArith Q := {
  py_zero := 0%Q;
  py_one := 1%Q;
  py_of_Z := inject_Z;
  py_add := Qplus;
  py_sub := Qminus;
  py_mul := Qmult
}.

(** Unfold the [Q] instance in the goal and hypotheses. *)
Ltac unfold_Q_arith :=
  cbn [py_add py_sub py_mul py_zero py_one py_of_Z Q_arith] in * .

(** Decimal literals and comparison, for the sliders: the literal with
    digits [m] and [e] decimals is [m / 10^e] rounded once to the nearest
    number of the type, which for binary64 is one IEEE division of two
    exactly representable integers (as CPython parses [0.85]); [py_le] is
    Python's [<=]. *)
Class PyDec (A : Type) := {
  py_dec : Z -> Z -> A;
  py_le : A -> A -> bool
}.

#[export] Instance float_dec : PyDec float := {
  py_dec m e := PrimFloat.div (float_of_Z m) (float_of_Z (10 ^ e));
  py_le := PrimFloat.leb
}.

#[export] Instance Q_dec : PyDec Q := {
  py_dec m e := (inject_Z m / inject_Z (10 ^ e))%Q;
  py_le := Qle_bool
}.
