(* ===== verification/Keys.v ===== *)
(** * Coefficient names

    The row names of a coefficient table, as [src/app.py] builds them with
    f-strings from the year offset (lines 134-159): ["_cons"],
    ["{year_inc}.year_inc"], ["ivparm1"], ["{year_inc}.year_inc#c.ivparm1"],
    ["ivparm2"], ["{year_inc}.year_inc#c.ivparm2"], ["c.ivparm1#c.ivparm2"]
    and ["{year_inc}.year_inc#c.ivparm1#c.ivparm2"].  [CoefKey] is the
    structured key type of the spec's design notes; [key_name] prints it
    the way the f-strings do ([str] of a Python [int] is its decimal
    numeral), and [parse_key] reads a name back.  The round trip
    [parse_key (key_name k) = Some k] makes [key_name] injective: distinct
    model terms never read the same row. *)

From stdpp Require Import base strings countable.
From Stdlib Require Import ZArith Ascii String DecimalString DecimalZ.
From S2P Require Import Prelude.

Local Open Scope string_scope.

(** ** Data *)

(** The two intervention parameters of the regression. *)
Inductive IvParm := ivparm1 | ivparm2.

(** One term of the fitted model, indexed by the year offset where the
    term is year-specific. *)
Inductive CoefKey :=
  | Intercept
  | YearTrend (y : Z)
  | Main (p : IvParm)
  | YearMain (y : Z) (p : IvParm)
  | PairInteraction
  | YearPair (y : Z).

#[export] Instance IvParm_eq_dec : EqDecision IvParm.
Proof. solve_decision. Defined.

#[export] Instance CoefKey_eq_dec : EqDecision CoefKey.
Proof. solve_decision. Defined.

(** ** Printing, as the f-strings do *)

(** [str(n)] of a Python [int]: its decimal numeral, with a leading ["-"]
    when negative. *)
Definition z_str (n : Z) : string := NilZero.string_of_int (Z.to_int n).

Definition ivparm_name (p : IvParm) : string :=
  match p with ivparm1 => "ivparm1" | ivparm2 => "ivparm2" end.

Definition key_name (k : CoefKey) : string :=
  match k with
  | Intercept => "_cons"
  | YearTrend y => z_str y ++ ".year_inc"
  | Main p => ivparm_name p
  | YearMain y p => z_str y ++ ".year_inc#c." ++ ivparm_name p
  | PairInteraction => "c.ivparm1#c.ivparm2"
  | YearPair y => z_str y ++ ".year_inc#c.ivparm1#c.ivparm2"
  end.

(** ** Reading a name back *)

(** Split [s] at the first occurrence of [c]. *)
Fixpoint split_at (c : ascii) (s : string) : option (string * string) :=
  match s with
  | EmptyString => None
  | String a s' =>
      if Ascii.eqb a c then Some (EmptyString, s')
      else match split_at c s' with
           | Some (pre, post) => Some (String a pre, post)
           | None => None
           end
  end.

Definition parse_z (s : string) : option Z := Z.of_int <$> NilZero.int_of_string s.

(** The suffixes that follow ["{year_inc}."]. *)
Definition parse_year_suffix (y : Z) (post : string) : option CoefKey :=
  if String.eqb post "year_inc" then Some (YearTrend y)
  else if String.eqb post "year_inc#c.ivparm1" then Some (YearMain y ivparm1)
  else if String.eqb post "year_inc#c.ivparm2" then Some (YearMain y ivparm2)
  else if String.eqb post "year_inc#c.ivparm1#c.ivparm2" then Some (YearPair y)
  else None.

Definition parse_key (s : string) : option CoefKey :=
  match split_at "." s with
  | Some (pre, post) =>
      match parse_z pre with
      | Some y => parse_year_suffix y post
      | None => if String.eqb s "c.ivparm1#c.ivparm2" then Some PairInteraction else None
      end
  | None =>
      if String.eqb s "_cons" then Some Intercept
      else if String.eqb s "ivparm1" then Some (Main ivparm1)
      else if String.eqb s "ivparm2" then Some (Main ivparm2)
      else None
  end.

(** ** The round trip *)

Lemma split_at_uint_dot (d : Decimal.uint) (s : string) :
  split_at "." (NilEmpty.string_of_uint d ++ String "." s) =
  Some (NilEmpty.string_of_uint d, s).
Proof. induction d; simpl; rewrite ?IHd; reflexivity. Qed.

(** A numeral printed by [str] holds no ["."], so the first ["."] of a
    year-specific name is the one the f-string writes after the offset. *)
Lemma split_at_z_str (y : Z) (s : string) :
  split_at "." (z_str y ++ String "." s) = Some (z_str y, s).
Proof.
  unfold z_str, NilZero.string_of_int, NilZero.string_of_uint.
  destruct (Z.to_int y) as [[] | []]; simpl; rewrite ?split_at_uint_dot; reflexivity.
Qed.

Lemma parse_z_string_of_int (d : Decimal.int) :
  parse_z (NilZero.string_of_int d) = Some (Z.of_int d).
Proof.
  unfold parse_z.
  destruct d as [[] | []]; try reflexivity; rewrite NilZero.isi by congruence; reflexivity.
Qed.

Lemma parse_z_str (y : Z) : parse_z (z_str y) = Some y.
Proof. unfold z_str. by rewrite parse_z_string_of_int, DecimalZ.of_to. Qed.

(** The year-specific names: ["{y}." ++ suffix]. *)
Lemma parse_key_year (y : Z) (post : string) :
  parse_key (z_str y ++ String "." post) = parse_year_suffix y post.
Proof. unfold parse_key. by rewrite split_at_z_str, parse_z_str. Qed.

(** The names the predictor builds read back to the terms they came
    from, every year offset included (negative ones too). *)
Lemma parse_key_name_core (k : CoefKey) : parse_key (key_name k) = Some k.
Proof.
  destruct k as [| y | [] | y [] | | y]; try reflexivity;
    cbn [key_name ivparm_name]; rewrite ?string_app_assoc; apply parse_key_year.
Qed.

Lemma key_name_inj_core (k1 k2 : CoefKey) : key_name k1 = key_name k2 -> k1 = k2.
Proof.
  intros Heq. apply (inj Some). by rewrite <- !parse_key_name_core, Heq.
Qed.

(** C9: two model terms with the same row name are the same term: the
    f-strings never make two coefficients of the model read one row. *)
Theorem key_name_inj (k1 k2 : CoefKey) : key_name k1 = key_name k2 -> k1 = k2.
Proof. by eapply key_name_inj_core. Qed.

Lemma key_name_inj_witness :
  key_name (YearMain 2 ivparm1) = key_name (YearMain 2 ivparm1) /\
  YearMain 2 ivparm1 = YearMain 2 ivparm1.
Proof. split; [reflexivity | apply key_name_inj; reflexivity]. Defined.

#[export] Instance CoefKey_countable : Countable CoefKey :=
  inj_countable key_name parse_key parse_key_name_core.
