(* ===== verification/Coef.v ===== *)
(** * The coefficient table

    [beta = df[target_col]] in [src/app.py] (line 124) is a pandas
    [Series] indexed by row names; the predictor reads it only through
    [beta.get(name, 0)] (lines 134-159).  We model the series as a
    [gmap string A] and the read of one model term as [coefficient], the
    typed accessor of the spec's design notes.  Two tables are equivalent
    when every model term reads the same coefficient from both; the
    predictor respects that equivalence (see [Predictor.v]), which gives
    the zero-default policy and the irrelevance of rows that are not
    model terms. *)

From stdpp Require Import base gmap strings.
From Stdlib Require Import ZArith.
From S2P Require Import Prelude PyNum Keys.

Section Coefficients.
Context {A : Type} `{PyArith A}.

(** [beta.get(name, 0)] for the row name of a model term. *)
Definition coefficient (beta : gmap string A) (k : CoefKey) : A :=
  beta.get[key_name k, py_zero].

(** Tables that agree on every model term. *)
Record tbl_equiv (b1 b2 : gmap string A) : Prop := TblEquiv {
  tbl_equiv_at : forall k, coefficient b1 k = coefficient b2 k
}.

#[export] Instance tbl_equiv_equiv : Equivalence tbl_equiv.
Proof.
  split; [intros b | intros b1 b2 [H12] | intros b1 b2 b3 [H12] [H23]];
    constructor; congruence.
Qed.

#[export] Instance coefficient_proper : Proper (tbl_equiv ==> eq ==> eq) coefficient.
Proof. intros b1 b2 [Hb] k ? <-. apply Hb. Qed.

Lemma coefficient_insert_eq beta k v :
  coefficient (<[key_name k := v]> beta) k = v.
Proof. apply py_get_insert_eq. Qed.

Lemma coefficient_insert_ne beta s v k :
  s <> key_name k -> coefficient (<[s := v]> beta) k = coefficient beta k.
Proof. apply py_get_insert_ne. Qed.

Lemma coefficient_delete_ne beta s k :
  s <> key_name k -> coefficient (delete s beta) k = coefficient beta k.
Proof. apply py_get_delete_ne. Qed.

(** The default-fill policy: a missing row reads as [0]. *)
Lemma coefficient_missing beta k :
  beta !! key_name k = None -> coefficient beta k = py_zero.
Proof. apply py_get_None. Qed.

(** A table without row [s] and the table with [s] set to [0] are
    equivalent. *)
Lemma tbl_equiv_delete_zero beta s :
  tbl_equiv (delete s beta) (<[s := py_zero]> beta).
Proof.
  constructor. intros k. destruct (decide (s = key_name k)) as [-> | Hne].
  - by rewrite coefficient_insert_eq; apply py_get_delete_eq.
  - by rewrite coefficient_insert_ne, coefficient_delete_ne.
Qed.

(** A row whose name is no model term is never read. *)
Lemma tbl_equiv_insert_foreign beta s v :
  parse_key s = None -> tbl_equiv (<[s := v]> beta) beta.
Proof.
  intros Hs. constructor. intros k. apply coefficient_insert_ne. intros ->.
  by rewrite parse_key_name_core in Hs.
Qed.

(** Overwriting a row with the value it already reads is harmless. *)
Lemma tbl_equiv_insert_coefficient beta k :
  tbl_equiv (<[key_name k := coefficient beta k]> beta) beta.
Proof.
  constructor. intros j. destruct (decide (k = j)) as [-> | Hne].
  - by rewrite coefficient_insert_eq.
  - apply coefficient_insert_ne. intros ?%key_name_inj_core. congruence.
Qed.
End Coefficients.

#[export] Hint Rewrite @coefficient_insert_eq : emu_rw.
