(* ===== verification/Predictor.v ===== *)
(** * The linear predictor

    The body of the per-year loop of [src/app.py] (lines 129-189): for one
    intervention [key], its slider levels, the coefficient series [beta]
    and a calendar [year], the baseline value (levels [1.0]) and the
    intervention value (the user's levels).  [key = "pcogstate"] selects
    the two-level formula, every other key the single-level one.  The
    levels are read from the [intervention_levels] dict with [d[k]], which
    raises [KeyError] when the key is absent; the coefficients are read
    with [beta.get(name, 0)], which never raises.

    The definitions are generic in the number type ([PyArith]).  The
    theorems of this file hold in every number type, the program's
    binary64 floats included: the zero default, which rows each variant
    reads, the errors, and that the baseline ignores the levels and is
    the intervention formula at level [1.0].  The algebra of the formula
    (its refinement of the spec's polynomial, the change and its bounds)
    is proved on exact rationals in [Refinement.v]. *)

From stdpp Require Import base gmap strings.
From Stdlib Require Import ZArith QArith Floats.
From S2P Require Import Prelude PyNum Keys Coef.

Open Scope emu_scope.

(** The fixed reference year of the year offset. *)
Definition REF_YEAR : Z := 2024.

(** [year_inc = year - 2024] (line 130). *)
Definition year_inc (year : Z) : Z := (year - REF_YEAR)%Z.

Section Predictor.
Context {A : Type} `{PyArith A}.
Implicit Types (beta : gmap string A) (levels : gmap string A).

(** The standard formula (lines 179-186), at level [L]:
    [_cons + N.year_inc + ivparm1*L + N.year_inc#c.ivparm1*L], evaluated
    left to right as Python does.  The baseline is the same expression at
    [L = 1.0] (line 183). *)
Definition single_value beta (yi : Z) (L : A) : A :=
  let b_cons := coefficient beta Intercept in
  let b_year := coefficient beta (YearTrend yi) in
  let b_iv1 := coefficient beta (Main ivparm1) in
  let b_year_iv1 := coefficient beta (YearMain yi ivparm1) in
  b_cons +. b_year +. b_iv1 *. L +. b_year_iv1 *. L.

(** The two-level formula of the [pcogstate] model (lines 152-171); the
    baseline is the same expression at [L1 = L2 = 1.0] (lines 162-165). *)
Definition two_value beta (yi : Z) (L1 L2 : A) : A :=
  let b_cons := coefficient beta Intercept in
  let b_year := coefficient beta (YearTrend yi) in
  let b_iv1 := coefficient beta (Main ivparm1) in
  let b_year_iv1 := coefficient beta (YearMain yi ivparm1) in
  let b_iv2 := coefficient beta (Main ivparm2) in
  let b_year_iv2 := coefficient beta (YearMain yi ivparm2) in
  let b_iv1_iv2 := coefficient beta PairInteraction in
  let b_year_iv1_iv2 := coefficient beta (YearPair yi) in
  b_cons +. b_year +.
  b_iv1 *. L1 +. b_year_iv1 *. L1 +.
  b_iv2 *. L2 +. b_year_iv2 *. L2 +.
  b_iv1_iv2 *. L1 *. L2 +. b_year_iv1_iv2 *. L1 *. L2.

(** One iteration of [for year in year_range] (lines 129-189): the pair
    [(base_val, inter_val)], or the [KeyError] of a missing level. *)
Definition predict_year (key : string) levels beta (year : Z) : PyRes (A * A) :=
  let yi := year_inc year in
  if String.eqb key "pcogstate" then
    L1 ← py_index levels "pcogstate_1";
    L2 ← py_index levels "pcogstate_2";
    Ok (two_value beta yi py_one py_one, two_value beta yi L1 L2)
  else
    L1 ← py_index levels key;
    Ok (single_value beta yi py_one, single_value beta yi L1).
End Predictor.

(** ** What the predictor reads *)

(** The model terms each formula reads at year offset [yi]. *)
Definition single_keys (yi : Z) : list CoefKey :=
  [Intercept; YearTrend yi; Main ivparm1; YearMain yi ivparm1].

Definition two_keys (yi : Z) : list CoefKey :=
  single_keys yi ++ [Main ivparm2; YearMain yi ivparm2; PairInteraction; YearPair yi].

(** The terms of the second intervention parameter, which only the
    two-level model has. *)
Definition ivparm2_term (k : CoefKey) : bool :=
  match k with
  | Main ivparm2 | YearMain _ ivparm2 | PairInteraction | YearPair _ => true
  | _ => false
  end.

(** The levels [predict_year] reads from [intervention_levels], in the
    order it reads them. *)
Definition needed_levels (key : string) : list string :=
  if String.eqb key "pcogstate" then ["pcogstate_1"; "pcogstate_2"] else [key].

(** The first of [ks] that [levels] lacks. *)
Definition first_missing {A} (levels : gmap string A) (ks : list string) : option string :=
  head (filter (fun k => levels !! k = None) ks).

Lemma ivparm2_term_not_single (k : CoefKey) (yi : Z) :
  ivparm2_term k = true -> k ∉ single_keys yi.
Proof.
  destruct k as [| | [] | ? [] | |]; simpl; try discriminate; intros _;
    unfold single_keys; rewrite !elem_of_cons, elem_of_nil; naive_solver.
Qed.

Section Reads.
Context {A : Type} `{PyArith A}.
Implicit Types (beta : gmap string A) (levels : gmap string A).

(** Two tables that agree on the terms a formula reads give the same
    value. *)
Lemma single_value_agree beta1 beta2 yi L :
  (forall k, k ∈ single_keys yi -> coefficient beta1 k = coefficient beta2 k) ->
  single_value beta1 yi L = single_value beta2 yi L.
Proof.
  intros Hk. unfold single_value.
  rewrite !Hk; [reflexivity | unfold single_keys; set_solver..].
Qed.

Lemma two_value_agree beta1 beta2 yi L1 L2 :
  (forall k, k ∈ two_keys yi -> coefficient beta1 k = coefficient beta2 k) ->
  two_value beta1 yi L1 L2 = two_value beta2 yi L1 L2.
Proof.
  intros Hk. unfold two_value.
  rewrite !Hk; [reflexivity | unfold two_keys, single_keys; set_solver..].
Qed.

#[export] Instance single_value_proper :
  Proper (tbl_equiv ==> eq ==> eq ==> eq) single_value.
Proof. intros b1 b2 [Hb] yi ? <- L ? <-. apply single_value_agree. auto. Qed.

#[export] Instance two_value_proper :
  Proper (tbl_equiv ==> eq ==> eq ==> eq ==> eq) two_value.
Proof. intros b1 b2 [Hb] yi ? <- L1 ? <- L2 ? <-. apply two_value_agree. auto. Qed.

#[export] Instance predict_year_proper key levels :
  Proper (tbl_equiv ==> eq ==> eq) (predict_year key levels).
Proof.
  intros b1 b2 Hb year ? <-. unfold predict_year.
  destruct (String.eqb _ _);
    [destruct (py_index levels "pcogstate_1"), (py_index levels "pcogstate_2")
    | destruct (py_index levels key)]; emu_simpl; by rewrite ?Hb.
Qed.
End Reads.

Section Generic.
Context {A : Type} `{PyArith A}.
Implicit Types (beta : gmap string A) (levels : gmap string A).

(** C1 (zero default): for every intervention, level dict and year, the
    predictor gives the same result on a table that lacks row [s] as on
    the table where [s] holds [0], in any number type (Python floats
    included). *)
Theorem predict_year_zero_default key levels beta s year :
  predict_year key levels (delete s beta) year =
  predict_year key levels (<[s := py_zero]> beta) year.
Proof. by rewrite tbl_equiv_delete_zero. Qed.

(** C5 (variant selection): for every intervention other than
    ["pcogstate"], the result does not depend on the rows of the
    second intervention parameter ([ivparm2], its year interactions and
    both pair interactions): overwriting one of them changes nothing. *)
Theorem single_level_ignores_ivparm2 key levels beta year k v :
  key <> "pcogstate" -> ivparm2_term k = true ->
  predict_year key levels (<[key_name k := v]> beta) year =
  predict_year key levels beta year.
Proof.
  intros Hkey Hk. unfold predict_year.
  destruct (String.eqb_spec key "pcogstate"); [done |].
  destruct (py_index levels key); emu_simpl; [| done].
  rewrite !(single_value_agree (<[key_name k := v]> beta) beta); [done | |];
    intros j Hj; apply coefficient_insert_ne; intros ?%key_name_inj_core; subst;
    by eapply ivparm2_term_not_single.
Qed.

(** The raising cases, unfolded: which level is read first. *)
Lemma predict_year_unfold key levels beta year :
  predict_year key levels beta year =
  if String.eqb key "pcogstate" then
    match levels !! "pcogstate_1", levels !! "pcogstate_2" with
    | Some L1, Some L2 => Ok (two_value beta (year_inc year) py_one py_one,
                              two_value beta (year_inc year) L1 L2)
    | None, _ => Raise (KeyError "pcogstate_1")
    | Some _, None => Raise (KeyError "pcogstate_2")
    end
  else
    match levels !! key with
    | Some L => Ok (single_value beta (year_inc year) py_one,
                    single_value beta (year_inc year) L)
    | None => Raise (KeyError key)
    end.
Proof.
  unfold predict_year, py_index.
  destruct (String.eqb _ _);
    [destruct (levels !! "pcogstate_1"), (levels !! "pcogstate_2") | destruct (levels !! key)];
    reflexivity.
Qed.

Lemma predict_year_raises_core key levels beta year e :
  predict_year key levels beta year = Raise e <->
  exists k, first_missing levels (needed_levels key) = Some k /\ e = KeyError k.
Proof.
  rewrite predict_year_unfold. unfold first_missing, needed_levels.
  destruct (String.eqb _ _); rewrite ?filter_cons, ?filter_nil;
    repeat case_decide; simpl; repeat case_match; naive_solver.
Qed.

(** C6 (errors): the predictor raises exactly when a level it needs is
    missing from [intervention_levels], and the exception is the
    [KeyError] of the first missing one ("pcogstate_1" before
    "pcogstate_2"); a missing coefficient never raises. *)
Theorem predict_year_raises key levels beta year e :
  predict_year key levels beta year = Raise e <->
  exists k, first_missing levels (needed_levels key) = Some k /\ e = KeyError k.
Proof. by eapply predict_year_raises_core. Qed.

(** When every level the variant needs is in the dict, the predictor
    returns a pair. *)
Lemma predict_year_total_core key levels beta year :
  Forall (fun k => is_Some (levels !! k)) (needed_levels key) ->
  exists b i, predict_year key levels beta year = Ok (b, i).
Proof.
  rewrite predict_year_unfold. unfold needed_levels.
  destruct (String.eqb _ _); rewrite ?Forall_cons;
    intros; destruct_and?;
    repeat match goal with H : is_Some _ |- _ => destruct H as [? ->] end; eauto.
Qed.

(** C7 (baseline ignores the sliders): in every number type, binary64
    included, the baseline the predictor returns depends only on the
    table, the intervention and the year: two runs with any two level
    dicts that both return give bit-identical baselines, so the dashed
    line never moves with the sliders. *)
Theorem predict_year_baseline_levels key levels levels' beta year b i b' i' :
  predict_year key levels beta year = Ok (b, i) ->
  predict_year key levels' beta year = Ok (b', i') -> b = b'.
Proof.
  rewrite !predict_year_unfold.
  destruct (String.eqb _ _); repeat case_match; naive_solver.
Qed.

(** C8 (unit levels): in every number type, binary64 included, when
    every level the variant reads is [1.0] the predictor returns, and its
    intervention value is its baseline bit for bit: the baseline is the
    intervention formula at level [1.0], term for term. *)
Theorem predict_year_unit_levels key levels beta year :
  Forall (fun k => levels !! k = Some py_one) (needed_levels key) ->
  exists b, predict_year key levels beta year = Ok (b, b).
Proof.
  rewrite predict_year_unfold. unfold needed_levels.
  destruct (String.eqb _ _); rewrite ?Forall_cons; intros; destruct_and?;
    repeat match goal with H : _ !! _ = Some _ |- _ => rewrite H end; eauto.
Qed.

End Generic.

(** A small single-level table: the spec's example of section 8. *)
Definition example_beta : gmap string Q :=
  list_to_map [("_cons", 10%Q); ("2.year_inc", 1%Q); ("ivparm1", (-4)%Q);
               ("2.year_inc#c.ivparm1", (-1 # 2)%Q)].

Definition example_levels : gmap string Q :=
  list_to_map [("phibpe", 17 # 20); ("pcogstate_1", 17 # 20); ("pcogstate_2", 9 # 10)]%Q.

(** The same table and levels as binary64 floats, as the program holds
    them. *)
Definition example_beta_f : gmap string float :=
  list_to_map [("_cons", 10%float); ("2.year_inc", 1%float); ("ivparm1", (-4)%float);
               ("2.year_inc#c.ivparm1", (-0.5)%float)].

Definition example_levels_f : gmap string float :=
  list_to_map [("phibpe", 0.85%float); ("pcogstate_1", 0.85%float); ("pcogstate_2", 0.9%float)].

Lemma single_level_ignores_ivparm2_witness :
  "phibpe" <> "pcogstate" /\ ivparm2_term (YearMain 2 ivparm2) = true /\
  predict_year "phibpe" example_levels (<[key_name (YearMain 2 ivparm2) := 5%Q]> example_beta) 2026 =
  predict_year "phibpe" example_levels example_beta 2026.
Proof.
  split; [discriminate | split; [reflexivity |]].
  apply single_level_ignores_ivparm2; [discriminate | reflexivity].
Defined.

Lemma predict_year_baseline_levels_witness :
  predict_year "phibpe" example_levels_f example_beta_f 2026 = Ok (6.5%float, 7.175%float) /\
  predict_year "phibpe" (<["phibpe" := 0.5%float]> example_levels_f) example_beta_f 2026
    = Ok (6.5%float, 8.75%float) /\
  6.5%float = 6.5%float.
Proof.
  assert (H1 : predict_year "phibpe" example_levels_f example_beta_f 2026
               = Ok (6.5%float, 7.175%float)) by (vm_compute; reflexivity).
  assert (H2 : predict_year "phibpe" (<["phibpe" := 0.5%float]> example_levels_f) example_beta_f 2026
               = Ok (6.5%float, 8.75%float)) by (vm_compute; reflexivity).
  split; [exact H1 | split; [exact H2 |]].
  exact (predict_year_baseline_levels _ _ _ _ _ _ _ _ _ H1 H2).
Defined.

(** Both levels of the dementia/MCI model at their maximum [1.0]. *)
Definition unit_levels_f : gmap string float :=
  list_to_map [("pcogstate_1", 1%float); ("pcogstate_2", 1%float)].

Lemma predict_year_unit_levels_witness :
  Forall (fun k => unit_levels_f !! k = Some py_one) (needed_levels "pcogstate") /\
  exists b, predict_year "pcogstate" unit_levels_f example_beta_f 2030 = Ok (b, b).
Proof.
  assert (H : Forall (fun k => unit_levels_f !! k = Some py_one) (needed_levels "pcogstate")).
  { repeat constructor; vm_compute; reflexivity. }
  split; [exact H | exact (predict_year_unit_levels "pcogstate" unit_levels_f example_beta_f 2030 H)].
Defined.

(** The spec's example P4, run as the program runs it: with every main
    and pair-interaction
    coefficient [1], the intercept [0] and no year terms, the two-level
    baseline is [1 + 1 + 1 = 3]: the formula counts [ivparm1], [ivparm2]
    and their interaction once each, not the [4] the spec states. *)
Lemma spec_example_two_level_baseline :
  exists i, predict_year "pcogstate" example_levels_f
    (list_to_map [("_cons", 0%float); ("ivparm1", 1%float); ("ivparm2", 1%float);
                  ("c.ivparm1#c.ivparm2", 1%float)]) 2030 = Ok (3%float, i).
Proof. eexists. vm_compute. reflexivity. Qed.
