(* ===== verification/Refinement.v ===== *)
(** * The predictor refines the spec's polynomial

    On exact rationals the code's left-to-right sums are the regression
    polynomial of the spec (§4.1): an intercept and year trend, plus for
    each level an effect (main coefficient plus its year interaction)
    times the level, plus the pair effect times [L1 * L2].  The
    single-level formula is that polynomial without the terms of the
    second parameter.  From this form follow the change from baseline and
    its bounds over the slider range [[0.5, 1.0]], all in exact
    arithmetic.  Section [Binary64] shows that the bound and the
    monotonicity are properties of the spec's real-valued model only: on
    the binary64 floats the program computes with, concrete tables break
    both. *)

From stdpp Require Import base gmap strings.
From Stdlib Require Import ZArith QArith Qabs Lqa PrimFloat.
From S2P Require Import Prelude PyNum Keys Coef Predictor.

Local Open Scope Q_scope.

(** ** The abstract specification *)

Module Spec.
(** The combined effects at year offset [yi]. *)
Definition effect1 (c : CoefKey -> Q) (yi : Z) : Q := c (Main ivparm1) + c (YearMain yi ivparm1).
Definition effect2 (c : CoefKey -> Q) (yi : Z) : Q := c (Main ivparm2) + c (YearMain yi ivparm2).
Definition effect12 (c : CoefKey -> Q) (yi : Z) : Q := c PairInteraction + c (YearPair yi).

(** [value(L1, L2)] of the spec, step 4. *)
Definition value (c : CoefKey -> Q) (yi : Z) (L1 L2 : Q) : Q :=
  c Intercept + c (YearTrend yi) + effect1 c yi * L1 + effect2 c yi * L2
  + effect12 c yi * (L1 * L2).

(** The single-level model has no terms of the second parameter. *)
Definition drop_ivparm2 (c : CoefKey -> Q) : CoefKey -> Q :=
  fun k => if ivparm2_term k then 0 else c k.

(** The spec's predictor: the variant chosen by the intervention, the
    levels read from the dict, the pair (baseline, intervention). *)
Definition predict (key : string) (levels : gmap string Q) (c : CoefKey -> Q) (year : Z)
    : PyRes (Q * Q) :=
  let yi := year_inc year in
  if String.eqb key "pcogstate" then
    L1 ← py_index levels "pcogstate_1";
    L2 ← py_index levels "pcogstate_2";
    Ok (value c yi 1 1, value c yi L1 L2)
  else
    L ← py_index levels key;
    Ok (value (drop_ivparm2 c) yi 1 1, value (drop_ivparm2 c) yi L 1).
End Spec.

(** Pairs of rationals equal componentwise. *)
Definition Qeq2 (p q : Q * Q) : Prop := fst p == fst q /\ snd p == snd q.

(** ** The code computes the spec's polynomial *)

Section Exact.
Implicit Types (beta : gmap string Q) (levels : gmap string Q).

Lemma single_value_spec beta yi L :
  single_value beta yi L == Spec.value (Spec.drop_ivparm2 (coefficient beta)) yi L 1.
Proof.
  unfold single_value, Spec.value, Spec.effect1, Spec.effect2, Spec.effect12,
    Spec.drop_ivparm2; unfold_Q_arith; simpl. ring.
Qed.

Lemma two_value_spec beta yi L1 L2 :
  two_value beta yi L1 L2 == Spec.value (coefficient beta) yi L1 L2.
Proof.
  unfold two_value, Spec.value, Spec.effect1, Spec.effect2, Spec.effect12;
    unfold_Q_arith. ring.
Qed.

(** C2 (refinement): on exact numbers the predictor and the spec's
    predictor agree on every input: both raise the same [KeyError], or
    both return a baseline and an intervention value, equal to the
    spec's polynomial at levels [(1, 1)] and at the user's levels. *)
Theorem predict_year_refines key levels beta year :
  res_rel Qeq2 (predict_year key levels beta year)
               (Spec.predict key levels (coefficient beta) year).
Proof.
  rewrite predict_year_unfold. unfold Spec.predict, py_index.
  destruct (String.eqb _ _);
    [destruct (levels !! "pcogstate_1"), (levels !! "pcogstate_2") | destruct (levels !! key)];
    emu_simpl; constructor; split; cbn [fst snd];
    rewrite ?single_value_spec, ?two_value_spec; reflexivity.
Qed.
End Exact.

(** ** Change from baseline and its bounds *)

Section Change.
Implicit Types (beta : gmap string Q).

Lemma single_value_change_core beta yi L :
  single_value beta yi L - single_value beta yi 1 ==
  Spec.effect1 (coefficient beta) yi * (L - 1).
Proof.
  rewrite !single_value_spec. unfold Spec.value, Spec.effect1, Spec.effect2,
    Spec.effect12, Spec.drop_ivparm2; simpl. ring.
Qed.

(** C14 (change, single level): on exact numbers
    [intervention - baseline = (ivparm1 + N.year_inc#c.ivparm1) * (L - 1)]. *)
Theorem single_value_change beta yi L :
  single_value beta yi L - single_value beta yi 1 ==
  Spec.effect1 (coefficient beta) yi * (L - 1).
Proof. by eapply single_value_change_core. Qed.

Lemma two_value_change_core beta yi L1 L2 :
  two_value beta yi L1 L2 - two_value beta yi 1 1 ==
  Spec.effect1 (coefficient beta) yi * (L1 - 1) + Spec.effect2 (coefficient beta) yi * (L2 - 1)
  + Spec.effect12 (coefficient beta) yi * (L1 * L2 - 1).
Proof. rewrite !two_value_spec. unfold Spec.value. ring. Qed.

(** C15 (change, two levels, exact arithmetic): evaluated on exact
    rationals, the arithmetic of the spec's polynomial, the two-level
    formula's change [intervention - baseline] is the sum of the three
    effects, each times the distance of its level term from [1].  The
    program's binary64 values differ from this by rounding. *)
Theorem two_value_change beta yi L1 L2 :
  two_value beta yi L1 L2 - two_value beta yi 1 1 ==
  Spec.effect1 (coefficient beta) yi * (L1 - 1) + Spec.effect2 (coefficient beta) yi * (L2 - 1)
  + Spec.effect12 (coefficient beta) yi * (L1 * L2 - 1).
Proof. by eapply two_value_change_core. Qed.

Lemma Qabs_mul_le (e x b : Q) : Qabs x <= b -> Qabs (e * x) <= Qabs e * b.
Proof.
  intros Hx. rewrite Qabs_Qmult. apply Qmult_le_compat_nonneg; [split; [apply Qabs_nonneg | lra] |].
  split; [apply Qabs_nonneg | exact Hx].
Qed.

(** A slider level in [[0.5, 1.0]] is at most [1/2] away from [1], and a
    product of two is at most [3/4] away. *)
Lemma level_dist (L : Q) : 1 # 2 <= L <= 1 -> Qabs (L - 1) <= 1 # 2.
Proof. intros [? ?]. apply Qabs_case; intros; lra. Qed.

Lemma level_prod_dist (L1 L2 : Q) :
  1 # 2 <= L1 <= 1 -> 1 # 2 <= L2 <= 1 -> Qabs (L1 * L2 - 1) <= 3 # 4.
Proof.
  intros [? ?] [? ?].
  assert (1 # 4 <= L1 * L2 <= 1) by (split; nra).
  apply Qabs_case; intros; lra.
Qed.

(** C16 (bounds, single level, exact arithmetic): evaluated on exact
    rationals, with a level in the slider range [[0.5, 1.0]] the
    single-level formula's intervention value is within half the
    combined [ivparm1] effect of its baseline.  This is a property of the
    spec's real-valued model, not of the program's binary64 values:
    [single_value_change_bound_binary64] below exceeds the bound. *)
Theorem single_value_change_bound beta yi L :
  1 # 2 <= L <= 1 ->
  Qabs (single_value beta yi L - single_value beta yi 1) <=
  Qabs (Spec.effect1 (coefficient beta) yi) * (1 # 2).
Proof.
  intros HL. rewrite single_value_change_core. by apply Qabs_mul_le, level_dist.
Qed.

(** C17 (bounds, two levels, exact arithmetic): evaluated on exact
    rationals, with both levels in [[0.5, 1.0]] the two-level formula's
    change is at most half of each main effect plus three quarters of the
    pair effect.  As for the single-level bound, binary64 rounding of the
    intercept sum can exceed it. *)
Theorem two_value_change_bound beta yi L1 L2 :
  1 # 2 <= L1 <= 1 -> 1 # 2 <= L2 <= 1 ->
  Qabs (two_value beta yi L1 L2 - two_value beta yi 1 1) <=
  Qabs (Spec.effect1 (coefficient beta) yi) * (1 # 2)
  + Qabs (Spec.effect2 (coefficient beta) yi) * (1 # 2)
  + Qabs (Spec.effect12 (coefficient beta) yi) * (3 # 4).
Proof.
  intros H1 H2. rewrite two_value_change_core.
  eapply Qle_trans; [apply Qabs_triangle |].
  apply Qplus_le_compat; [eapply Qle_trans; [apply Qabs_triangle |]; apply Qplus_le_compat |].
  all: apply Qabs_mul_le; auto using level_dist, level_prod_dist.
Qed.

(** C18 (monotonicity, exact arithmetic): evaluated on exact rationals,
    when the combined [ivparm1] effect is non-negative the single-level
    formula grows with the level; in particular a level below [1] never
    raises the value above the baseline.  In binary64 this fails:
    [single_value_monotone_binary64] below lowers the value when the
    slider moves up by one step. *)
Theorem single_value_monotone beta yi L L' :
  0 <= Spec.effect1 (coefficient beta) yi -> L <= L' ->
  single_value beta yi L <= single_value beta yi L'.
Proof.
  intros He HL.
  pose proof (single_value_change_core beta yi L).
  pose proof (single_value_change_core beta yi L'). nra.
Qed.
End Change.

(** ** Witnesses at the spec's example *)

Lemma single_value_change_bound_witness :
  1 # 2 <= 17 # 20 <= 1 /\
  Qabs (single_value example_beta 2 (17 # 20) - single_value example_beta 2 1) <=
  Qabs (Spec.effect1 (coefficient example_beta) 2) * (1 # 2).
Proof.
  assert (HL : 1 # 2 <= 17 # 20 <= 1) by (split; vm_compute; discriminate).
  split; [exact HL | exact (single_value_change_bound example_beta 2 _ HL)].
Defined.

Lemma two_value_change_bound_witness :
  1 # 2 <= 17 # 20 <= 1 /\ 1 # 2 <= 9 # 10 <= 1 /\
  Qabs (two_value example_beta 2 (17 # 20) (9 # 10) - two_value example_beta 2 1 1) <=
  Qabs (Spec.effect1 (coefficient example_beta) 2) * (1 # 2)
  + Qabs (Spec.effect2 (coefficient example_beta) 2) * (1 # 2)
  + Qabs (Spec.effect12 (coefficient example_beta) 2) * (3 # 4).
Proof.
  assert (H1 : 1 # 2 <= 17 # 20 <= 1) by (split; vm_compute; discriminate).
  assert (H2 : 1 # 2 <= 9 # 10 <= 1) by (split; vm_compute; discriminate).
  split; [exact H1 | split; [exact H2 |]].
  exact (two_value_change_bound example_beta 2 _ _ H1 H2).
Defined.

Lemma single_value_monotone_witness :
  0 <= Spec.effect1 (coefficient (<["ivparm1" := 4]> example_beta)) 2 /\ 17 # 20 <= 1 /\
  single_value (<["ivparm1" := 4]> example_beta) 2 (17 # 20) <=
  single_value (<["ivparm1" := 4]> example_beta) 2 1.
Proof.
  assert (He : 0 <= Spec.effect1 (coefficient (<["ivparm1" := 4]> example_beta)) 2)
    by (vm_compute; discriminate).
  assert (HL : 17 # 20 <= 1) by (vm_compute; discriminate).
  split; [exact He | split; [exact HL |]].
  exact (single_value_monotone _ 2 _ _ He HL).
Defined.

(** ** The exact-arithmetic bounds do not carry over to binary64 *)

Section Binary64.
Local Open Scope float_scope.

(** A single-level table with a large intercept and a small [ivparm1]
    effect: [3e8] and [5e-8]. *)
Definition bound_cex_beta : gmap string float :=
  list_to_map [("_cons", 3e8); ("ivparm1", py_dec 5 8)].

(** At the slider's lowest level [0.5] the exact change is [-2.5e-8],
    within the bound [|5e-8| * 0.5]; the program's binary64 change is
    [-2^-24], the rounding error of adding [2.5e-8] to [3e8]. *)
Lemma single_value_change_bound_binary64 :
  let e := coefficient bound_cex_beta (Main ivparm1)
           + coefficient bound_cex_beta (YearMain 2 ivparm1) in
  (single_value bound_cex_beta 2 (py_dec 5 1) - single_value bound_cex_beta 2 py_one)
    = (-0x1p-24) /\
  PrimFloat.ltb (PrimFloat.abs e * py_dec 5 1)
    (PrimFloat.abs (single_value bound_cex_beta 2 (py_dec 5 1)
                    - single_value bound_cex_beta 2 py_one)) = true.
Proof. vm_compute. split; reflexivity. Qed.

(** A table whose combined [ivparm1] effect at year offset [2] is the
    positive float [3 + (-2.9999999999999996) = 2^-51]. *)
Definition mono_cex_beta : gmap string float :=
  list_to_map [("ivparm1", 3);
               ("2.year_inc#c.ivparm1", py_dec (-29999999999999996) 16)].

(** With that non-negative effect, moving the slider from [0.57] up to
    [0.58] lowers the program's binary64 value from [2^-51] to [2^-52]. *)
Lemma single_value_monotone_binary64 :
  PrimFloat.leb 0 (coefficient mono_cex_beta (Main ivparm1)
                   + coefficient mono_cex_beta (YearMain 2 ivparm1)) = true /\
  PrimFloat.leb (py_dec 57 2) (py_dec 58 2) = true /\
  single_value mono_cex_beta 2 (py_dec 57 2) = 0x1p-51 /\
  single_value mono_cex_beta 2 (py_dec 58 2) = 0x1p-52.
Proof. vm_compute. repeat split. Qed.
End Binary64.
