(* ===== verification/Series.v ===== *)
(** * The yearly series

    [src/app.py] line 100 builds [year_range = list(range(start_year,
    end_year + 1, 2))]; lines 126-189 run the predictor once per year,
    appending to [baseline_values] and [intervention_values]; line 202
    computes [diff_values = [i - b for i, b in zip(intervention_values,
    baseline_values)]].  The loop is modelled as written, with its two
    accumulators; it is proved equal to the pointwise map of the predictor
    over the years, so that each entry depends on its own year only. *)

From stdpp Require Import base gmap strings list.
From Stdlib Require Import ZArith Lia Floats.
From S2P Require Import Prelude PyNum Keys Coef Predictor.

Open Scope emu_scope.

(** [list(range(start_year, end_year + 1, 2))] (line 100). *)
Definition year_range (start_year end_year : Z) : list Z :=
  py_range start_year (end_year + 1) 2.

Section Series.
Context {A : Type} `{PyArith A}.
Implicit Types (beta : gmap string A) (levels : gmap string A).

(** The [for year in year_range] loop of lines 126-189: each iteration
    appends the baseline and the intervention value; a [KeyError] ends
    the whole loop. *)
Fixpoint series_loop (key : string) levels beta (years : list Z)
    (baseline_values intervention_values : list A) : PyRes (list A * list A) :=
  match years with
  | [] => Ok (baseline_values, intervention_values)
  | year :: rest =>
      bi ← predict_year key levels beta year;
      series_loop key levels beta rest
        (baseline_values ++ [fst bi]) (intervention_values ++ [snd bi])
  end.

Definition predict_series (key : string) levels beta (years : list Z) :=
  series_loop key levels beta years [] [].

(** [[i - b for i, b in zip(intervention_values, baseline_values)]]
    (line 202); [zip] stops at the shorter list. *)
Definition diff_values (intervention_values baseline_values : list A) : list A :=
  zip_with (fun i b => i -. b) intervention_values baseline_values.

End Series.

(** The length of the change list is that of the two series. *)
Lemma length_diff_values {A} `{PyArith A} (ivs bvs : list A) :
  length ivs = length bvs -> length (diff_values ivs bvs) = length ivs.
Proof. intros. unfold diff_values. rewrite length_zip_with. lia. Qed.

Section SeriesFacts.
Context {A : Type} `{PyArith A}.
Implicit Types (beta : gmap string A) (levels : gmap string A).

Lemma series_loop_map key levels beta years bvs ivs :
  series_loop key levels beta years bvs ivs =
  ps ← py_map_res (predict_year key levels beta) years;
  Ok (bvs ++ ps.*1, ivs ++ ps.*2).
Proof.
  revert bvs ivs. induction years as [| y years IH]; intros bvs ivs; simpl.
  - by rewrite !app_nil_r.
  - destruct (predict_year key levels beta y) as [[b i] |]; emu_simpl; [| done].
    rewrite IH. destruct (py_map_res _ years); emu_simpl; [| done].
    by rewrite <- !app_assoc.
Qed.

Lemma predict_series_map_core key levels beta years :
  predict_series key levels beta years =
  ps ← py_map_res (predict_year key levels beta) years; Ok (ps.*1, ps.*2).
Proof. apply series_loop_map. Qed.

(** C11 (equivalence): the loop with its two accumulators computes the
    predictor mapped over the years, split into the baseline and the
    intervention column; the first [KeyError] ends it. *)
Theorem predict_series_map key levels beta years :
  predict_series key levels beta years =
  ps ← py_map_res (predict_year key levels beta) years; Ok (ps.*1, ps.*2).
Proof. by eapply predict_series_map_core. Qed.

Lemma predict_series_Ok key levels beta years bvs ivs :
  predict_series key levels beta years = Ok (bvs, ivs) <->
  exists ps, Forall2 (fun y p => predict_year key levels beta y = Ok p) years ps /\
             bvs = ps.*1 /\ ivs = ps.*2.
Proof.
  rewrite predict_series_map_core.
  destruct (py_map_res _ years) as [ps |] eqn:E; emu_simpl.
  - apply py_map_res_Ok in E. split; [intros [= <- <-]; eauto |].
    intros (ps' & Hps' & -> & ->). apply py_map_res_Ok in E, Hps'. congruence.
  - split; [done |]. intros (ps' & Hps' & _). apply py_map_res_Ok in Hps'. congruence.
Qed.

(** The predictor's value at [year] when it does not raise. *)
Definition year_pair key levels beta (year : Z) : A * A :=
  match predict_year key levels beta year with
  | Ok p => p
  | Raise _ => (py_zero, py_zero)
  end.

Lemma Forall2_year_pair key levels beta years ps :
  Forall2 (fun y p => predict_year key levels beta y = Ok p) years ps ->
  ps = year_pair key levels beta <$> years /\
  forall y, y ∈ years -> predict_year key levels beta y = Ok (year_pair key levels beta y).
Proof.
  unfold year_pair.
  induction 1 as [| y p years ps Hy _ [-> IH]]; [split; [done | set_solver] |].
  split; [simpl; by rewrite Hy |].
  intros y' [-> | Hin]%elem_of_cons; [by rewrite Hy | auto].
Qed.

(** C12 (independence of years): evaluating the years in any other order
    gives the same (year, baseline, intervention) rows, so reassembling
    the series by year gives the one computed in ascending order. *)
Theorem predict_series_reorder key levels beta years years' bvs ivs :
  predict_series key levels beta years = Ok (bvs, ivs) -> years' ≡ₚ years ->
  exists bvs' ivs', predict_series key levels beta years' = Ok (bvs', ivs') /\
    zip years' (zip bvs' ivs') ≡ₚ zip years (zip bvs ivs).
Proof.
  intros (ps & Hps & -> & ->)%predict_series_Ok Hperm.
  destruct (Forall2_year_pair _ _ _ _ _ Hps) as [-> Hall].
  assert (Hall' : forall y, y ∈ years' ->
    predict_year key levels beta y = Ok (year_pair key levels beta y)).
  { intros y Hy. apply Hall. by rewrite <- Hperm. }
  rewrite predict_series_map_core, (py_map_res_pure _ _ _ Hall'). emu_simpl.
  eexists _, _. split; [reflexivity |].
  by rewrite !zip_fst_snd, !zip_fmap_diag, Hperm.
Qed.

Lemma predict_series_total_core key levels beta years :
  Forall (fun k => is_Some (levels !! k)) (needed_levels key) ->
  exists bvs ivs, predict_series key levels beta years = Ok (bvs, ivs) /\
    length bvs = length years /\ length ivs = length years.
Proof.
  intros Hlv. rewrite predict_series_map_core, (py_map_res_pure _ (year_pair key levels beta)).
  - emu_simpl. eexists _, _. split; [reflexivity |]. by rewrite !length_fmap.
  - intros y _. destruct (predict_year_total_core key levels beta y Hlv) as (b & i & Hy).
    unfold year_pair. by rewrite Hy.
Qed.

(** C19 (totality): when the levels the variant needs are in the dict,
    the loop returns one baseline and one intervention value per year. *)
Theorem predict_series_total key levels beta years :
  Forall (fun k => is_Some (levels !! k)) (needed_levels key) ->
  exists bvs ivs, predict_series key levels beta years = Ok (bvs, ivs) /\
    length bvs = length years /\ length ivs = length years.
Proof. by eapply predict_series_total_core. Qed.

(** A missing level raises at the first year, whatever the years. *)
Lemma predict_series_raises key levels beta years k :
  years <> [] -> first_missing levels (needed_levels key) = Some k ->
  predict_series key levels beta years = Raise (KeyError k).
Proof.
  intros Hne Hk. destruct years as [| y years]; [done |].
  rewrite predict_series_map_core. simpl.
  assert (predict_year key levels beta y = Raise (KeyError k)) as ->
    by (apply predict_year_raises_core; eauto).
  by emu_simpl.
Qed.

(** C13 (change consistency): each entry of [diff_values] is the literal
    subtraction [i - b] of the two outputs of the predictor for the same
    year, and there is one entry per year. *)
Theorem diff_values_spec key levels beta years bvs ivs :
  predict_series key levels beta years = Ok (bvs, ivs) ->
  length (diff_values ivs bvs) = length years /\
  forall n y, years !! n = Some y ->
    exists b i, predict_year key levels beta y = Ok (b, i) /\
                diff_values ivs bvs !! n = Some (i -. b).
Proof.
  intros (ps & Hps & -> & ->)%predict_series_Ok. unfold diff_values.
  split.
  - rewrite length_zip_with, !length_fmap. apply Forall2_length in Hps. lia.
  - intros n y Hn. destruct (Forall2_lookup_l _ _ _ _ _ Hps Hn) as ([b i] & Hp & Hy).
    exists b, i. split; [done |].
    rewrite lookup_zip_with, !list_lookup_fmap, Hp. done.
Qed.
End SeriesFacts.

(** ** The year range *)

Lemma year_range_lookup (s e : Z) (n : nat) (y : Z) :
  year_range s e !! n = Some y <->
  (Z.of_nat n < (e - s + 2) / 2)%Z /\ y = (s + Z.of_nat n * 2)%Z.
Proof.
  unfold year_range. rewrite py_range_lookup. unfold py_range_len.
  replace (e + 1 - s + Z.pos 2 - 1)%Z with (e - s + 2)%Z by lia. lia.
Qed.

(** C20 (year range): the years of [range(start_year, end_year + 1, 2)]
    are exactly the years from [start_year] to [end_year] at an even
    distance from [start_year]. *)
Theorem year_range_elem (s e y : Z) :
  y ∈ year_range s e <-> (s <= y <= e /\ (y - s) mod 2 = 0)%Z.
Proof.
  rewrite list_elem_of_lookup. setoid_rewrite year_range_lookup. split.
  - intros (n & Hn & ->). zlia.
  - intros [? Hm]. exists (Z.to_nat ((y - s) / 2)). rewrite Z2Nat.id; zlia.
Qed.

(** Ascending order: the years come in strictly increasing order,
    so the series are assembled in ascending year order. *)
Lemma year_range_increasing (s e : Z) (i j : nat) (yi yj : Z) :
  (i < j)%nat -> year_range s e !! i = Some yi -> year_range s e !! j = Some yj ->
  (yi < yj)%Z.
Proof. rewrite !year_range_lookup. zlia. Qed.

Lemma length_year_range (s e : Z) :
  (s <= e)%Z -> length (year_range s e) = Z.to_nat ((e - s) / 2 + 1).
Proof.
  intros. unfold year_range. rewrite length_py_range. unfold py_range_len.
  f_equal. zlia.
Qed.

(** ** Witnesses at the spec's example, in binary64 *)

Lemma example_series_f :
  predict_series "phibpe" example_levels_f example_beta_f [2026; 2028]%Z =
  Ok ([6.5; 6]%float, [7.175; 6.6]%float).
Proof. vm_compute. reflexivity. Qed.

Lemma predict_series_reorder_witness :
  predict_series "phibpe" example_levels_f example_beta_f [2026; 2028]%Z =
    Ok ([6.5; 6]%float, [7.175; 6.6]%float) /\
  [2028; 2026]%Z ≡ₚ [2026; 2028]%Z /\
  exists bvs' ivs',
    predict_series "phibpe" example_levels_f example_beta_f [2028; 2026]%Z = Ok (bvs', ivs') /\
    zip [2028; 2026]%Z (zip bvs' ivs') ≡ₚ
    zip [2026; 2028]%Z (zip [6.5; 6]%float [7.175; 6.6]%float).
Proof.
  assert (Hp : [2028; 2026]%Z ≡ₚ [2026; 2028]%Z) by apply Permutation_swap.
  split; [exact example_series_f | split; [exact Hp |]].
  exact (predict_series_reorder _ _ _ _ _ _ _ example_series_f Hp).
Defined.

Lemma predict_series_total_witness :
  Forall (fun k => is_Some (example_levels_f !! k)) (needed_levels "pcogstate") /\
  exists bvs ivs,
    predict_series "pcogstate" example_levels_f example_beta_f (year_range 2026 2050) = Ok (bvs, ivs) /\
    length bvs = length (year_range 2026 2050) /\ length ivs = length (year_range 2026 2050).
Proof.
  assert (H : Forall (fun k => is_Some (example_levels_f !! k)) (needed_levels "pcogstate")).
  { repeat constructor; vm_compute; eauto. }
  split; [exact H | exact (predict_series_total _ _ _ _ H)].
Defined.

Lemma diff_values_spec_witness :
  predict_series "phibpe" example_levels_f example_beta_f [2026; 2028]%Z =
    Ok ([6.5; 6]%float, [7.175; 6.6]%float) /\
  length (diff_values [7.175; 6.6]%float [6.5; 6]%float) = length [2026; 2028]%Z /\
  forall n y, [2026; 2028]%Z !! n = Some y ->
    exists b i, predict_year "phibpe" example_levels_f example_beta_f y = Ok (b, i) /\
                diff_values [7.175; 6.6]%float [6.5; 6]%float !! n = Some (i -. b).
Proof.
  split; [exact example_series_f | exact (diff_values_spec _ _ _ _ _ _ example_series_f)].
Defined.

Lemma year_range_increasing_witness :
  (0 < 1)%nat /\ year_range 2026 2050 !! 0%nat = Some 2026%Z /\
  year_range 2026 2050 !! 1%nat = Some 2028%Z /\ (2026 < 2028)%Z.
Proof.
  assert (H0 : year_range 2026 2050 !! 0%nat = Some 2026%Z) by reflexivity.
  assert (H1 : year_range 2026 2050 !! 1%nat = Some 2028%Z) by reflexivity.
  split; [lia | split; [exact H0 | split; [exact H1 |]]].
  exact (year_range_increasing 2026 2050 0 1 _ _ ltac:(lia) H0 H1).
Defined.

(** ** The spec's worked examples, run on binary64 *)

(** The spec's examples P2/P3: on its single-level table at 2026
    with level [0.85], the program's binary64 arithmetic gives the
    baseline [6.5] and the intervention value nearest to [7.175], but its
    change column holds [0.6749999999999998], not the [0.675] the spec
    states. *)
Lemma spec_example_change_f :
  predict_series "phibpe" example_levels_f example_beta_f [2026]%Z = Ok ([6.5]%float, [7.175]%float) /\
  diff_values [7.175]%float [6.5]%float = [0.6749999999999998]%float /\
  PrimFloat.eqb (7.175 - 6.5)%float 0.675%float = false.
Proof. vm_compute. repeat split. Qed.
