(* ===== verification/Options.v ===== *)
(** * The selection vocabulary and the data loading

    The dict literals of [src/app.py] (lines 6-60) and [load_cleaned_data]
    (lines 13-22).  A dict literal is an association list in insertion
    order ([list(d.keys())] is the order of the widget options); [d[k]]
    raises [KeyError] on a missing key.  The file system is a map from a
    path to the table [pd.read_csv(path, index_col=0)] would return: a map
    from column name to the column, itself a map from row name to value. *)

From stdpp Require Import base gmap strings list.
From Stdlib Require Import Ascii.
From S2P Require Import Prelude.

Local Open Scope string_scope.

(** A Python dict from strings to strings, in insertion order. *)
Abbreviation py_dict := (list (string * string)).

(** [d[k]] on a dict literal. *)
Definition dict_index (d : py_dict) (k : string) : PyRes string :=
  py_index (list_to_map d) k.

(** [list(d.keys())]. *)
Definition dict_keys (d : py_dict) : list string := d.*1.

Definition CLEANED_DATASETS : py_dict :=
  [("pdiabe", "clean_data/pdiabe_cleaned.csv");
   ("phearte", "clean_data/phearte_cleaned.csv");
   ("phibpe", "clean_data/phibpe_cleaned.csv");
   ("pcogstate", "clean_data/pcogstate_cleaned.csv")].

Definition INTERVENTION_OPTIONS : py_dict :=
  [("Diabetes Incidence Reduction", "pdiabe");
   ("Heart Disease Incidence Reduction", "phearte");
   ("Hypertension Incidence Reduction", "phibpe");
   ("MCI/Dementia Incidence Reduction", "pcogstate")].

Definition OUTCOME_OPTIONS : py_dict :=
  [("Population", "n_startpop");
   ("Nursing Home Population", "n_nhmliv");
   ("Population with Dementia", "n_cogstate1");
   ("Dementia Prevalence (%)", "p_cogstate1");
   ("Population with MCI", "n_cogstate2");
   ("MCI Prevalence (%)", "p_cogstate2");
   ("Population with Diabetes", "n_diabe");
   ("Diabetes Prevalence (%)", "p_diabe");
   ("Population with Heart Disease", "n_hearte");
   ("Heart Disease Prevalence (%)", "p_hearte");
   ("Population with Hypertension", "n_hibpe");
   ("Hypertension Prevalence (%)", "p_hibpe")].

Definition SUBGROUP_OPTIONS : py_dict :=
  [("Age 55-64", "5564");
   ("Age 65-74", "6574");
   ("Age 75-84", "7584");
   ("Age 85+", "85p");
   ("All", "all");
   ("Non-Hispanic black", "blk");
   ("At least some college", "college");
   ("Female", "f");
   ("Hispanic", "his");
   ("Hispanic female", "his_f");
   ("GED or less than high school", "hsless");
   ("Male", "m");
   ("Non-Hispanic white", "wht")].

(** A table as [pd.read_csv(path, index_col=0)] returns it: column name to
    column, a column being row name to value. *)
Abbreviation table A := (gmap string (gmap string A)).

(** [load_cleaned_data] (lines 13-20): for each dataset whose file exists,
    [df_dict[key] = pd.read_csv(path, index_col=0)]. *)
Definition load_cleaned_data {A} (fs : gmap string (table A)) : gmap string (table A) :=
  foldl (fun df_dict '(key, path) =>
           match fs !! path with
           | Some df => <[key := df]> df_dict
           | None => df_dict
           end) ∅ CLEANED_DATASETS.

(** ** Facts *)

Lemma foldl_load_lookup {A} (fs : gmap string (table A)) (l : py_dict)
    (m : gmap string (table A)) (key : string) :
  NoDup l.*1 ->
  foldl (fun df_dict '(key, path) =>
           match fs !! path with
           | Some df => <[key := df]> df_dict
           | None => df_dict
           end) m l !! key =
  match list_to_map (M := gmap string string) l !! key with
  | Some path => match fs !! path with Some df => Some df | None => m !! key end
  | None => m !! key
  end.
Proof.
  revert m. induction l as [| [k p] l IH]; intros m Hnd; simpl; [by rewrite lookup_empty |].
  csimpl in Hnd. apply NoDup_cons in Hnd as [Hk Hnd]. rewrite IH by done.
  destruct (decide (k = key)) as [-> | Hne].
  - rewrite lookup_insert_eq.
    assert (list_to_map (M := gmap string string) l !! key = None) as ->
      by (apply not_elem_of_list_to_map_1; exact Hk).
    by destruct (fs !! p); rewrite ?lookup_insert_eq.
  - by destruct (fs !! p); rewrite !lookup_insert_ne.
Qed.

(** C21 (loading): [df_dict] holds a table under [key] exactly when [key]
    is one of the four datasets and its file exists, and then it is that
    file's table. *)
Theorem load_cleaned_data_lookup {A} (fs : gmap string (table A)) (key : string) :
  load_cleaned_data fs !! key = (list_to_map (M := gmap string string) CLEANED_DATASETS !! key) ≫= (fun path => fs !! path).
Proof.
  unfold load_cleaned_data. rewrite foldl_load_lookup by (cbn; repeat constructor; set_solver).
  destruct (list_to_map _ !! key) as [p |]; simpl; [| by rewrite lookup_empty].
  by destruct (fs !! p); rewrite ?lookup_empty.
Qed.

(** ** Consistency of the vocabulary *)

(** [s] contains the character [c]; Python's [c in s] for a one-character
    string. *)
Fixpoint str_contains (c : Ascii.ascii) (s : string) : bool :=
  match s with
  | EmptyString => false
  | String a s' => Ascii.eqb a c || str_contains c s'
  end.

(** The vocabulary fits together: every intervention offered
    has a dataset path, the only two-level dataset ["pcogstate"] is
    offered under exactly one name, the dementia/MCI one, each dict has
    distinct keys, and an outcome's display name contains ["%"] (which
    triggers the x100 transform of the charts) exactly when its code is a
    prevalence ["p_..."]. *)
Lemma vocabulary_consistent :
  dict_keys CLEANED_DATASETS = INTERVENTION_OPTIONS.*2 /\
  filter (fun dk => dk.2 = "pcogstate") INTERVENTION_OPTIONS =
    [("MCI/Dementia Incidence Reduction", "pcogstate")] /\
  NoDup (dict_keys CLEANED_DATASETS) /\ NoDup (dict_keys INTERVENTION_OPTIONS) /\
  NoDup (dict_keys OUTCOME_OPTIONS) /\ NoDup (dict_keys SUBGROUP_OPTIONS) /\
  Forall (fun oc => str_contains "%"%char oc.1 = String.prefix "p_" oc.2) OUTCOME_OPTIONS.
Proof.
  repeat split;
    first [ reflexivity
          | repeat (apply NoDup_cons; split; [set_solver |]); apply NoDup_nil_2
          | repeat constructor ].
Qed.
