(* ===== verification/Simulation.v ===== *)
(** * The simulation run

    What [src/app.py] does from the sidebar to [st.stop()]: the levels
    dict built from the sliders (lines 84-91), and on "Run Simulation"
    (lines 93-211) the target column, the year range, and for each
    selected intervention either an [st.error] message and [continue]
    (dataset not loaded, column missing) or its three result columns;
    [st.stop()] when no intervention gave a result.

    The run reaches the yearly predictions through the [SeriesEngine]
    interface: what the series component promises its client (a result
    for every year when the levels the variant needs are present).  The
    theorems about the run are proved against the interface; [Series.v]'s
    [predict_series] discharges it. *)

From stdpp Require Import base gmap strings list.
From Stdlib Require Import ZArith Floats.
From S2P Require Import Prelude PyNum Keys Coef Predictor Series Options.

Local Open Scope string_scope.

(** ** The interface of the series component *)

Class SeriesEngine (A : Type) := {
  engine_series : string -> gmap string A -> gmap string A -> list Z -> PyRes (list A * list A);
  engine_total key levels beta years :
    Forall (fun k => is_Some (levels !! k)) (needed_levels key) ->
    exists bvs ivs, engine_series key levels beta years = Ok (bvs, ivs) /\
      length bvs = length years /\ length ivs = length years
}.

#[export] Instance predict_series_engine {A} `{PyArith A} : SeriesEngine A := {|
  engine_series := predict_series;
  engine_total := predict_series_total_core
|}.

(** ** The widgets' values *)

(** What the sidebar returns: the selected options, the year slider and
    the value of each level slider, by its label. *)
Record UI (A : Type) := {
  selected_outcome : string;
  selected_subgroup : string;
  selected_interventions : list string;
  start_year : Z;
  end_year : Z;
  slider : string -> A
}.
Arguments selected_outcome {A}.
Arguments selected_subgroup {A}.
Arguments selected_interventions {A}.
Arguments start_year {A}.
Arguments end_year {A}.
Arguments slider {A}.

(** ** The results table *)

(** A column of [results_df]: the years, or one value per year. *)
Inductive Column (A : Type) :=
  | YearCol (ys : list Z)
  | ValCol (vs : list A).
Arguments YearCol {A} ys.
Arguments ValCol {A} vs.

Definition col_length {A} (c : Column A) : nat :=
  match c with YearCol ys => length ys | ValCol vs => length vs end.

(** A DataFrame: its columns in order; [nrows] rows. *)
Record Frame (A : Type) := {
  nrows : nat;
  columns : list (string * Column A)
}.
Arguments nrows {A}.
Arguments columns {A}.

(** [pd.DataFrame({"Year": year_range})] (line 102). *)
Definition frame_of_years {A} (ys : list Z) : Frame A :=
  {| nrows := length ys; columns := [("Year", YearCol ys)] |}.

(** [df[c] = values] with a list: [ValueError] when the list's length is
    not the number of rows; otherwise the column is replaced where it
    stands, or appended after the others. *)
Definition df_set {A} (df : Frame A) (c : string) (vs : list A) : PyRes (Frame A) :=
  if decide (length vs = nrows df) then
    Ok {| nrows := nrows df;
          columns :=
            if decide (c ∈ (columns df).*1)
            then (fun nc => if String.eqb nc.1 c then (c, ValCol vs) else nc) <$> columns df
            else columns df ++ [(c, ValCol vs)] |}
  else Raise (ValueError "Length of values does not match length of index").

(** ** The levels dict (lines 84-91) *)

(** [for item in selected_interventions]: the dementia/MCI intervention
    has two sliders, every other one a slider labelled ["{item} Level"]. *)
Fixpoint levels_loop {A} (sl : string -> A) (items : list string) (lv : gmap string A)
    : PyRes (gmap string A) :=
  match items with
  | [] => Ok lv
  | item :: rest =>
      key ← dict_index INTERVENTION_OPTIONS item;
      levels_loop sl rest
        (if String.eqb key "pcogstate"
         then <["pcogstate_2" := sl "MCI Prevalence Reduction"]>
                (<["pcogstate_1" := sl "Dementia Prevalence Reduction"]> lv)
         else <[key := sl (item ++ " Level")]> lv)
  end.

Definition build_levels {A} (ui : UI A) : PyRes (gmap string A) :=
  levels_loop (slider ui) (selected_interventions ui) ∅.

(** ** The run (lines 93-211) *)

(** What the loop over the interventions updates: [results_df], the
    messages shown with [st.error], and [valid_plot]. *)
Record RunState (A : Type) := {
  results_df : Frame A;
  errors : list string;
  valid_plot : bool
}.
Arguments results_df {A}.
Arguments errors {A}.
Arguments valid_plot {A}.

Definition add_error {A} (st : RunState A) (msg : string) : RunState A :=
  {| results_df := results_df st; errors := errors st ++ [msg]; valid_plot := valid_plot st |}.

Section Run.
Context {A : Type} `{PyArith A} `{SeriesEngine A}.

(** One iteration of [for display_name in selected_interventions]
    (lines 110-208). *)
Definition run_one (lv : gmap string A) (df_dict : gmap string (table A))
    (target_col : string) (years : list Z) (st : RunState A) (display_name : string)
    : PyRes (RunState A) :=
  key ← dict_index INTERVENTION_OPTIONS display_name;
  match df_dict !! key with
  | None => Ok (add_error st ("Dataset for " ++ key ++ " not loaded."))
  | Some df =>
      match df !! target_col with
      | None => Ok (add_error st ("Column '" ++ target_col ++ "' not found in " ++ key ++ " dataset."))
      | Some beta =>
          bi ← engine_series key lv beta years;
          let base_col := "Baseline (" ++ display_name ++ ")" in
          let inter_col := "Intervention (" ++ display_name ++ ")" in
          df1 ← df_set (results_df st) base_col bi.1;
          df2 ← df_set df1 inter_col bi.2;
          df3 ← df_set df2 base_col bi.1;
          df4 ← df_set df3 inter_col bi.2;
          df5 ← df_set df4 ("Change (" ++ display_name ++ ")") (diff_values bi.2 bi.1);
          Ok {| results_df := df5; errors := errors st; valid_plot := true |}
      end
  end.

Fixpoint run_loop (lv : gmap string A) (df_dict : gmap string (table A)) (target_col : string)
    (years : list Z) (items : list string) (st : RunState A) : PyRes (RunState A) :=
  match items with
  | [] => Ok st
  | d :: rest => st' ← run_one lv df_dict target_col years st d;
                 run_loop lv df_dict target_col years rest st'
  end.

(** The script's end: [st.stop()] before any chart, or the charts drawn
    from [results_df]. *)
Inductive RunOutcome :=
  | Stopped (errs : list string)
  | Rendered (df : Frame A) (errs : list string).

Definition run_simulation (ui : UI A) (df_dict : gmap string (table A)) : PyRes RunOutcome :=
  lv ← build_levels ui;
  outcome_code ← dict_index OUTCOME_OPTIONS (selected_outcome ui);
  subgroup_code ← dict_index SUBGROUP_OPTIONS (selected_subgroup ui);
  let target_col := outcome_code ++ "_" ++ subgroup_code in
  let years := year_range (start_year ui) (end_year ui) in
  st ← run_loop lv df_dict target_col years (selected_interventions ui)
         {| results_df := frame_of_years years; errors := []; valid_plot := false |};
  if valid_plot st then Ok (Rendered (results_df st) (errors st)) else Ok (Stopped (errors st)).
End Run.

(** ** The run never raises *)

(** What Streamlit guarantees of the widgets: each selection is one of the
    options offered. *)
Definition ui_wf {A} (ui : UI A) : Prop :=
  selected_outcome ui ∈ dict_keys OUTCOME_OPTIONS /\
  selected_subgroup ui ∈ dict_keys SUBGROUP_OPTIONS /\
  Forall (fun d => d ∈ dict_keys INTERVENTION_OPTIONS) (selected_interventions ui).

Lemma dict_index_Ok (d : py_dict) (k : string) :
  k ∈ dict_keys d -> exists v, dict_index d k = Ok v.
Proof.
  intros Hk. unfold dict_index, py_index.
  destruct (list_to_map (M := gmap string string) d !! k) as [v |] eqn:E; [by eauto |].
  by apply not_elem_of_list_to_map_2 in E.
Qed.

(** The levels already in the dict stay there. *)
Lemma levels_loop_mono {A} (sl : string -> A) items lv lv' k :
  levels_loop sl items lv = Ok lv' -> is_Some (lv !! k) -> is_Some (lv' !! k).
Proof.
  revert lv. induction items as [| item items IH]; intros lv Hrun Hk; simpl in Hrun.
  - by injection Hrun as <-.
  - destruct (dict_index _ item) as [key |]; emu_simpl; [| done].
    apply (IH _ Hrun). case_match; rewrite ?lookup_insert_is_Some'; auto.
Qed.

Lemma build_levels_needed_core {A} (ui : UI A) :
  Forall (fun d => d ∈ dict_keys INTERVENTION_OPTIONS) (selected_interventions ui) ->
  exists lv, build_levels ui = Ok lv /\
    forall d key, d ∈ selected_interventions ui -> dict_index INTERVENTION_OPTIONS d = Ok key ->
      Forall (fun k => is_Some (lv !! k)) (needed_levels key).
Proof.
  unfold build_levels. generalize (∅ : gmap string A) as lv0.
  induction (selected_interventions ui) as [| item items IH]; intros lv0 Hall.
  - exists lv0. split; [done | set_solver].
  - apply Forall_cons in Hall as [Hitem Hall].
    destruct (dict_index_Ok _ _ Hitem) as [key Hkey]. simpl. rewrite Hkey. emu_simpl.
    edestruct IH as (lv & Hrun & Hneed); [exact Hall |].
    exists lv. split; [exact Hrun |]. intros d key' [-> | Hd]%elem_of_cons Hd'; [| by eauto].
    rewrite Hkey in Hd'. injection Hd' as <-. unfold needed_levels.
    destruct (String.eqb_spec key "pcogstate");
      repeat constructor; eapply levels_loop_mono; eauto; by simplify_map_eq.
Qed.

(** C10 (levels dict): for selections among the options, the levels dict
    is built without error and holds, for every selected intervention,
    every level the predictor will read for it. *)
Theorem build_levels_needed {A} (ui : UI A) :
  Forall (fun d => d ∈ dict_keys INTERVENTION_OPTIONS) (selected_interventions ui) ->
  exists lv, build_levels ui = Ok lv /\
    forall d key, d ∈ selected_interventions ui -> dict_index INTERVENTION_OPTIONS d = Ok key ->
      Forall (fun k => is_Some (lv !! k)) (needed_levels key).
Proof. by eapply build_levels_needed_core. Qed.

Lemma df_set_Ok {A} (df : Frame A) c (vs : list A) :
  length vs = nrows df -> exists df', df_set df c vs = Ok df' /\ nrows df' = nrows df.
Proof. intros Hl. unfold df_set. rewrite decide_True by done. by eexists. Qed.

(** Discharge the next [df_set] of the goal by its length condition. *)
Ltac df_set_ok :=
  match goal with
  | |- context [df_set ?df ?c ?vs] =>
      let df' := fresh "df" in
      let E := fresh "E" in
      destruct (df_set_Ok df c vs) as (df' & -> & E);
      [rewrite ?length_diff_values; lia | emu_simpl]
  end.

Section RunSafe.
Context {A : Type} `{PyArith A} `{SeriesEngine A}.

Lemma run_one_Ok lv df_dict target_col years (st : RunState A) d key :
  dict_index INTERVENTION_OPTIONS d = Ok key ->
  Forall (fun k => is_Some (lv !! k)) (needed_levels key) ->
  nrows (results_df st) = length years ->
  exists st', run_one lv df_dict target_col years st d = Ok st' /\
              nrows (results_df st') = length years.
Proof.
  intros Hkey Hlv Hrows. unfold run_one. rewrite Hkey. emu_simpl.
  destruct (df_dict !! key) as [df |]; [| by eexists].
  destruct (df !! target_col) as [beta |]; [| by eexists].
  destruct (engine_total key lv beta years Hlv) as (bvs & ivs & -> & Hb & Hi). emu_simpl.
  cbn [fst snd].
  repeat df_set_ok.
  emu_simpl. eexists. split; [reflexivity |]. simpl. lia.
Qed.

Lemma run_loop_Ok lv df_dict target_col years items (st : RunState A) :
  (forall d, d ∈ items -> exists key, dict_index INTERVENTION_OPTIONS d = Ok key /\
     Forall (fun k => is_Some (lv !! k)) (needed_levels key)) ->
  nrows (results_df st) = length years ->
  exists st', run_loop lv df_dict target_col years items st = Ok st' /\
              nrows (results_df st') = length years.
Proof.
  revert st. induction items as [| d items IH]; intros st Hitems Hrows; simpl; [by eauto |].
  destruct (Hitems d) as (key & Hkey & Hlv); [set_solver |].
  destruct (run_one_Ok lv df_dict target_col years st d key Hkey Hlv Hrows) as (st1 & -> & Hrows1).
  emu_simpl. apply IH; [set_solver | done].
Qed.

Lemma run_simulation_Ok_core (ui : UI A) (df_dict : gmap string (table A)) :
  ui_wf ui -> exists out, run_simulation ui df_dict = Ok out.
Proof.
  intros (Hout & Hsub & Hitems). unfold run_simulation.
  destruct (build_levels_needed_core ui Hitems) as (lv & -> & Hneed). emu_simpl.
  destruct (dict_index_Ok _ _ Hout) as [oc ->]. emu_simpl.
  destruct (dict_index_Ok _ _ Hsub) as [sc ->]. emu_simpl.
  edestruct run_loop_Ok as (st & -> & _); [| reflexivity |].
  - intros d Hd. rewrite Forall_forall in Hitems.
    destruct (dict_index_Ok _ _ (Hitems d Hd)) as [key Hkey]. eauto.
  - emu_simpl. by destruct (valid_plot st); eexists.
Qed.

(** C3 (no uncaught exception): whatever the datasets loaded, a run
    whose widget values are among the options offered never raises: no
    [KeyError] from the levels dict or the option dicts, and no
    [ValueError] from a column assignment, since every column has one
    entry per year. *)
Theorem run_simulation_Ok (ui : UI A) (df_dict : gmap string (table A)) :
  ui_wf ui -> exists out, run_simulation ui df_dict = Ok out.
Proof. by eapply run_simulation_Ok_core. Qed.
End RunSafe.

(** ** Skipped interventions and [st.stop()] *)

(** The two recoverable conditions of lines 114-120, as the message
    shown; [None] when the intervention has its dataset and column. *)
Definition skip_message {A} (df_dict : gmap string (table A)) (target_col key : string)
    : option string :=
  match df_dict !! key with
  | None => Some ("Dataset for " ++ key ++ " not loaded.")
  | Some df =>
      match df !! target_col with
      | Some _ => None
      | None => Some ("Column '" ++ target_col ++ "' not found in " ++ key ++ " dataset.")
      end
  end.

(** The value of a computation that does not raise. *)
Definition res_value {T} (r : PyRes T) (d : T) : T :=
  match r with Ok v => v | Raise _ => d end.

(** The dataset key of a selected intervention, and the target column. *)
Definition intervention_key (d : string) : string :=
  res_value (dict_index INTERVENTION_OPTIONS d) "".

Definition target_column {A} (ui : UI A) : string :=
  res_value (dict_index OUTCOME_OPTIONS (selected_outcome ui)) "" ++ "_" ++
  res_value (dict_index SUBGROUP_OPTIONS (selected_subgroup ui)) "".

Definition outcome_errors {A} (out : @RunOutcome A) : list string :=
  match out with Stopped errs => errs | Rendered _ errs => errs end.

Definition outcome_stopped {A} (out : @RunOutcome A) : bool :=
  match out with Stopped _ => true | Rendered _ _ => false end.

Section RunErrors.
Context {A : Type} `{PyArith A} `{SeriesEngine A}.

Lemma run_one_errors lv df_dict target_col years (st st' : RunState A) d key :
  dict_index INTERVENTION_OPTIONS d = Ok key ->
  run_one lv df_dict target_col years st d = Ok st' ->
  errors st' = (errors st ++ option_list (skip_message df_dict target_col key))%list /\
  valid_plot st' = valid_plot st || bool_decide (skip_message df_dict target_col key = None).
Proof.
  intros Hkey Hrun. unfold run_one in Hrun. rewrite Hkey in Hrun. emu_simpl.
  unfold skip_message. destruct (df_dict !! key) as [df |].
  - destruct (df !! target_col) as [beta |].
    + destruct (engine_series key lv beta years) as [bi |]; emu_simpl; [| done].
      repeat (destruct (df_set _ _ _); emu_simpl; [| done]).
      injection Hrun as <-. simpl. rewrite app_nil_r, orb_true_r. done.
    + injection Hrun as <-. simpl. by rewrite orb_false_r.
  - injection Hrun as <-. simpl. by rewrite orb_false_r.
Qed.

Lemma run_loop_errors lv df_dict target_col years items (st st' : RunState A) :
  Forall (fun d => d ∈ dict_keys INTERVENTION_OPTIONS) items ->
  run_loop lv df_dict target_col years items st = Ok st' ->
  errors st' = (errors st ++ omap (fun d => skip_message df_dict target_col (intervention_key d)) items)%list /\
  (valid_plot st' = valid_plot st ||
     existsb (fun d => bool_decide (skip_message df_dict target_col (intervention_key d) = None)) items).
Proof.
  revert st. induction items as [| d items IH]; intros st Hitems Hrun; simpl in Hrun |- * .
  - injection Hrun as <-. by rewrite app_nil_r, orb_false_r.
  - apply Forall_cons in Hitems as [Hd Hitems].
    destruct (dict_index_Ok _ _ Hd) as [key Hkey].
    destruct (run_one lv df_dict target_col years st d) as [st1 |] eqn:E1; emu_simpl; [| done].
    destruct (run_one_errors _ _ _ _ _ _ _ _ Hkey E1) as [Herr Hvp].
    destruct (IH st1 Hitems Hrun) as [Herr' Hvp'].
    assert (Hik : intervention_key d = key) by (unfold intervention_key; by rewrite Hkey).
    cbn [omap list_omap existsb]. rewrite Hik, Herr', Herr, Hvp', Hvp, <- app_assoc, orb_assoc.
    by destruct (skip_message _ _ _).
Qed.
End RunErrors.

Lemma existsb_none_false {B C} (f : B -> option C) (l : list B) :
  existsb (fun x => bool_decide (f x = None)) l = false <-> Forall (fun x => is_Some (f x)) l.
Proof.
  induction l as [| x l IH]; simpl; [split; [constructor | done] |].
  rewrite orb_false_iff, IH, Forall_cons, bool_decide_eq_false, <- not_eq_None_Some. done.
Qed.

Section RunOutcome.
Context {A : Type} `{PyArith A} `{SeriesEngine A}.

Lemma run_simulation_errors_core (ui : UI A) (df_dict : gmap string (table A)) out :
  ui_wf ui -> run_simulation ui df_dict = Ok out ->
  outcome_errors out =
    omap (fun d => skip_message df_dict (target_column ui) (intervention_key d))
         (selected_interventions ui) /\
  (outcome_stopped out = true <->
   Forall (fun d => is_Some (skip_message df_dict (target_column ui) (intervention_key d)))
          (selected_interventions ui)).
Proof.
  intros (Hout & Hsub & Hitems) Hrun. unfold run_simulation in Hrun.
  destruct (build_levels_needed_core ui Hitems) as (lv & Hlv & _). rewrite Hlv in Hrun.
  destruct (dict_index_Ok _ _ Hout) as [oc Hoc]. destruct (dict_index_Ok _ _ Hsub) as [sc Hsc].
  rewrite Hoc, Hsc in Hrun. emu_simpl.
  assert (Htc : target_column ui = (oc ++ "_" ++ sc)%string)
    by (unfold target_column; by rewrite Hoc, Hsc).
  rewrite Htc.
  destruct (run_loop _ _ _ _ _ _) as [st |] eqn:Hloop; emu_simpl; [| done].
  destruct (run_loop_errors _ _ _ _ _ _ _ Hitems Hloop) as [Herr Hvp]. simpl in Herr, Hvp.
  rewrite <- existsb_none_false, <- Hvp.
  destruct (valid_plot st); injection Hrun as <-; simpl; split; done.
Qed.

(** C4 (error handling, spec section 7): a run whose widget values are
    among the options shows exactly one message per selected intervention
    whose dataset is not loaded or lacks the target column, in the order
    of the selection, and skips it; it stops before any chart exactly when
    every selected intervention was skipped. *)
Theorem run_simulation_errors (ui : UI A) (df_dict : gmap string (table A)) out :
  ui_wf ui -> run_simulation ui df_dict = Ok out ->
  outcome_errors out =
    omap (fun d => skip_message df_dict (target_column ui) (intervention_key d))
         (selected_interventions ui) /\
  (outcome_stopped out = true <->
   Forall (fun d => is_Some (skip_message df_dict (target_column ui) (intervention_key d)))
          (selected_interventions ui)).
Proof. by eapply run_simulation_errors_core. Qed.
End RunOutcome.

(** ** Witnesses on a concrete run, in binary64 *)

(** Only the hypertension dataset is on disk. *)
Definition example_fs : gmap string (table float) :=
  {[ "clean_data/phibpe_cleaned.csv" := {[ "p_hibpe_all" := example_beta_f ]} ]}.

Definition example_ui : UI float := {|
  selected_outcome := "Hypertension Prevalence (%)";
  selected_subgroup := "All";
  selected_interventions := ["Hypertension Incidence Reduction"; "Diabetes Incidence Reduction"];
  start_year := 2026;
  end_year := 2030;
  slider := fun _ => 0.85%float
|}.

Lemma example_ui_wf : ui_wf example_ui.
Proof. repeat split; repeat constructor; vm_compute; set_solver. Qed.

Lemma build_levels_needed_witness :
  Forall (fun d => d ∈ dict_keys INTERVENTION_OPTIONS) (selected_interventions example_ui) /\
  exists lv, build_levels example_ui = Ok lv /\
    forall d key, d ∈ selected_interventions example_ui ->
      dict_index INTERVENTION_OPTIONS d = Ok key ->
      Forall (fun k => is_Some (lv !! k)) (needed_levels key).
Proof.
  destruct example_ui_wf as (_ & _ & Hitems).
  split; [exact Hitems | exact (build_levels_needed example_ui Hitems)].
Defined.

Lemma run_simulation_Ok_witness :
  ui_wf example_ui /\ exists out, run_simulation example_ui (load_cleaned_data example_fs) = Ok out.
Proof.
  split; [exact example_ui_wf | exact (run_simulation_Ok example_ui _ example_ui_wf)].
Defined.

Lemma example_run :
  exists df, run_simulation example_ui (load_cleaned_data example_fs) =
             Ok (Rendered df ["Dataset for pdiabe not loaded."]).
Proof. eexists. vm_compute. reflexivity. Qed.

Lemma run_simulation_errors_witness :
  ui_wf example_ui /\
  exists out, run_simulation example_ui (load_cleaned_data example_fs) = Ok out /\
  outcome_errors out =
    omap (fun d => skip_message (load_cleaned_data example_fs) (target_column example_ui)
                                (intervention_key d))
         (selected_interventions example_ui) /\
  (outcome_stopped out = true <->
   Forall (fun d => is_Some (skip_message (load_cleaned_data example_fs)
                                          (target_column example_ui) (intervention_key d)))
          (selected_interventions example_ui)).
Proof.
  split; [exact example_ui_wf |].
  destruct example_run as [df Hrun]. eexists. split; [exact Hrun |].
  exact (run_simulation_errors example_ui _ _ example_ui_wf Hrun).
Defined.

(** ** The columns of [results_df] *)

(** The names of the three columns of one intervention. *)
Definition result_names (d : string) : list string :=
  ["Baseline (" ++ d ++ ")"; "Intervention (" ++ d ++ ")"; "Change (" ++ d ++ ")"].

(** Its columns, as lines 198-206 leave them. *)
Definition result_columns {A} `{PyArith A} (d : string) (bvs ivs : list A)
    : list (string * Column A) :=
  [("Baseline (" ++ d ++ ")", ValCol bvs); ("Intervention (" ++ d ++ ")", ValCol ivs);
   ("Change (" ++ d ++ ")", ValCol (diff_values ivs bvs))].

(** The coefficient column of a usable intervention. *)
Definition usable_beta {A} (df_dict : gmap string (table A)) (target_col key : string)
    : option (gmap string A) :=
  df_dict !! key ≫= fun df => df !! target_col.

Lemma df_set_append {A} (df : Frame A) c (vs : list A) :
  c ∉ (columns df).*1 -> length vs = nrows df ->
  df_set df c vs = Ok {| nrows := nrows df; columns := columns df ++ [(c, ValCol vs)] |}.
Proof. intros Hc Hl. unfold df_set. by rewrite decide_True, decide_False. Qed.

Lemma replace_column_id {A} (cols : list (string * Column A)) c (v : Column A) :
  (forall nc, nc ∈ cols -> nc.1 = c -> nc = (c, v)) ->
  (fun nc => if String.eqb nc.1 c then (c, v) else nc) <$> cols = cols.
Proof.
  induction cols as [| nc cols IH]; intros Hsame; csimpl; [done |].
  rewrite IH by (intros; apply Hsame; set_solver).
  destruct (String.eqb_spec nc.1 c); [| done]. rewrite <- (Hsame nc) by set_solver. done.
Qed.

(** Assigning a column the values it already holds changes nothing. *)
Lemma df_set_same {A} (df : Frame A) c (vs : list A) :
  NoDup (columns df).*1 -> (c, ValCol vs) ∈ columns df -> length vs = nrows df ->
  df_set df c vs = Ok df.
Proof.
  intros Hnd Hc Hl. unfold df_set.
  rewrite decide_True, decide_True;
    [| apply list_elem_of_fmap; exists (c, ValCol vs); by split | done].
  rewrite replace_column_id; [by destruct df |].
  intros [c' v'] Hnc Heq. simpl in Heq. subst c'. f_equal. by eapply NoDup_fst_functional.
Qed.

Lemma year_not_result_name (d : string) : "Year" ∉ result_names d.
Proof.
  unfold result_names. rewrite !elem_of_cons, elem_of_nil.
  intros ?; destruct_or!; autorewrite with str_rw in *; discriminate.
Qed.

(** The three names of an intervention are distinct, and two interventions
    share a name only if they are the same. *)
Lemma result_names_NoDup (d : string) : NoDup (result_names d).
Proof.
  unfold result_names. repeat constructor; rewrite ?elem_of_cons, ?elem_of_nil;
    intros ?; destruct_or?; try done; autorewrite with str_rw in *; discriminate.
Qed.

Lemma result_names_inj (d d' n : string) :
  n ∈ result_names d -> n ∈ result_names d' -> d = d'.
Proof.
  unfold result_names. rewrite !elem_of_cons, !elem_of_nil.
  intros H1 H2. destruct_or!; subst;
    first [ match goal with H : String.append ?p _ = String.append ?p _ |- _ =>
              exact (wrapped_name_inj _ _ _ H) end
          | autorewrite with str_rw in *; discriminate ].
Qed.

Section Columns.
Context {A : Type} `{PyArith A} `{SeriesEngine A}.

(** The columns the run adds for the selected intervention [d]. *)
Definition intervention_columns (lv : gmap string A) (df_dict : gmap string (table A))
    (target_col : string) (years : list Z) (d : string) : list (string * Column A) :=
  match usable_beta df_dict target_col (intervention_key d) with
  | Some beta =>
      match engine_series (intervention_key d) lv beta years with
      | Ok (bvs, ivs) => result_columns d bvs ivs
      | Raise _ => []
      end
  | None => []
  end.

Lemma intervention_columns_names lv df_dict target_col years d n :
  n ∈ (intervention_columns lv df_dict target_col years d).*1 -> n ∈ result_names d.
Proof.
  unfold intervention_columns. repeat case_match; simpl; [| set_solver..].
  unfold result_names. set_solver.
Qed.
(** A fresh name of [d] is still fresh after [d]'s earlier columns. *)
Ltac fresh_column Hfresh :=
  cbn [nrows columns]; rewrite ?fmap_app, ?not_elem_of_app; repeat split;
  first
  [ apply Hfresh; unfold result_names; set_solver
  | simpl; rewrite ?elem_of_cons, ?elem_of_nil; intros ?; destruct_or?; try done;
    autorewrite with str_rw in *; discriminate ].

Lemma run_one_columns lv df_dict target_col years (st : RunState A) d key :
  dict_index INTERVENTION_OPTIONS d = Ok key ->
  Forall (fun k => is_Some (lv !! k)) (needed_levels key) ->
  nrows (results_df st) = length years ->
  NoDup (columns (results_df st)).*1 ->
  (forall n, n ∈ result_names d -> n ∉ (columns (results_df st)).*1) ->
  exists st', run_one lv df_dict target_col years st d = Ok st' /\
    nrows (results_df st') = length years /\
    columns (results_df st') =
      (columns (results_df st) ++ intervention_columns lv df_dict target_col years d)%list.
Proof.
  intros Hkey Hlv Hrows Hnd Hfresh.
  assert (Hik : intervention_key d = key) by (unfold intervention_key; by rewrite Hkey).
  unfold run_one, intervention_columns, usable_beta. rewrite Hik, Hkey. emu_simpl.
  destruct (df_dict !! key) as [df |]; simpl; [| eexists; by rewrite app_nil_r].
  destruct (df !! target_col) as [beta |]; simpl; [| eexists; by rewrite app_nil_r].
  destruct (engine_total key lv beta years Hlv) as (bvs & ivs & -> & Hb & Hi).
  emu_simpl. cbn [fst snd]. destruct st as [[n cols] errs vp]. simpl in * .
  rewrite df_set_append by (first [fresh_column Hfresh | simpl; lia]).
  emu_simpl; cbn [nrows columns].
  rewrite df_set_append by (first [fresh_column Hfresh | simpl; lia]).
  emu_simpl; cbn [nrows columns].
  assert (Hnd1 : NoDup (app cols [(("Baseline (" ++ d ++ ")")%string, ValCol bvs)]).*1)
    by (apply NoDup_names_snoc; [done | fresh_column Hfresh]).
  assert (Hnd2 : NoDup (app (app cols [(("Baseline (" ++ d ++ ")")%string, ValCol bvs)])
                        [(("Intervention (" ++ d ++ ")")%string, ValCol ivs)]).*1)
    by (apply NoDup_names_snoc; [done | fresh_column Hfresh]).
  rewrite df_set_same by (cbn [nrows columns]; first [assumption | set_solver | lia]).
  emu_simpl.
  rewrite df_set_same by (cbn [nrows columns]; first [assumption | set_solver | lia]).
  emu_simpl.
  rewrite df_set_append
    by (first [fresh_column Hfresh | simpl; rewrite length_diff_values; lia]).
  emu_simpl. eexists. split; [reflexivity |]. simpl. split; [lia |].
  unfold result_columns. by rewrite <- !app_assoc.
Qed.
Lemma intervention_columns_names_cases lv df_dict target_col years d :
  (intervention_columns lv df_dict target_col years d).*1 = [] \/
  (intervention_columns lv df_dict target_col years d).*1 = result_names d.
Proof. unfold intervention_columns. repeat case_match; auto. Qed.

Lemma run_loop_columns lv df_dict target_col years items (st : RunState A) :
  (forall d, d ∈ items -> exists key, dict_index INTERVENTION_OPTIONS d = Ok key /\
     Forall (fun k => is_Some (lv !! k)) (needed_levels key)) ->
  NoDup items ->
  nrows (results_df st) = length years ->
  NoDup (columns (results_df st)).*1 ->
  (forall d n, d ∈ items -> n ∈ result_names d -> n ∉ (columns (results_df st)).*1) ->
  exists st', run_loop lv df_dict target_col years items st = Ok st' /\
    columns (results_df st') =
      app (columns (results_df st))
          (concat (intervention_columns lv df_dict target_col years <$> items)) /\
    NoDup (columns (results_df st')).*1.
Proof.
  revert st. induction items as [| d items IH]; intros st Hitems Hnd Hrows Hnames Hfresh;
    simpl; [exists st; by rewrite app_nil_r |].
  apply NoDup_cons in Hnd as [Hd Hnd].
  destruct (Hitems d) as (key & Hkey & Hlv); [set_solver |].
  destruct (run_one_columns lv df_dict target_col years st d key Hkey Hlv Hrows Hnames)
    as (st1 & -> & Hrows1 & Hcols1); [intros n Hn; apply (Hfresh d); set_solver |].
  emu_simpl.
  destruct (IH st1) as (st' & Hrun & Hcols & Hnd'); [set_solver | done | done | | |].
  - rewrite Hcols1, fmap_app. apply NoDup_app. split; [done |]. split.
    + intros n Hn Hn'. apply (Hfresh d n); [set_solver | | done].
      by apply (intervention_columns_names lv df_dict target_col years).
    + destruct (intervention_columns_names_cases lv df_dict target_col years d) as [-> | ->];
        [constructor | apply result_names_NoDup].
  - intros d' n Hd' Hn. rewrite Hcols1, fmap_app, not_elem_of_app. split.
    + apply (Hfresh d'); set_solver.
    + intros Hn'%intervention_columns_names. apply Hd.
      rewrite (result_names_inj _ _ _ Hn' Hn). done.
  - exists st'. split; [done |]. split; [| done]. rewrite Hcols, Hcols1. by rewrite <- app_assoc.
Qed.
End Columns.

Section ColumnsRun.
Context {A : Type} `{PyArith A} `{SeriesEngine A}.

Lemma run_simulation_columns_core (ui : UI A) (df_dict : gmap string (table A)) df errs :
  ui_wf ui -> NoDup (selected_interventions ui) ->
  run_simulation ui df_dict = Ok (Rendered df errs) ->
  columns df =
    ("Year", YearCol (year_range (start_year ui) (end_year ui))) ::
    concat (intervention_columns (res_value (build_levels ui) ∅) df_dict (target_column ui)
              (year_range (start_year ui) (end_year ui)) <$> selected_interventions ui) /\
  NoDup (columns df).*1.
Proof.
  intros (Hout & Hsub & Hitems) Hnd Hrun. unfold run_simulation in Hrun.
  destruct (build_levels_needed_core ui Hitems) as (lv & Hlv & Hneed). rewrite Hlv in Hrun |- * .
  destruct (dict_index_Ok _ _ Hout) as [oc Hoc]. destruct (dict_index_Ok _ _ Hsub) as [sc Hsc].
  rewrite Hoc, Hsc in Hrun. emu_simpl.
  assert (Htc : target_column ui = (oc ++ "_" ++ sc)%string)
    by (unfold target_column; by rewrite Hoc, Hsc).
  rewrite Htc. simpl res_value.
  edestruct (run_loop_columns lv df_dict (oc ++ "_" ++ sc)%string
               (year_range (start_year ui) (end_year ui)) (selected_interventions ui)
               {| results_df := frame_of_years (year_range (start_year ui) (end_year ui));
                  errors := []; valid_plot := false |})
    as (st & Hloop & Hcols & Hnd'); [| exact Hnd | reflexivity | | |].
  - intros d Hd. rewrite Forall_forall in Hitems.
    destruct (dict_index_Ok _ _ (Hitems d Hd)) as [key Hkey]. eauto.
  - simpl. repeat constructor. set_solver.
  - intros d n _ Hn. simpl. rewrite elem_of_cons, elem_of_nil.
    intros [-> | []]. by apply (year_not_result_name d).
  - rewrite Hloop in Hrun. emu_simpl.
    destruct (valid_plot st); [| done]. injection Hrun as <- _. done.
Qed.

(** C22 (results table): when a run with distinct selected interventions
    draws its charts, [results_df] holds the ["Year"] column followed, for
    each usable intervention in selection order, by its baseline,
    intervention and change columns with the predictor's series and their
    difference; the second assignment of lines 204-205 leaves them in
    place, and no column name repeats. *)
Theorem run_simulation_columns (ui : UI A) (df_dict : gmap string (table A)) df errs :
  ui_wf ui -> NoDup (selected_interventions ui) ->
  run_simulation ui df_dict = Ok (Rendered df errs) ->
  columns df =
    ("Year", YearCol (year_range (start_year ui) (end_year ui))) ::
    concat (intervention_columns (res_value (build_levels ui) ∅) df_dict (target_column ui)
              (year_range (start_year ui) (end_year ui)) <$> selected_interventions ui) /\
  NoDup (columns df).*1.
Proof. by eapply run_simulation_columns_core. Qed.
End ColumnsRun.

Lemma run_simulation_columns_witness :
  ui_wf example_ui /\ NoDup (selected_interventions example_ui) /\
  exists df errs, run_simulation example_ui (load_cleaned_data example_fs) = Ok (Rendered df errs) /\
  columns df =
    ("Year", YearCol (year_range (start_year example_ui) (end_year example_ui))) ::
    concat (intervention_columns (res_value (build_levels example_ui) ∅) (load_cleaned_data example_fs)
              (target_column example_ui)
              (year_range (start_year example_ui) (end_year example_ui)) <$>
            selected_interventions example_ui) /\
  NoDup (columns df).*1.
Proof.
  assert (Hnd : NoDup (selected_interventions example_ui))
    by (cbn; repeat constructor; set_solver).
  split; [exact example_ui_wf | split; [exact Hnd |]].
  destruct example_run as [df Hrun]. exists df, ["Dataset for pdiabe not loaded."].
  split; [exact Hrun |].
  exact (run_simulation_columns example_ui _ _ _ example_ui_wf Hnd Hrun).
Defined.
