(* ===== verification/Charts.v ===== *)
(** * The charts

    Lines 213-339 of [src/app.py]: after a run that did not stop, two
    plotly figures are drawn from [results_df].  For the i-th selected
    intervention (counting the skipped ones), with colour
    [colors[i % len(colors)]]:
    - the main figure gets a dashed, half-opaque baseline trace and a
      solid intervention trace, each only if its column exists; the
      intervention's legend shows its slider levels, read again from
      [intervention_levels];
    - the change figure gets the change trace if its column exists.
    Values are multiplied by [100] when the outcome's display name
    contains ["%"].  A trace is modelled as the record of the arguments
    the code passes to [go.Scatter], a figure's layout as the record of
    the arguments of [update_layout]; plotly's rendering is not
    modelled.  Python's [str] of a float, used
    in the legend, is a parameter [show]. *)

From stdpp Require Import base gmap strings list.
From Stdlib Require Import ZArith Ascii Floats.
From S2P Require Import Prelude PyNum Keys Coef Predictor Series Options Simulation.

Local Open Scope string_scope.

(** [colors] (line 219) and [colors[i % len(colors)]]. *)
Definition COLORS : list string := ["#990000"; "#FFCC00"; "#293035"; "#53616a"; "#bdc4c9"].

Definition color_of (i : nat) : string := default "" (COLORS !! (i mod length COLORS)).

(** The arguments of one [go.Scatter] call: [x], [y], [mode], [name],
    [line.dash], [line.color], [line.width], whether [opacity=0.5] is
    passed, and [hovertemplate]. *)
Record Trace (A : Type) := {
  tr_x : list Z;
  tr_y : list A;
  tr_mode : string;
  tr_name : string;
  tr_dash : option string;
  tr_color : string;
  tr_width : Z;
  tr_half_opacity : bool;
  tr_hover : string
}.
Arguments tr_x {A}. Arguments tr_y {A}. Arguments tr_mode {A}. Arguments tr_name {A}.
Arguments tr_dash {A}. Arguments tr_color {A}. Arguments tr_width {A}.
Arguments tr_half_opacity {A}. Arguments tr_hover {A}.

(** [results_df[c]] for a name of the (distinct) column names. *)
Fixpoint assoc_lookup {V} (c : string) (l : list (string * V)) : option V :=
  match l with
  | [] => None
  | (n, v) :: l' => if String.eqb n c then Some v else assoc_lookup c l'
  end.

(** [if col in results_df.columns: y_val = results_df[col]]. *)
Definition frame_values {A} (df : Frame A) (c : string) : option (list A) :=
  match assoc_lookup c (columns df) with
  | Some (ValCol vs) => Some vs
  | _ => None
  end.

(** [x=results_df["Year"]]. *)
Definition frame_years {A} (df : Frame A) : PyRes (list Z) :=
  match assoc_lookup "Year" (columns df) with
  | Some (YearCol ys) => Ok ys
  | _ => Raise (KeyError "Year")
  end.

(** [if "%" in selected_outcome: y_val = y_val * 100]. *)
Definition scale_values {A} `{PyArith A} (outcome : string) (vs : list A) : list A :=
  if str_contains "%" outcome then (fun y => y *. py_of_Z 100) <$> vs else vs.

(** The hover templates of lines 251, 265 and 313. *)
Definition value_hover (name : string) : string :=
  name ++ "<br><b>Year:</b> %{x}<br><b>Value:</b> %{y:,.2f}<extra></extra>".

Definition difference_hover (name : string) : string :=
  name ++ "<br><b>Year:</b> %{x}<br><b>Difference:</b> %{y:,.2f}<extra></extra>".

(** ** The figures' layouts ([fig.update_layout], lines 268-289 and
    316-337) *)

(** [dict(title_font=dict(size=14, color="black"),
    tickfont=dict(color="black", size=12), showgrid=True,
    gridcolor='#D0D0D0', showline=False)], the same for both axes of both
    figures. *)
Record Axis := {
  ax_title_size : Z;
  ax_title_color : string;
  ax_tick_color : string;
  ax_tick_size : Z;
  ax_showgrid : bool;
  ax_gridcolor : string;
  ax_showline : bool
}.

Definition axis_style : Axis := {|
  ax_title_size := 14; ax_title_color := "black"; ax_tick_color := "black"; ax_tick_size := 12;
  ax_showgrid := true; ax_gridcolor := "#D0D0D0"; ax_showline := false
|}.

(** The arguments of [update_layout]: height, axis titles, the horizontal
    legend above the plot ([orientation="h", yanchor="bottom", y=1.02,
    xanchor="right", x=1]), margins [l, r, t, b], font colour, axes. *)
Record Layout := {
  ly_height : Z;
  ly_xaxis_title : string;
  ly_yaxis_title : string;
  ly_legend : string * string * float * string * Z;
  ly_margin : Z * Z * Z * Z;
  ly_font_color : string;
  ly_xaxis : Axis;
  ly_yaxis : Axis
}.

Definition figure_layout (ytitle : string) : Layout := {|
  ly_height := 450; ly_xaxis_title := "Year"; ly_yaxis_title := ytitle;
  ly_legend := ("h", "bottom", 1.02%float, "right", 1%Z);
  ly_margin := (20, 20, 40, 20)%Z; ly_font_color := "black";
  ly_xaxis := axis_style; ly_yaxis := axis_style
|}.

(** Lines 268-289: the main figure's y axis is titled with the outcome. *)
Definition main_layout (outcome : string) : Layout := figure_layout outcome.

(** Lines 316-337. *)
Definition diff_layout : Layout := figure_layout "Difference (Intervention - Baseline)".

Section Figures.
Context {A : Type} `{PyArith A} (show : A -> string).

(** The legend label of the intervention trace (lines 228-234), reading
    the levels again. *)
Definition inter_label (lv : gmap string A) (d key : string) : PyRes string :=
  if String.eqb key "pcogstate" then
    l1 ← py_index lv "pcogstate_1";
    l2 ← py_index lv "pcogstate_2";
    Ok (d ++ " (L1=" ++ show l1 ++ ", L2=" ++ show l2 ++ ")")
  else
    level ← py_index lv key;
    Ok (d ++ " (Level=" ++ show level ++ ")").

(** The baseline trace (lines 239-252). *)
Definition baseline_trace (outcome : string) (df : Frame A) (d color : string)
    : PyRes (list (Trace A)) :=
  let base_name := "<b>Baseline:</b> " ++ d in
  match frame_values df ("Baseline (" ++ d ++ ")") with
  | Some vs =>
      xs ← frame_years df;
      Ok [{| tr_x := xs; tr_y := scale_values outcome vs; tr_mode := "lines";
             tr_name := base_name; tr_dash := Some "dash"; tr_color := color;
             tr_width := 4; tr_half_opacity := true; tr_hover := value_hover base_name |}]
  | None => Ok []
  end.

(** The intervention trace (lines 254-266). *)
Definition intervention_trace (outcome : string) (df : Frame A) (d label color : string)
    : PyRes (list (Trace A)) :=
  let inter_name := "<b>Intervention:</b> " ++ label in
  match frame_values df ("Intervention (" ++ d ++ ")") with
  | Some vs =>
      xs ← frame_years df;
      Ok [{| tr_x := xs; tr_y := scale_values outcome vs; tr_mode := "lines+markers";
             tr_name := inter_name; tr_dash := None; tr_color := color;
             tr_width := 2; tr_half_opacity := false; tr_hover := value_hover inter_name |}]
  | None => Ok []
  end.

(** [for i, display_name in enumerate(selected_interventions)] of the main
    figure (lines 221-266), from position [i]. *)
Fixpoint main_traces (outcome : string) (lv : gmap string A) (df : Frame A)
    (i : nat) (items : list string) : PyRes (list (Trace A)) :=
  match items with
  | [] => Ok []
  | d :: rest =>
      let color := color_of i in
      key ← dict_index INTERVENTION_OPTIONS d;
      label ← inter_label lv d key;
      bt ← baseline_trace outcome df d color;
      it ← intervention_trace outcome df d label color;
      rt ← main_traces outcome lv df (S i) rest;
      Ok (bt ++ it ++ rt)%list
  end.

(** The change trace (lines 298-314). *)
Definition change_trace (outcome : string) (df : Frame A) (d color : string)
    : PyRes (list (Trace A)) :=
  let change_name := "<b>Change:</b> " ++ d in
  match frame_values df ("Change (" ++ d ++ ")") with
  | Some vs =>
      xs ← frame_years df;
      Ok [{| tr_x := xs; tr_y := scale_values outcome vs; tr_mode := "lines+markers";
             tr_name := change_name; tr_dash := None; tr_color := color;
             tr_width := 2; tr_half_opacity := false; tr_hover := difference_hover change_name |}]
  | None => Ok []
  end.

(** The loop of the change figure (lines 297-314). *)
Fixpoint change_traces (outcome : string) (df : Frame A) (i : nat) (items : list string)
    : PyRes (list (Trace A)) :=
  match items with
  | [] => Ok []
  | d :: rest =>
      ct ← change_trace outcome df d (color_of i);
      rt ← change_traces outcome df (S i) rest;
      Ok (ct ++ rt)%list
  end.

(** What the page shows after a run: the messages, then, unless the run
    stopped, the two titled figures with their layouts. *)
Record Page := {
  page_errors : list string;
  page_figures : option (string * list (Trace A) * string * list (Trace A));
  page_layouts : option (Layout * Layout)
}.

(** The whole script after the sidebar: the run, then the charts. *)
Definition dashboard `{SeriesEngine A} (ui : UI A) (df_dict : gmap string (table A))
    : PyRes Page :=
  out ← run_simulation ui df_dict;
  match out with
  | Stopped errs => Ok {| page_errors := errs; page_figures := None; page_layouts := None |}
  | Rendered df errs =>
      lv ← build_levels ui;
      mt ← main_traces (selected_outcome ui) lv df 0 (selected_interventions ui);
      ct ← change_traces (selected_outcome ui) df 0 (selected_interventions ui);
      Ok {| page_errors := errs;
            page_figures := Some ("Projected " ++ selected_outcome ui, mt,
                                  "Change from Baseline", ct);
            page_layouts := Some (main_layout (selected_outcome ui), diff_layout) |}
  end.
End Figures.

(** ** Facts *)

Lemma assoc_lookup_Some {V} (l : list (string * V)) (c : string) (v : V) :
  NoDup l.*1 -> (c, v) ∈ l -> assoc_lookup c l = Some v.
Proof.
  induction l as [| [n w] l IH]; csimpl; [set_solver |].
  rewrite NoDup_cons. intros [Hn Hnd] [Heq | Hin]%elem_of_cons.
  - injection Heq as -> ->. by rewrite String.eqb_refl.
  - destruct (String.eqb_spec n c) as [-> |]; [| by apply IH].
    destruct Hn. apply list_elem_of_fmap. exists (c, v). by split.
Qed.

Section FigureFacts.
Context {A : Type} `{PyArith A} (show : A -> string).

Lemma inter_label_Ok lv d key :
  Forall (fun k => is_Some (lv !! k)) (needed_levels key) ->
  exists label, inter_label show lv d key = Ok label.
Proof.
  unfold inter_label, needed_levels, py_index.
  destruct (String.eqb key "pcogstate"); rewrite ?Forall_cons; intros; destruct_and?;
    repeat match goal with H : is_Some _ |- _ => destruct H as [? ->] end; emu_simpl; eauto.
Qed.

Lemma main_traces_Ok outcome lv (df : Frame A) i items :
  (forall d, d ∈ items -> exists key, dict_index INTERVENTION_OPTIONS d = Ok key /\
     Forall (fun k => is_Some (lv !! k)) (needed_levels key)) ->
  (exists ys, frame_years df = Ok ys) ->
  exists mt, main_traces show outcome lv df i items = Ok mt.
Proof.
  intros Hitems [ys Hys]. revert i. induction items as [| d items IH]; intros i; simpl; [eauto |].
  destruct (Hitems d) as (key & -> & Hlv); [set_solver |]. emu_simpl.
  destruct (inter_label_Ok lv d key Hlv) as [label ->]. emu_simpl. unfold baseline_trace, intervention_trace. rewrite Hys.
  destruct (IH ltac:(intros; apply Hitems; set_solver) (S i)) as [rt ->].
  repeat case_match; emu_simpl; eauto.
Qed.

Lemma change_traces_Ok outcome (df : Frame A) i items :
  (exists ys, frame_years df = Ok ys) ->
  exists ct, change_traces outcome df i items = Ok ct.
Proof.
  intros [ys Hys]. revert i. induction items as [| d items IH]; intros i; simpl; [eauto |].
  unfold change_trace. rewrite Hys. destruct (IH (S i)) as [rt ->].
  repeat case_match; emu_simpl; eauto.
Qed.

Lemma main_traces_elem outcome lv (df : Frame A) i items mt j d :
  main_traces show outcome lv df i items = Ok mt -> items !! j = Some d ->
  exists key label bt it,
    dict_index INTERVENTION_OPTIONS d = Ok key /\ inter_label show lv d key = Ok label /\
    baseline_trace outcome df d (color_of (i + j)) = Ok bt /\
    intervention_trace outcome df d label (color_of (i + j)) = Ok it /\
    (forall t, t ∈ bt -> t ∈ mt) /\ (forall t, t ∈ it -> t ∈ mt).
Proof.
  revert i j mt. induction items as [| d' items IH]; intros i j mt Hmt Hj; [done |].
  simpl in Hmt.
  destruct (dict_index _ d') as [key |] eqn:Hkey; emu_simpl; [| done].
  destruct (inter_label show lv d' key) as [label |] eqn:Hlab; emu_simpl; [| done].
  destruct (baseline_trace outcome df d' (color_of i)) as [bt |] eqn:Hbt; emu_simpl; [| done].
  destruct (intervention_trace outcome df d' label (color_of i)) as [it |] eqn:Hit;
    emu_simpl; [| done].
  destruct (main_traces show outcome lv df (S i) items) as [rt |] eqn:Hrt; emu_simpl; [| done].
  injection Hmt as <-. destruct j as [| j]; simpl in Hj.
  - injection Hj as <-. rewrite Nat.add_0_r. exists key, label, bt, it.
    repeat split; try done; intros t Ht; set_solver.
  - destruct (IH (S i) j rt Hrt Hj) as (k & l & bt' & it' & ? & ? & Hb & Hi & Hsb & Hsi).
    exists k, l, bt', it'. rewrite Nat.add_succ_r. repeat split; try done;
      intros t Ht; [apply Hsb in Ht | apply Hsi in Ht]; set_solver.
Qed.

Lemma change_traces_elem outcome (df : Frame A) i items ct j d :
  change_traces outcome df i items = Ok ct -> items !! j = Some d ->
  exists ct1, change_trace outcome df d (color_of (i + j)) = Ok ct1 /\
              (forall t, t ∈ ct1 -> t ∈ ct).
Proof.
  revert i j ct. induction items as [| d' items IH]; intros i j ct Hct Hj; [done |].
  simpl in Hct.
  destruct (change_trace outcome df d' (color_of i)) as [c1 |] eqn:Hc1; emu_simpl; [| done].
  destruct (change_traces outcome df (S i) items) as [rt |] eqn:Hrt; emu_simpl; [| done].
  injection Hct as <-. destruct j as [| j]; simpl in Hj.
  - injection Hj as <-. rewrite Nat.add_0_r. exists c1. split; [done | set_solver].
  - destruct (IH (S i) j rt Hrt Hj) as (c & Hc & Hs). exists c.
    rewrite Nat.add_succ_r. split; [done |]. intros t Ht. apply Hs in Ht. set_solver.
Qed.

(** The Year column heads every rendered [results_df]. *)
Lemma frame_years_head (df : Frame A) ys rest :
  columns df = ("Year", YearCol ys) :: rest -> frame_years df = Ok ys.
Proof. intros Hc. unfold frame_years. by rewrite Hc. Qed.
End FigureFacts.

Section Dashboard.
Context {A : Type} `{PyArith A} `{SeriesEngine A} (show : A -> string).

Lemma dashboard_Ok_core (ui : UI A) (df_dict : gmap string (table A)) :
  ui_wf ui -> NoDup (selected_interventions ui) ->
  exists page, dashboard show ui df_dict = Ok page.
Proof.
  intros Hwf Hnd. unfold dashboard.
  destruct (run_simulation_Ok_core ui df_dict Hwf) as [out Hrun]. rewrite Hrun. emu_simpl.
  destruct out as [errs | df errs]; [by eexists |].
  destruct (run_simulation_columns_core ui df_dict df errs Hwf Hnd Hrun) as [Hcols _].
  destruct Hwf as (_ & _ & Hitems).
  destruct (build_levels_needed_core ui Hitems) as (lv & -> & Hneed). emu_simpl.
  destruct (main_traces_Ok show (selected_outcome ui) lv df 0 (selected_interventions ui))
    as [mt ->]; [| eexists; by eapply frame_years_head |].
  { intros d Hd. rewrite Forall_forall in Hitems.
    destruct (dict_index_Ok _ _ (Hitems d Hd)) as [key Hkey]. eauto. }
  destruct (change_traces_Ok (selected_outcome ui) df 0 (selected_interventions ui))
    as [ct ->]; [eexists; by eapply frame_years_head |].
  emu_simpl. by eexists.
Qed.

(** C23 (charts never raise): for widget values among the options and
    distinct selected interventions, the whole script after the sidebar
    returns a page: the charts' second reads of [intervention_levels] and
    of [results_df["Year"]] never raise. *)
Theorem dashboard_Ok (ui : UI A) (df_dict : gmap string (table A)) :
  ui_wf ui -> NoDup (selected_interventions ui) ->
  exists page, dashboard show ui df_dict = Ok page.
Proof. by eapply dashboard_Ok_core. Qed.
End Dashboard.

Lemma intervention_columns_usable {A} `{PyArith A} `{SeriesEngine A} lv df_dict target_col
    years d (bvs ivs : list A) :
  intervention_columns lv df_dict target_col years d = result_columns d bvs ivs ->
  skip_message df_dict target_col (intervention_key d) = None.
Proof.
  unfold intervention_columns, usable_beta, skip_message.
  destruct (df_dict !! intervention_key d) as [df |]; simpl; [| done].
  by destruct (df !! target_col).
Qed.

Section TraceConsistency.
Context {A : Type} `{PyArith A} `{SeriesEngine A} (show : A -> string).

(** C24 (charts show the run's series): for every selected intervention
    that the run could use, at its position [j] in the selection, the page
    shows a dashed baseline trace with its baseline series, a solid
    intervention trace with its intervention series, and a change trace
    with their difference, all three in colour [colors[j % 5]], and all
    values scaled by [100] exactly when the outcome name contains ["%"]. *)
Theorem dashboard_traces (ui : UI A) (df_dict : gmap string (table A)) page j d bvs ivs :
  ui_wf ui -> NoDup (selected_interventions ui) ->
  dashboard show ui df_dict = Ok page ->
  selected_interventions ui !! j = Some d ->
  intervention_columns (res_value (build_levels ui) ∅) df_dict (target_column ui)
    (year_range (start_year ui) (end_year ui)) d = result_columns d bvs ivs ->
  exists t1 mt t2 ct, page_figures page = Some (t1, mt, t2, ct) /\
    (exists t, t ∈ mt /\ tr_name t = "<b>Baseline:</b> " ++ d /\ tr_dash t = Some "dash" /\
       tr_y t = scale_values (selected_outcome ui) bvs /\ tr_color t = color_of j) /\
    (exists t, t ∈ mt /\ tr_dash t = None /\
       tr_y t = scale_values (selected_outcome ui) ivs /\ tr_color t = color_of j) /\
    (exists t, t ∈ ct /\ tr_name t = "<b>Change:</b> " ++ d /\
       tr_y t = scale_values (selected_outcome ui) (diff_values ivs bvs) /\
       tr_color t = color_of j).
Proof.
  intros Hwf Hnd Hdash Hj Hic.
  pose proof (intervention_columns_usable _ _ _ _ _ _ _ Hic) as Husable.
  assert (Hd : d ∈ selected_interventions ui) by (eapply list_elem_of_lookup_2; eauto).
  unfold dashboard in Hdash.
  destruct (run_simulation_Ok_core ui df_dict Hwf) as [out Hrun]. rewrite Hrun in Hdash. emu_simpl.
  destruct (run_simulation_errors_core ui df_dict out Hwf Hrun) as [_ Hstop].
  destruct out as [errs | df errs].
  { exfalso. destruct Hstop as [Hs _]. specialize (Hs eq_refl).
    rewrite Forall_forall in Hs. destruct (Hs d Hd) as [? Hm]. congruence. }
  destruct (run_simulation_columns_core ui df_dict df errs Hwf Hnd Hrun) as [Hcols Hnames].
  assert (Hin : forall c, c ∈ result_columns d bvs ivs -> c ∈ columns df).
  { intros c Hc. rewrite Hcols. apply elem_of_cons. right.
    eapply elem_of_concat_fmap; [exact Hd | by rewrite Hic]. }
  assert (Hyears := frame_years_head df _ _ Hcols).
  destruct (build_levels ui) as [lv |] eqn:Hlv; emu_simpl; [| done].
  destruct (main_traces show (selected_outcome ui) lv df 0 (selected_interventions ui))
    as [mt |] eqn:Hmt; emu_simpl; [| done].
  destruct (change_traces (selected_outcome ui) df 0 (selected_interventions ui))
    as [ct |] eqn:Hct; emu_simpl; [| done].
  injection Hdash as <-. do 4 eexists. split; [reflexivity |].
  destruct (main_traces_elem show _ _ _ _ _ _ _ _ Hmt Hj) as (key & label & bt & it & _ & _ & Hbt & Hit & Hsb & Hsi).
  destruct (change_traces_elem _ _ _ _ _ _ _ Hct Hj) as (c1 & Hc1 & Hsc).
  unfold baseline_trace, intervention_trace, change_trace, frame_values in * .
  rewrite (assoc_lookup_Some (columns df) _ (ValCol bvs) Hnames) in Hbt
    by (apply Hin; unfold result_columns; set_solver).
  rewrite (assoc_lookup_Some (columns df) _ (ValCol ivs) Hnames) in Hit
    by (apply Hin; unfold result_columns; set_solver).
  rewrite (assoc_lookup_Some (columns df) _ (ValCol (diff_values ivs bvs)) Hnames) in Hc1
    by (apply Hin; unfold result_columns; set_solver).
  rewrite Hyears in Hbt, Hit, Hc1. emu_simpl.
  injection Hbt as <-. injection Hit as <-. injection Hc1 as <-.
  split; [| split]; eexists; split;
    [apply Hsb, list_elem_of_here | | apply Hsi, list_elem_of_here | |
     apply Hsc, list_elem_of_here |];
    simpl; repeat split; reflexivity.
Qed.
End TraceConsistency.

(** ** Witnesses on the concrete run of [Simulation.v] *)

Definition example_show (x : float) : string := "0.85".

Lemma example_ui_NoDup : NoDup (selected_interventions example_ui).
Proof. cbn. repeat constructor; set_solver. Qed.

Lemma dashboard_Ok_witness :
  ui_wf example_ui /\ NoDup (selected_interventions example_ui) /\
  exists page, dashboard example_show example_ui (load_cleaned_data example_fs) = Ok page.
Proof.
  split; [exact example_ui_wf | split; [exact example_ui_NoDup |]].
  exact (dashboard_Ok example_show example_ui _ example_ui_wf example_ui_NoDup).
Defined.

Lemma example_dashboard :
  exists page, dashboard example_show example_ui (load_cleaned_data example_fs) = Ok page.
Proof. eexists. vm_compute. reflexivity. Qed.

Lemma example_columns :
  intervention_columns (res_value (build_levels example_ui) ∅) (load_cleaned_data example_fs)
    (target_column example_ui) (year_range (start_year example_ui) (end_year example_ui))
    "Hypertension Incidence Reduction" =
  result_columns "Hypertension Incidence Reduction" [6.5; 6; 6]%float [7.175; 6.6; 6.6]%float.
Proof. vm_compute. reflexivity. Qed.

Lemma dashboard_traces_witness :
  ui_wf example_ui /\ NoDup (selected_interventions example_ui) /\
  selected_interventions example_ui !! 0%nat = Some "Hypertension Incidence Reduction" /\
  exists page, dashboard example_show example_ui (load_cleaned_data example_fs) = Ok page /\
  exists t1 mt t2 ct, page_figures page = Some (t1, mt, t2, ct) /\
    (exists t, t ∈ mt /\ tr_name t = "<b>Baseline:</b> " ++ "Hypertension Incidence Reduction" /\
       tr_dash t = Some "dash" /\
       tr_y t = scale_values (selected_outcome example_ui) [6.5; 6; 6]%float /\
       tr_color t = color_of 0) /\
    (exists t, t ∈ mt /\ tr_dash t = None /\
       tr_y t = scale_values (selected_outcome example_ui) [7.175; 6.6; 6.6]%float /\
       tr_color t = color_of 0) /\
    (exists t, t ∈ ct /\ tr_name t = "<b>Change:</b> " ++ "Hypertension Incidence Reduction" /\
       tr_y t = scale_values (selected_outcome example_ui)
                  (diff_values [7.175; 6.6; 6.6]%float [6.5; 6; 6]%float) /\
       tr_color t = color_of 0).
Proof.
  assert (Hj : selected_interventions example_ui !! 0%nat = Some "Hypertension Incidence Reduction")
    by reflexivity.
  split; [exact example_ui_wf | split; [exact example_ui_NoDup | split; [exact Hj |]]].
  destruct example_dashboard as [page Hpage]. exists page. split; [exact Hpage |].
  exact (dashboard_traces example_show example_ui _ page 0 _ _ _
           example_ui_wf example_ui_NoDup Hpage Hj example_columns).
Defined.
