(* ===== verification/App.v ===== *)
(** * The page, the sidebar and the whole script

    Lines 22 and 63-93 of [src/app.py], and the script as a whole: the
    cleaned data are loaded (line 22), the page is configured and styled
    (lines 63-77), the sidebar creates its widgets and reads their values
    (lines 79-91), and when the button is pressed the run and the charts
    follow (lines 93-339, [Charts.dashboard]).

    What a widget returns is Streamlit's business, not this program's: it
    is the interface [Streamlit] (one function per widget kind) with the
    laws [StreamlitLaws] that Streamlit's widgets obey (a selectbox returns
    one of its options, a multiselect a list of distinct options, a slider
    a value of its range, on its step grid for integers).  The sidebar is
    proved against the interface: its values always meet the contract
    [ui_wf] under which [Simulation.v] and [Charts.v] prove the run and
    the charts raise nothing, its widgets have distinct labels (Streamlit
    rejects two widgets with the same label as a duplicate widget ID), and
    the whole script never raises.  [session_widgets] is an executable
    instance: a browser session's choices by label, with Streamlit's
    defaults where the session has none or an invalid one. *)

From stdpp Require Import base gmap strings list.
From Stdlib Require Import ZArith Ascii Floats.
From S2P Require Import Prelude PyNum Keys Predictor Series Options Simulation Charts.

Local Open Scope string_scope.

(** ** What the script puts on the page *)

Inductive Element (A : Type) :=
  | PageConfig (page_title layout : string)
  | Markdown (body : string) (unsafe_allow_html : bool)
  | Title (t : string)
  | SidebarHeader (h : string)
  | SelectboxW (label : string) (options : list string)
  | MultiselectW (label : string) (options : list string)
  | RangeSliderW (label : string) (lo hi : Z) (value : Z * Z) (step : Z)
  | SliderW (label : string) (lo hi value step : A)
  | ButtonW (label : string).
Arguments PageConfig {A}.
Arguments Markdown {A}.
Arguments Title {A}.
Arguments SidebarHeader {A}.
Arguments SelectboxW {A}.
Arguments MultiselectW {A}.
Arguments RangeSliderW {A}.
Arguments SliderW {A}.
Arguments ButtonW {A}.

(** The label of a widget; the other elements have none. *)
Definition widget_label {A} (e : Element A) : option string :=
  match e with
  | SelectboxW l _ | MultiselectW l _ | RangeSliderW l _ _ _ _ | SliderW l _ _ _ _ | ButtonW l => Some l
  | _ => None
  end.

Definition widget_labels {A} (es : list (Element A)) : list string := omap widget_label es.

(** The style sheet of lines 65-74, line by line. *)
Definition nl : string := String (ascii_of_nat 10) EmptyString.
Definition dq_s : string := String (ascii_of_nat 34) EmptyString.

Definition SIDEBAR_CSS : string :=
  nl ++ "<style>" ++ nl ++
  "    section[data-testid=" ++ dq_s ++ "stSidebar" ++ dq_s ++ "] {" ++ nl ++
  "        background-color: #D0D7E5; " ++ nl ++
  "        box-shadow: 2px 0px 15px rgba(0,0,0,0.08);" ++ nl ++
  "        border-right: 1px solid #E0E0E0;" ++ nl ++
  "        min-width: 300px;" ++ nl ++
  "    }" ++ nl ++
  "</style>" ++ nl.

(** Lines 63-77. *)
Definition page_header {A} : list (Element A) :=
  [PageConfig "Intervention Simulation Dashboard" "wide";
   Markdown SIDEBAR_CSS true;
   Title "US Cost of Dementia Model";
   SidebarHeader "Filters"].

(** ** The widgets' interface *)

(** A value of an integer range slider: two ends in order, within the
    bounds, on the step grid. *)
Definition range_ok (lo hi s : Z) (r : Z * Z) : Prop :=
  (lo <= r.1 <= r.2)%Z /\ (r.2 <= hi)%Z /\ ((r.1 - lo) mod s = 0)%Z /\ ((r.2 - lo) mod s = 0)%Z.

(** [st.sidebar.selectbox(label, options)], [multiselect], the range
    [slider(label, min_value, max_value, value, step)] on integers, the
    [slider(label, min, max, value, step)] on floats, and [button]. *)
Class Streamlit (A : Type) := {
  st_selectbox : string -> list string -> string;
  st_multiselect : string -> list string -> list string;
  st_range_slider : string -> Z -> Z -> Z * Z -> Z -> Z * Z;
  st_slider : string -> A -> A -> A -> A -> A;
  st_button : string -> bool
}.

#[export] Instance range_ok_dec lo hi s r : Decision (range_ok lo hi s r).
Proof. unfold range_ok. apply _. Defined.

(** What Streamlit's widgets promise, given arguments Streamlit accepts
    (it raises on a default value outside the widget's range): a
    selectbox returns one of its options, a multiselect distinct options,
    a slider a value of its range, on the step grid for an integer range. *)
Class StreamlitLaws (A : Type) `{PyDec A} `{Streamlit A} : Prop := {
  selectbox_elem l opts : opts <> [] -> st_selectbox l opts ∈ opts;
  multiselect_sub l opts : Forall (fun x => x ∈ opts) (st_multiselect l opts);
  multiselect_NoDup l opts : NoDup (st_multiselect l opts);
  range_slider_grid l lo hi v s :
    (0 < s)%Z -> range_ok lo hi s v ->
    range_ok lo hi s (st_range_slider l lo hi v s);
  slider_range l lo hi v s :
    py_le lo v && py_le v hi = true ->
    py_le lo (st_slider l lo hi v s) && py_le (st_slider l lo hi v s) hi = true
}.

(** ** The sidebar (lines 79-91) *)

Section Sidebar.
Context {A : Type} `{PyDec A} `{Streamlit A}.

(** The level sliders' range [0.5 .. 1.0], step [0.01], and defaults. *)
Definition LEVEL_LO : A := py_dec 5 1.
Definition LEVEL_HI : A := py_dec 10 1.
Definition LEVEL_STEP : A := py_dec 1 2.
Definition level_default (label : string) : A :=
  if String.eqb label "MCI Prevalence Reduction" then py_dec 90 2 else py_dec 85 2.

(** [st.sidebar.slider(label, 0.5, 1.0, default, 0.01)]: lines 88, 89 and
    91 differ only in the label and the default ([0.90] for the MCI
    slider, [0.85] for the others). *)
Definition level_slider (label : string) : A :=
  st_slider label LEVEL_LO LEVEL_HI (level_default label) LEVEL_STEP.

(** Line 82. *)
Definition year_slider : Z * Z := st_range_slider "Year Range" 2026 2050 (2026, 2050)%Z 2.

(** The values the sidebar hands to the run. *)
Definition sidebar_ui : UI A := {|
  selected_outcome := st_selectbox "Outcome" (dict_keys OUTCOME_OPTIONS);
  selected_subgroup := st_selectbox "Subgroup" (dict_keys SUBGROUP_OPTIONS);
  selected_interventions := st_multiselect "Choose Intervention(s)" (dict_keys INTERVENTION_OPTIONS);
  start_year := year_slider.1;
  end_year := year_slider.2;
  slider := level_slider
|}.

(** The widgets of lines 79-82, in order. *)
Definition filter_widgets : list (Element A) :=
  [SelectboxW "Outcome" (dict_keys OUTCOME_OPTIONS);
   SelectboxW "Subgroup" (dict_keys SUBGROUP_OPTIONS);
   MultiselectW "Choose Intervention(s)" (dict_keys INTERVENTION_OPTIONS);
   RangeSliderW "Year Range" 2026 2050 (2026, 2050)%Z 2].

(** The sliders one selected intervention gets (lines 87-91). *)
Definition item_sliders (item key : string) : list (Element A) :=
  if String.eqb key "pcogstate" then
    [SliderW "Dementia Prevalence Reduction" LEVEL_LO LEVEL_HI (level_default "Dementia Prevalence Reduction") LEVEL_STEP;
     SliderW "MCI Prevalence Reduction" LEVEL_LO LEVEL_HI (level_default "MCI Prevalence Reduction") LEVEL_STEP]
  else [SliderW (item ++ " Level") LEVEL_LO LEVEL_HI (level_default (item ++ " Level")) LEVEL_STEP].

(** The widgets the loop of lines 85-91 creates, in order; the loop's
    [INTERVENTION_OPTIONS[item]] raises [KeyError] as in [levels_loop]. *)
Fixpoint level_widgets (items : list string) : PyRes (list (Element A)) :=
  match items with
  | [] => Ok []
  | item :: rest =>
      key ← dict_index INTERVENTION_OPTIONS item;
      ws ← level_widgets rest;
      Ok (item_sliders item key ++ ws)%list
  end.

End Sidebar.

(** ** The whole script *)

Section Script.
Context {A : Type} `{PyArith A} `{PyDec A} `{Streamlit A} `{SeriesEngine A} (show : A -> string).

(** The script from line 22: what it puts on the page, and the page the
    button's branch renders when it is pressed. *)
Definition app (fs : gmap string (table A)) : PyRes (list (Element A) * option Page) :=
  let df_dict := load_cleaned_data fs in
  lw ← level_widgets (selected_interventions sidebar_ui);
  let elems := (page_header ++ filter_widgets ++ lw ++ [ButtonW "Run Simulation"])%list in
  if st_button "Run Simulation" then
    page ← dashboard show sidebar_ui df_dict;
    Ok (elems, Some page)
  else Ok (elems, None).

End Script.

(** ** The sidebar's values meet the run's contract *)

(** The labels of the sliders one intervention gets. *)
Definition item_labels (item key : string) : list string :=
  if String.eqb key "pcogstate" then ["Dementia Prevalence Reduction"; "MCI Prevalence Reduction"]
  else [item ++ " Level"].

(** The labels of the sliders of a selected intervention, by its name. *)
Definition labels_of (item : string) : list string :=
  match dict_index INTERVENTION_OPTIONS item with Ok key => item_labels item key | Raise _ => [] end.

Definition FIXED_LABELS : list string :=
  ["Outcome"; "Subgroup"; "Choose Intervention(s)"; "Year Range"; "Run Simulation"].

Lemma widget_labels_app {A} (l1 l2 : list (Element A)) :
  widget_labels (l1 ++ l2)%list = (widget_labels l1 ++ widget_labels l2)%list.
Proof. apply omap_app. Qed.

(** Checked once over the four interventions offered: each one's slider
    labels are distinct, differ from every other intervention's and from
    the fixed widgets' labels. *)
Lemma labels_of_facts :
  Forall (fun x => NoDup (labels_of x) /\ Forall (fun z => z ∉ FIXED_LABELS) (labels_of x) /\
            Forall (fun y => x = y \/ Forall (fun z => z ∉ labels_of y) (labels_of x))
              (dict_keys INTERVENTION_OPTIONS))
         (dict_keys INTERVENTION_OPTIONS).
Proof. apply (bool_decide_unpack _). by vm_compute. Qed.

Lemma levels_loop_Forall {A} (P : A -> Prop) (sl : string -> A) items (lv lv' : gmap string A) :
  (forall label, P (sl label)) -> map_Forall (fun _ => P) lv ->
  levels_loop sl items lv = Ok lv' -> map_Forall (fun _ => P) lv'.
Proof.
  intros Hsl. revert lv. induction items as [| item rest IH]; intros lv Hlv Hrun; simpl in Hrun.
  - by injection Hrun as <-.
  - destruct (dict_index _ item) as [key |]; emu_simpl; [| done].
    apply (IH _) in Hrun; [done |]. case_match; by repeat apply map_Forall_insert_2.
Qed.

Section SidebarFacts.
Context {A : Type} `{PyDec A} `{Streamlit A} `{!StreamlitLaws A}.

Lemma level_widgets_labels items ws :
  level_widgets (A := A) items = Ok ws -> widget_labels ws = concat (labels_of <$> items).
Proof.
  revert ws. induction items as [| item rest IH]; intros ws Hw; simpl in Hw; [by injection Hw as <- |].
  destruct (dict_index INTERVENTION_OPTIONS item) as [key |] eqn:Hk; emu_simpl; [| done].
  destruct (level_widgets rest) as [ws' |] eqn:E; emu_simpl; [| done]. injection Hw as <-.
  assert (labels_of item = item_labels item key) as Hl by (unfold labels_of; by rewrite Hk).
  rewrite fmap_cons. cbn [concat]. rewrite Hl, widget_labels_app, (IH ws') by done. f_equal.
  unfold item_sliders, item_labels. by destruct (String.eqb key "pcogstate").
Qed.

Lemma level_widgets_Ok items :
  Forall (fun d => d ∈ dict_keys INTERVENTION_OPTIONS) items ->
  exists ws, level_widgets (A := A) items = Ok ws.
Proof.
  induction 1 as [| item rest Hin _ [ws IH]]; [by eexists |].
  destruct (dict_index_Ok _ _ Hin) as [key Hk]. simpl. rewrite Hk, IH. by eexists.
Qed.

(** The selections are among the options, without repetition. *)
Lemma sidebar_ui_wf : ui_wf (sidebar_ui (A := A)) /\ NoDup (selected_interventions (sidebar_ui (A := A))).
Proof.
  unfold ui_wf. simpl. split_and!;
    [apply selectbox_elem; discriminate | apply selectbox_elem; discriminate |
     apply multiselect_sub | apply multiselect_NoDup].
Qed.

Lemma year_slider_ok : range_ok 2026 2050 2 year_slider.
Proof. apply range_slider_grid; [lia | by vm_compute]. Qed.

End SidebarFacts.

Section SidebarContract.
Context {A : Type} `{PyDec A} `{Streamlit A} `{!StreamlitLaws A}.

Lemma sidebar_labels_NoDup ws :
  level_widgets (A := A) (selected_interventions sidebar_ui) = Ok ws ->
  NoDup (widget_labels (page_header ++ filter_widgets ++ ws ++ [ButtonW "Run Simulation"])%list).
Proof.
  intros Hw. destruct sidebar_ui_wf as ((_ & _ & Hitems) & Hnd).
  rewrite !widget_labels_app, (level_widgets_labels _ _ Hw). cbn.
  pose proof labels_of_facts as Hfacts. rewrite Forall_forall in Hfacts, Hitems.
  assert (forall x z, x ∈ selected_interventions sidebar_ui -> z ∈ labels_of x -> z ∉ FIXED_LABELS) as Hfix.
  { intros x z Hx Hz. destruct (Hfacts x (Hitems x Hx)) as (_ & Hf & _). by eapply Forall_forall in Hf. }
  assert (NoDup (concat (labels_of <$> selected_interventions sidebar_ui))) as Hcat.
  { apply NoDup_concat_fmap; [done | intros x Hx; apply Hfacts, Hitems, Hx |].
    intros x y z Hx Hy Hxy Hz. destruct (Hfacts x (Hitems x Hx)) as (_ & _ & Hpair).
    rewrite Forall_forall in Hpair. destruct (Hpair y (Hitems y Hy)) as [Heq | Hd]; [done |].
    rewrite Forall_forall in Hd. by apply Hd. }
  change (NoDup (["Outcome"; "Subgroup"; "Choose Intervention(s)"; "Year Range"] ++
                 (concat (labels_of <$> selected_interventions sidebar_ui) ++ ["Run Simulation"]))).
  apply NoDup_app. split_and!.
  - apply (bool_decide_unpack _). by vm_compute.
  - intros z Hz [Hc | Hr]%elem_of_app.
    + apply elem_of_concat_fmap_inv in Hc as (x & Hx & Hzx).
      apply (Hfix x z Hx Hzx). unfold FIXED_LABELS. set_solver.
    + apply list_elem_of_singleton in Hr as ->. set_solver.
  - apply NoDup_app. split_and!; [done | | apply NoDup_singleton].
    intros z Hc Hr. apply list_elem_of_singleton in Hr as ->.
    apply elem_of_concat_fmap_inv in Hc as (x & Hx & Hzx).
    apply (Hfix x _ Hx Hzx). unfold FIXED_LABELS. set_solver.
Qed.

(** C33 (type): whatever the user does with the widgets, the values the
    sidebar hands to the run meet the run's contract: the outcome and
    subgroup are options offered, the interventions are offered ones
    without repetition, the year range is ordered within [2026 .. 2050]
    on the step grid of [2], and every level slider, so every value of
    the levels dict the predictor reads, lies in [[0.5, 1.0]] (given that
    the slider defaults [0.85] and [0.90] do, as Streamlit requires). *)
Theorem sidebar_contract :
  (forall label, py_le LEVEL_LO (level_default (A := A) label) && py_le (level_default label) LEVEL_HI = true) ->
  ui_wf (sidebar_ui (A := A)) /\ NoDup (selected_interventions (sidebar_ui (A := A))) /\
  range_ok 2026 2050 2 (start_year (sidebar_ui (A := A)), end_year (sidebar_ui (A := A))) /\
  forall lv, build_levels (sidebar_ui (A := A)) = Ok lv ->
    map_Forall (fun _ v => py_le LEVEL_LO v && py_le v LEVEL_HI = true) lv.
Proof.
  intros Hdef. destruct sidebar_ui_wf as [Hwf Hnd]. split_and!; [done | done | apply year_slider_ok |].
  intros lv Hlv. eapply levels_loop_Forall; [| apply map_Forall_empty | exact Hlv].
  intros label. by apply slider_range.
Qed.

End SidebarContract.

Section AppFacts.
Context {A : Type} `{PyArith A} `{PyDec A} `{Streamlit A} `{SeriesEngine A} `{!StreamlitLaws A}.
Context (show : A -> string).

(** C34 (safety, the whole script): for any files, whatever the user does
    with the widgets, the script raises nothing: it puts the page header
    and the sidebar's widgets on the page, no two widgets share a label
    (Streamlit would reject a duplicate widget ID), and it renders a page
    of results exactly when the button is pressed. *)
Theorem app_Ok (fs : gmap string (table A)) :
  exists elems page, app show fs = Ok (elems, page) /\
    NoDup (widget_labels elems) /\ (is_Some page <-> st_button "Run Simulation" = true).
Proof.
  destruct sidebar_ui_wf as [Hwf Hnd]. pose proof Hwf as (_ & _ & Hitems).
  destruct (level_widgets_Ok _ Hitems) as [ws Hws].
  unfold app. rewrite Hws. emu_simpl.
  destruct (st_button "Run Simulation").
  - destruct (dashboard_Ok_core show sidebar_ui (load_cleaned_data fs) Hwf Hnd) as [page ->].
    emu_simpl. do 2 eexists. split_and!; [done | by apply sidebar_labels_NoDup | by split; [| eexists]].
  - do 2 eexists. split_and!; [done | by apply sidebar_labels_NoDup | split; [by intros [] | done]].
Qed.

End AppFacts.

(** ** A browser session *)

(** What the user chose in a session, by widget label, and the buttons
    clicked in this rerun. *)
Record Session := {
  ss_select : gmap string string;
  ss_multi : gmap string (list string);
  ss_range : gmap string (Z * Z);
  ss_slider : gmap string float;
  ss_clicked : list string
}.

(** Streamlit's widgets in that session: the user's choice where it is
    valid for the widget, the widget's default otherwise (a selectbox's
    first option, an empty multiselect, the slider's [value]). *)
Definition session_widgets (s : Session) : Streamlit float := {|
  st_selectbox l opts :=
    match ss_select s !! l with
    | Some c => if bool_decide (c ∈ opts) then c else default EmptyString (head opts)
    | None => default EmptyString (head opts)
    end;
  st_multiselect l opts := remove_dups (filter (fun x => x ∈ opts) (default [] (ss_multi s !! l)));
  st_range_slider l lo hi v st :=
    match ss_range s !! l with
    | Some r => if bool_decide (range_ok lo hi st r) then r else v
    | None => v
    end;
  st_slider l lo hi v st :=
    match ss_slider s !! l with
    | Some x => if py_le lo x && py_le x hi then x else v
    | None => v
    end;
  st_button l := bool_decide (l ∈ ss_clicked s)
|}.

Lemma head_elem {T} (opts : list T) (d : T) : opts <> [] -> default d (head opts) ∈ opts.
Proof. destruct opts; [done |]. intros _. simpl. set_solver. Qed.

Lemma session_laws (s : Session) : @StreamlitLaws float _ (session_widgets s).
Proof.
  split; simpl.
  - intros l opts Hne. destruct (ss_select s !! l); [case_bool_decide |]; auto using head_elem.
  - intros l opts. apply Forall_forall. intros x Hx.
    rewrite elem_of_remove_dups, list_elem_of_filter in Hx. by destruct Hx.
  - intros l opts. apply NoDup_remove_dups.
  - intros l lo hi v st _ Hv. destruct (ss_range s !! l); [case_bool_decide |]; done.
  - intros l lo hi v st Hv. destruct (ss_slider s !! l) as [x |]; [| done].
    destruct (PrimFloat.leb lo x && PrimFloat.leb x hi) eqn:Hx; [exact Hx | exact Hv].
Qed.

Definition example_session : Session := {|
  ss_select := {[ "Outcome" := "Hypertension Prevalence (%)"; "Subgroup" := "All" ]};
  ss_multi := {[ "Choose Intervention(s)" :=
                   ["Hypertension Incidence Reduction"; "Diabetes Incidence Reduction"] ]};
  ss_range := {[ "Year Range" := (2026, 2030)%Z ]};
  ss_slider := {[ "Hypertension Incidence Reduction Level" := 0.8%float ]};
  ss_clicked := ["Run Simulation"]
|}.

Lemma float_level_defaults (label : string) :
  py_le LEVEL_LO (level_default (A := float) label) && py_le (level_default (A := float) label) LEVEL_HI = true.
Proof. unfold level_default. by destruct (String.eqb label _); vm_compute. Qed.

Lemma sidebar_contract_witness :
  @StreamlitLaws float _ (session_widgets example_session) /\
  (forall label, py_le LEVEL_LO (level_default (A := float) label) && py_le (level_default (A := float) label) LEVEL_HI = true) /\
  let _ := session_widgets example_session in
  ui_wf (sidebar_ui (A := float)) /\ NoDup (selected_interventions (sidebar_ui (A := float))) /\
  range_ok 2026 2050 2 (start_year (sidebar_ui (A := float)), end_year (sidebar_ui (A := float))) /\
  forall lv, build_levels (sidebar_ui (A := float)) = Ok lv ->
    map_Forall (fun _ v => py_le LEVEL_LO v && py_le v LEVEL_HI = true) lv.
Proof.
  split_and!; [apply session_laws | apply float_level_defaults |].
  exact (sidebar_contract (StreamlitLaws0 := session_laws example_session) float_level_defaults).
Defined.

Lemma app_Ok_witness :
  @StreamlitLaws float _ (session_widgets example_session) /\
  let _ := session_widgets example_session in
  exists elems page, app example_show example_fs = Ok (elems, page) /\
    NoDup (widget_labels elems) /\ (is_Some page <-> st_button "Run Simulation" = true).
Proof.
  split; [apply session_laws |].
  exact (app_Ok (StreamlitLaws0 := session_laws example_session) example_show example_fs).
Defined.

(** The session's run: the page shows the hypertension traces and the
    message for the diabetes dataset, which is not loaded. *)
Lemma example_app :
  let _ := session_widgets example_session in
  exists elems page, app example_show example_fs = Ok (elems, Some page) /\
    page_errors page = ["Dataset for pdiabe not loaded."].
Proof. do 2 eexists. split; [vm_compute; reflexivity | reflexivity]. Qed.
