(* ===== verification/Cleaning.v ===== *)
(** * The CSV cleaning script

    [src/clean_data.py]: [clean_column] and [clean_cell] (lines 15-29)
    undo the Excel escaping (a cell written as an equals sign and a
    quoted string) and the quoting of the raw regression
    exports; the main loop (lines 59-84) reads every cell as a string,
    cleans the header and the cells, and converts every column but
    the Year column with [pd.to_numeric] and [errors] set to ignore, which converts a
    column only when all its cells parse and otherwise leaves it as
    strings, and writes the result to [clean_data/<name>_cleaned.csv]
    before [debug_dataset] checks it.  Strings are ASCII strings;
    Python's [str.strip()] removes the characters for which
    [str.isspace()] holds, of which the ASCII ones are modelled.  Number
    parsing by pandas is a parameter [parse_num]; the files are maps from
    path to parsed frame; [debug_dataset] is modelled by the one
    exception it can raise, the printing is not modelled.  The theorems:
    [clean_column] unquotes (C25), undoes the Excel escape (C26) and
    fixes clean names (C27); [clean_cell] differs from it on quoted
    escaped text (C32); a dataset cleans to the coerced frame when its
    non-[Year] names are distinct (C28), raises [TypeError] when they are
    not (C29), and never touches [Year] (C30); the script writes exactly
    the files [app.py] loads (C31). *)

From stdpp Require Import base gmap strings list.
From Stdlib Require Import Ascii String.
From S2P Require Import Prelude Keys Options.



(** ** Python string operations *)

(** [c.isspace()] for an ASCII character: tab, newline, vertical tab,
    form feed, carriage return, the four separators 0x1c-0x1f, space. *)
Definition py_isspace (a : ascii) : bool :=
  let n := nat_of_ascii a in
  (Nat.leb 9 n && Nat.leb n 13) || (Nat.leb 28 n && Nat.leb n 32).

Fixpoint lstrip_list (p : ascii -> bool) (l : list ascii) : list ascii :=
  match l with
  | [] => []
  | a :: l' => if p a then lstrip_list p l' else l
  end.

(** [s.strip(chars)] for the characters satisfying [p]. *)
Definition py_strip_by (p : ascii -> bool) (s : string) : string :=
  string_of_list_ascii (rev (lstrip_list p (rev (lstrip_list p (list_ascii_of_string s))))).

(** The double-quote character, and the strings of the Excel escape. *)
Definition dq : ascii := ascii_of_nat 34.
Definition dq_str : string := String dq EmptyString.
Definition excel_open : string := String "=" dq_str.

(** [s.strip()] and [s.strip(dq)]. *)
Definition py_strip (s : string) : string := py_strip_by py_isspace s.
Definition strip_quotes (s : string) : string := py_strip_by (fun a => Ascii.eqb a dq) s.

(** [s.startswith(p)], [s.endswith(p)]. *)
Definition py_startswith (p s : string) : bool := String.prefix p s.
Definition py_endswith (p s : string) : bool :=
  String.prefix (string_of_list_ascii (rev (list_ascii_of_string p)))
                (string_of_list_ascii (rev (list_ascii_of_string s))).

(** [s[2:-1]]. *)
Definition slice_2_m1 (s : string) : string := substring 2 (String.length s - 3) s.

(** ** The two cleaning functions *)

(** [clean_column] (lines 15-20). *)
Definition clean_column (col : string) : string :=
  let col := py_strip col in
  let col := if py_startswith excel_open col && py_endswith dq_str col
             then slice_2_m1 col else col in
  strip_quotes col.

(** [clean_cell] (lines 23-29) on a string cell (every cell is read with
    [dtype=str]): an unwrapped Excel-escaped value is returned without
    stripping quotes. *)
Definition clean_cell (val : string) : string :=
  let val := py_strip val in
  if py_startswith excel_open val && py_endswith dq_str val then slice_2_m1 val
  else strip_quotes val.

(** ** Stripping *)

Lemma lstrip_list_suffix (p : ascii -> bool) (l : list ascii) :
  exists k, l = k ++ lstrip_list p l.
Proof.
  induction l as [| a l [k IH]]; simpl; [by exists [] |].
  destruct (p a); [exists (a :: k); simpl; f_equal; exact IH | by exists []].
Qed.

Lemma lstrip_list_head (p : ascii -> bool) (l l' : list ascii) (a : ascii) :
  lstrip_list p l = a :: l' -> p a = false.
Proof.
  induction l as [| b l IH]; simpl; [done |].
  destruct (p b) eqn:Hb; [done | by intros [= -> _]].
Qed.

(** Nothing to strip: the ends do not satisfy [p]. *)
Lemma lstrip_list_id (p : ascii -> bool) (l : list ascii) :
  (forall a l', l = a :: l' -> p a = false) -> lstrip_list p l = l.
Proof. destruct l as [| a l]; simpl; [done |]. intros Hp. by rewrite (Hp a l). Qed.

(** The first and last characters of a string. *)
Lemma list_ascii_of_string_append (s1 s2 : string) :
  list_ascii_of_string (String.append s1 s2) =
  list_ascii_of_string s1 ++ list_ascii_of_string s2.
Proof.
  induction s1 as [| a s1 IH]; autorewrite with str_rw; simpl; [done | by rewrite IH].
Qed.

Definition str_head (s : string) : option ascii := head (list_ascii_of_string s).
Definition str_last (s : string) : option ascii := head (rev (list_ascii_of_string s)).

Lemma py_strip_by_ends (p : ascii -> bool) (s : string) (a : ascii) :
  (str_head (py_strip_by p s) = Some a -> p a = false) /\
  (str_last (py_strip_by p s) = Some a -> p a = false).
Proof.
  unfold str_head, str_last, py_strip_by. rewrite !list_ascii_of_string_of_list_ascii.
  set (m := lstrip_list p (list_ascii_of_string s)).
  destruct (lstrip_list_suffix p (rev m)) as [k Hk]. split.
  - destruct (rev (lstrip_list p (rev m))) as [| b r] eqn:Hr; simpl; [done |].
    intros [= ->].
    assert (Hm : m = a :: r ++ rev k).
    { rewrite <- (rev_involutive m), Hk, rev_app_distr, Hr. done. }
    destruct (list_ascii_of_string s) as [| c l] eqn:Hs; [by subst m |].
    subst m. by apply (lstrip_list_head p (c :: l) (r ++ rev k)).
  - rewrite rev_involutive.
    destruct (lstrip_list p (rev m)) as [| b r] eqn:Hr; simpl; [done |].
    intros [= ->]. by apply (lstrip_list_head p (rev m) r).
Qed.

Lemma py_strip_by_id (p : ascii -> bool) (s : string) :
  (forall a, str_head s = Some a \/ str_last s = Some a -> p a = false) ->
  py_strip_by p s = s.
Proof.
  unfold str_head, str_last, py_strip_by. intros Hends.
  rewrite (lstrip_list_id p (list_ascii_of_string s)) by (intros a l' Hl; apply Hends; left; by rewrite Hl).
  rewrite (lstrip_list_id p (rev (list_ascii_of_string s)))
    by (intros a l' Hl; apply Hends; right; by rewrite Hl).
  by rewrite rev_involutive, string_of_list_ascii_of_string.
Qed.

(** C25 (unquoting): a cleaned column name never starts or ends with a
    double quote, whatever the raw header. *)
Theorem clean_column_unquoted (s : string) :
  str_head (clean_column s) <> Some dq /\ str_last (clean_column s) <> Some dq.
Proof.
  unfold clean_column, strip_quotes.
  match goal with |- context [py_strip_by _ ?x] =>
    destruct (py_strip_by_ends (fun a => Ascii.eqb a dq) x dq) as [Hh Hl] end.
  rewrite Ascii.eqb_refl in Hh, Hl. split; intros H; [by apply Hh in H | by apply Hl in H].
Qed.

(** ** The Excel escape *)

Lemma str_head_excel (x : string) : str_head (String.append excel_open x) = Some "="%char.
Proof. unfold excel_open, dq_str. rewrite !string_append_cons. reflexivity. Qed.

Lemma str_last_dq (x : string) : str_last (String.append x dq_str) = Some dq.
Proof.
  unfold str_last. by rewrite list_ascii_of_string_append, rev_app_distr.
Qed.

Lemma py_startswith_excel (x : string) : py_startswith excel_open (String.append excel_open x) = true.
Proof. unfold py_startswith, excel_open, dq_str. rewrite !string_append_cons, string_append_nil. by destruct x. Qed.

Lemma py_endswith_dq (x : string) : py_endswith dq_str (String.append x dq_str) = true.
Proof.
  unfold py_endswith. rewrite list_ascii_of_string_append, rev_app_distr.
  by destruct (rev (list_ascii_of_string x)).
Qed.

Lemma substring_append_l (t u : string) : substring 0 (String.length t) (String.append t u) = t.
Proof.
  induction t as [| a t IH]; [by destruct u |].
  rewrite string_append_cons. simpl. by rewrite IH.
Qed.

Lemma slice_2_m1_excel (t : string) :
  slice_2_m1 (String.append excel_open (String.append t dq_str)) = t.
Proof.
  unfold slice_2_m1, excel_open, dq_str. rewrite !string_append_cons, string_append_nil.
  cbn [String.length]. rewrite string_length_append. cbn [String.length].
  replace (S (S (String.length t + 1)) - 3)%nat with (String.length t) by lia.
  apply substring_append_l.
Qed.

Lemma string_append_assoc (s1 s2 s3 : string) :
  String.append s1 (String.append s2 s3) = String.append (String.append s1 s2) s3.
Proof. induction s1 as [| a s1 IH]; autorewrite with str_rw; [done | by rewrite IH]. Qed.

Lemma py_strip_excel (t : string) :
  py_strip (String.append excel_open (String.append t dq_str)) =
  String.append excel_open (String.append t dq_str).
Proof.
  apply py_strip_by_id. intros a [Ha | Ha].
  - rewrite str_head_excel in Ha. by simplify_eq.
  - rewrite string_append_assoc, str_last_dq in Ha. by simplify_eq.
Qed.

Lemma strip_quotes_id (t : string) :
  str_head t <> Some dq -> str_last t <> Some dq -> strip_quotes t = t.
Proof.
  intros Hh Hl. apply py_strip_by_id. intros a [Ha | Ha];
    apply Bool.not_true_iff_false; intros ->%Ascii.eqb_eq; auto.
Qed.

(** C26 (round trip): a header written with the Excel escape, an equals
    sign and the name in double quotes, is cleaned back to the name,
    provided the name itself does not start or end with a double quote. *)
Theorem clean_column_excel_roundtrip (t : string) :
  str_head t <> Some dq -> str_last t <> Some dq ->
  clean_column (String.append excel_open (String.append t dq_str)) = t.
Proof.
  intros Hh Hl. unfold clean_column. rewrite py_strip_excel.
  rewrite py_startswith_excel, string_append_assoc, py_endswith_dq.
  rewrite <- string_append_assoc, slice_2_m1_excel. by apply strip_quotes_id.
Qed.

Lemma py_endswith_dq_last (s : string) : py_endswith dq_str s = true -> str_last s = Some dq.
Proof.
  unfold py_endswith, str_last. cbn.
  destruct (rev (list_ascii_of_string s)) as [| a l]; [done |]. cbn.
  by destruct (ascii_dec dq a) as [-> |].
Qed.

(** C27 (fixed points): a header that neither starts nor ends with white
    space or a double quote is left unchanged by [clean_column]; the
    Excel-escape branch is not taken, for such a header does not end
    with a double quote. *)
Theorem clean_column_id (t : string) :
  (forall a, str_head t = Some a \/ str_last t = Some a -> py_isspace a = false /\ a <> dq) ->
  clean_column t = t.
Proof.
  intros Hends. unfold clean_column, py_strip.
  rewrite (py_strip_by_id py_isspace t) by (intros a Ha; apply Hends, Ha).
  destruct (py_endswith dq_str t) eqn:He.
  { apply py_endswith_dq_last in He. by destruct (Hends dq (or_intror He)). }
  rewrite andb_false_r. apply strip_quotes_id; intros Ha; by destruct (Hends dq ltac:(auto)).
Qed.

Lemma strip_quotes_wrapped (t : string) :
  str_head t <> Some dq -> str_last t <> Some dq ->
  strip_quotes (String dq (String.append t dq_str)) = t.
Proof.
  unfold str_head, str_last, strip_quotes, py_strip_by. intros Hh Hl. cbn [list_ascii_of_string].
  rewrite list_ascii_of_string_append. cbn [lstrip_list]. rewrite ?Ascii.eqb_refl.
  rewrite <- (string_of_list_ascii_of_string t) at 2.
  destruct (list_ascii_of_string t) as [| a l] eqn:E; [done |].
  rewrite (lstrip_list_id _ ((a :: l) ++ _)); last first.
  { intros b l' [= <- _]. apply Bool.not_true_iff_false. intros ->%Ascii.eqb_eq. by apply Hh. }
  rewrite rev_app_distr. cbn [rev app lstrip_list list_ascii_of_string dq_str].
  rewrite ?Ascii.eqb_refl. cbv beta iota.
  rewrite (lstrip_list_id _ (rev l ++ [a])).
  { change (rev l ++ [a]) with (rev (a :: l)). by rewrite rev_involutive. }
  intros b l' Hb. apply Bool.not_true_iff_false. intros ->%Ascii.eqb_eq. apply Hl. cbn [rev]. by rewrite Hb.
Qed.

(** C32 (divergence of the two cleaners): on a value written with the
    Excel escape around a quoted text, [="<dq>t<dq>"], [clean_column]
    returns the text [t] while [clean_cell] returns it still wrapped in
    double quotes, since [clean_cell] returns the slice without the final
    strip of double quotes. *)
Theorem clean_cell_column_differ (t : string) :
  str_head t <> Some dq -> str_last t <> Some dq ->
  let v := String.append excel_open (String.append (String dq (String.append t dq_str)) dq_str) in
  clean_column v = t /\ clean_cell v = String dq (String.append t dq_str).
Proof.
  intros Hh Hl v. unfold clean_column, clean_cell, v. rewrite py_strip_excel.
  rewrite py_startswith_excel, string_append_assoc, py_endswith_dq.
  rewrite <- string_append_assoc, slice_2_m1_excel. split; [| done].
  by apply strip_quotes_wrapped.
Qed.

(** ** Reading, cleaning and coercing one dataset (lines 66-77) *)

(** A cell of the cleaned frame: still a string, or a number once its
    column has been coerced. *)
Inductive Cell (A : Type) :=
  | CStr (s : string)
  | CNum (x : A).
Arguments CStr {A} s.
Arguments CNum {A} x.

(** [pd.read_csv(path, dtype=str, keep_default_na=False)]: the header
    names (already de-duplicated by [read_csv]) with the string cells of
    each column. *)
Definition RawFrame := list (string * list string).

(** The message of the [TypeError] [pd.to_numeric] raises on a frame. *)
Definition to_numeric_arg_msg : string := "arg must be a list, tuple, 1-d array, or Series".

(** The cleaned header names (line 69). *)
Definition cleaned_names (raw : RawFrame) : list string := map (fun hc => clean_column hc.1) raw.

(** How many columns have the name [c]. *)
Definition name_count (c : string) (names : list string) : nat :=
  List.length (filter (fun n => n = c) names).

(** The frame after cleaning: column names in order, with their cells. *)
Abbreviation CFrame A := (list (string * list (Cell A))).

Section Coerce.
Context {A : Type} (parse_num : string -> option A).


(** The number a cell holds or parses to, if any. *)
Definition cell_num (c : Cell A) : option A :=
  match c with CStr s => parse_num s | CNum x => Some x end.

(** [pd.to_numeric(series, errors="ignore")]: every cell converted when
    all parse, the series returned unchanged otherwise. *)
Definition to_numeric_ignore (col : list (Cell A)) : list (Cell A) :=
  match mapM cell_num col with Some xs => CNum <$> xs | None => col end.

(** [df[col] = pd.to_numeric(df[col], errors="ignore")]: [df[col]] is a
    series when one column has the name, a frame when several have it,
    on which [to_numeric] raises [TypeError]. *)
Definition convert_column (df : CFrame A) (col : string) : PyRes (CFrame A) :=
  match filter (fun p => p.1 = col) df with
  | [] => Raise (KeyError col)
  | [(_, v)] =>
      Ok ((fun p => if String.eqb p.1 col then (p.1, to_numeric_ignore v) else p) <$> df)
  | _ => Raise (TypeError to_numeric_arg_msg)
  end.

(** [for col in df.columns: if col != "Year": ...] (lines 75-77). *)
Fixpoint convert_loop (cols : list string) (df : CFrame A) : PyRes (CFrame A) :=
  match cols with
  | [] => Ok df
  | col :: cols' =>
      df' ← (if String.eqb col "Year" then Ok df else convert_column df col);
      convert_loop cols' df'
  end.

(** Lines 69-72: [df.columns = [clean_column(c) for c in df.columns]],
    then [df.applymap(clean_cell)]. *)
Definition clean_frame (raw : RawFrame) : CFrame A :=
  map (fun hc : string * list string => (clean_column hc.1, map (fun v => CStr (clean_cell v)) hc.2)) raw.

(** Lines 69-77: clean the frame, then coerce every column but [Year]. *)
Definition clean_dataset (raw : RawFrame) : PyRes (CFrame A) :=
  let df := clean_frame raw in
  convert_loop df.*1 df.

(** The coercion of one column of the cleaned frame by the loop. *)
Definition coerce_col (cols : list string) (p : string * list (Cell A)) : string * list (Cell A) :=
  if bool_decide (p.1 ∈ cols) && negb (String.eqb p.1 "Year")
  then (p.1, to_numeric_ignore p.2) else p.

End Coerce.

Section CoerceFacts.
Context {A : Type} (parse_num : string -> option A).
Implicit Types (df : CFrame A) (col : list (Cell A)).

Lemma filter_name_length df c :
  List.length (filter (fun p : string * list (Cell A) => p.1 = c) df) = name_count c df.*1.
Proof.
  unfold name_count. induction df as [| [n v] df IH]; [done |]. csimpl.
  destruct (decide (n = c)).
  - rewrite (filter_cons_True (fun p : string * list (Cell A) => p.1 = c)) by done.
    rewrite filter_cons_True by done. cbn [List.length]. f_equal. exact IH.
  - rewrite (filter_cons_False (fun p : string * list (Cell A) => p.1 = c)) by done.
    by rewrite filter_cons_False.
Qed.

Lemma filter_name_unique df c :
  name_count c df.*1 = 1%nat -> exists v, filter (fun p : string * list (Cell A) => p.1 = c) df = [(c, v)].
Proof.
  rewrite <- filter_name_length. intros Hlen.
  destruct (filter _ df) as [| [n v] [|]] eqn:Hf; simpl in Hlen; try lia.
  exists v. assert ((n, v) ∈ filter (fun p : string * list (Cell A) => p.1 = c) df) as Hin
    by (rewrite Hf; set_solver).
  apply list_elem_of_filter in Hin as [Hn _]. simpl in Hn. by subst.
Qed.

Lemma name_count_pos c (names : list string) : c ∈ names -> (0 < name_count c names)%nat.
Proof.
  intros Hin. unfold name_count.
  assert (c ∈ filter (fun n => n = c) names) as Hf by (by apply list_elem_of_filter).
  destruct (filter _ names); [set_solver | simpl; lia].
Qed.

Lemma coerce_col_names cols df : (coerce_col parse_num cols <$> df).*1 = df.*1.
Proof.
  rewrite <- list_fmap_compose. apply list_fmap_ext. intros i [n v] _.
  unfold coerce_col. simpl. by destruct (_ && _).
Qed.

(** One step of the loop on a column name that occurs once. *)
Lemma convert_column_unique df c :
  name_count c df.*1 = 1%nat ->
  convert_column parse_num df c =
  Ok ((fun p => if String.eqb p.1 c then (p.1, to_numeric_ignore parse_num p.2) else p) <$> df).
Proof.
  intros H1. unfold convert_column. destruct (filter_name_unique df c H1) as [v Hv].
  rewrite Hv. f_equal. apply list_fmap_ext. intros i [n w] Hin. simpl.
  destruct (String.eqb_spec n c) as [-> |]; [| done].
  assert ((c, w) ∈ filter (fun p : string * list (Cell A) => p.1 = c) df) as Hw
    by (apply list_elem_of_filter; split; [done | by eapply list_elem_of_lookup_2]).
  rewrite Hv in Hw. by apply list_elem_of_singleton in Hw; simplify_eq.
Qed.

Lemma convert_column_dup df c :
  (1 < name_count c df.*1)%nat -> convert_column parse_num df c = Raise (TypeError to_numeric_arg_msg).
Proof.
  rewrite <- filter_name_length. intros Hlen. unfold convert_column.
  destruct (filter _ df) as [| [n v] [|]]; simpl in Hlen; [lia | lia | done].
Qed.

Lemma replace_names df c (f : list (Cell A) -> list (Cell A)) :
  ((fun p : string * list (Cell A) => if String.eqb p.1 c then (p.1, f p.2) else p) <$> df).*1 = df.*1.
Proof.
  rewrite <- list_fmap_compose. apply list_fmap_ext. intros i [n v] _. simpl.
  by destruct (String.eqb n c).
Qed.

Lemma name_count_NoDup c (l : list string) : NoDup l -> c ∈ l -> name_count c l = 1%nat.
Proof.
  unfold name_count. induction l as [| x l IH]; intros Hnd Hin; [set_solver |].
  apply NoDup_cons in Hnd as [Hx Hnd]. destruct (decide (x = c)) as [-> |].
  - rewrite filter_cons_True by done. cbn [List.length].
    destruct (filter (fun n => n = c) l) as [| y ?] eqn:Hf; [done |].
    assert (y ∈ filter (fun n => n = c) l) as Hy by (rewrite Hf; set_solver).
    by apply list_elem_of_filter in Hy as [-> ?].
  - rewrite filter_cons_False by done. apply IH; set_solver.
Qed.

Lemma name_count_filter (P : string -> Prop) `{!forall x, Decision (P x)} c (l : list string) :
  P c -> name_count c (filter P l) = name_count c l.
Proof.
  intros Hc. unfold name_count. rewrite list_filter_filter_l; [done |]. by intros ? ->.
Qed.

(** The loop over names whose non-[Year] members are distinct coerces
    exactly the non-[Year] columns it visits. *)
Lemma convert_loop_Ok cols df :
  NoDup (filter (fun c => c <> "Year") cols) ->
  (forall c, c ∈ cols -> c <> "Year" -> name_count c df.*1 = 1%nat) ->
  convert_loop parse_num cols df = Ok (coerce_col parse_num cols <$> df).
Proof.
  revert df. induction cols as [| col cols IH]; intros df Hnd Hu; simpl.
  { f_equal. rewrite <- (list_fmap_id df) at 1. apply list_fmap_ext.
    intros i [n v] _. unfold coerce_col. case_bool_decide; set_solver. }
  destruct (String.eqb_spec col "Year") as [-> | Hy]; simpl.
  - rewrite filter_cons_False in Hnd by auto.
    rewrite IH by (done || set_solver). f_equal. apply list_fmap_ext. intros i [n v] _.
    unfold coerce_col. simpl. destruct (String.eqb_spec n "Year"); [by rewrite !andb_false_r |].
    by rewrite (bool_decide_ext (n ∈ cols) (n ∈ "Year" :: cols)) by set_solver.
  - rewrite filter_cons_True in Hnd by done. apply NoDup_cons in Hnd as [Hcol Hnd].
    assert (col ∉ cols) by (rewrite list_elem_of_filter in Hcol; naive_solver).
    rewrite convert_column_unique by set_solver. simpl.
    rewrite IH by (rewrite ?replace_names; (done || set_solver)). f_equal.
    rewrite <- list_fmap_compose. apply list_fmap_ext. intros i [n v] _. unfold coerce_col. simpl.
    destruct (String.eqb_spec n col) as [-> | Hn]; simpl.
    + rewrite (bool_decide_eq_false_2 (col ∈ cols)) by done.
      rewrite (bool_decide_eq_true_2 (col ∈ col :: cols)) by set_solver.
      by destruct (String.eqb_spec col "Year").
    + by rewrite (bool_decide_ext (n ∈ cols) (n ∈ col :: cols)) by set_solver.
Qed.

(** The loop raises the [TypeError] of [to_numeric] as soon as it visits
    a non-[Year] name shared by several columns. *)
Lemma convert_loop_raise cols df :
  (forall c, c ∈ cols -> c ∈ df.*1) ->
  (exists c, c ∈ cols /\ c <> "Year" /\ (1 < name_count c df.*1)%nat) ->
  convert_loop parse_num cols df = Raise (TypeError to_numeric_arg_msg).
Proof.
  revert df. induction cols as [| col cols IH]; intros df Hin (c & Hc & Hy & Hdup); [set_solver |].
  simpl. destruct (String.eqb_spec col "Year") as [-> | Hcy]; simpl.
  { apply IH; [set_solver |]. exists c. set_solver. }
  assert (0 < name_count col df.*1)%nat by (apply name_count_pos; set_solver).
  destruct (decide (name_count col df.*1 = 1%nat)) as [H1 |].
  - rewrite convert_column_unique by done. simpl.
    apply IH; rewrite replace_names; [set_solver |].
    exists c. split; [| done]. apply elem_of_cons in Hc as [-> |]; [lia | done].
  - by rewrite convert_column_dup by lia.
Qed.

Lemma to_numeric_ignore_idem col :
  to_numeric_ignore parse_num (to_numeric_ignore parse_num col) = to_numeric_ignore parse_num col.
Proof.
  unfold to_numeric_ignore. destruct (mapM (cell_num parse_num) col) as [xs |] eqn:E; [| by rewrite E].
  rewrite (mapM_Some_2 _ _ xs); [done |]. apply Forall2_fmap_l, Forall_Forall2_diag, Forall_true.
  done.
Qed.

(** How a column of the loop's result relates to the cleaned column: same
    name, [Year] untouched, cells kept or coerced. *)
Definition coerced_from (p p' : string * list (Cell A)) : Prop :=
  p'.1 = p.1 /\ (p.1 = "Year" -> p'.2 = p.2) /\
  (p'.2 = p.2 \/ p'.2 = to_numeric_ignore parse_num p.2).

Lemma coerced_from_trans p p1 p' : coerced_from p p1 -> coerced_from p1 p' -> coerced_from p p'.
Proof.
  intros (Hn1 & Hy1 & H1) (Hn & Hy & H). split; [congruence |]. split.
  - intros HY. rewrite Hy, Hy1; [done | done | congruence].
  - destruct H1 as [H1 | H1], H as [H | H]; rewrite H, ?H1, ?to_numeric_ignore_idem; by (left + right).
Qed.

Lemma convert_column_Ok_inv df c df1 :
  convert_column parse_num df c = Ok df1 ->
  name_count c df.*1 = 1%nat /\
  df1 = (fun p => if String.eqb p.1 c then (p.1, to_numeric_ignore parse_num p.2) else p) <$> df.
Proof.
  intros Hc. assert (name_count c df.*1 = 1%nat) as H1.
  { rewrite <- filter_name_length. unfold convert_column in Hc.
    by destruct (filter _ df) as [| [n v] [|]]. }
  split; [done |]. rewrite convert_column_unique in Hc by done. by simplify_eq.
Qed.

(** Every run of the loop that returns relates each column to its
    cleaned original by [coerced_from]. *)
Lemma convert_loop_coerced cols df df' :
  convert_loop parse_num cols df = Ok df' -> Forall2 coerced_from df df'.
Proof.
  revert df. induction cols as [| col cols IH]; intros df Hl; simpl in Hl.
  { simplify_eq. apply Forall_Forall2_diag, Forall_true. intros p. unfold coerced_from. auto. }
  destruct (String.eqb_spec col "Year") as [-> | Hy]; simpl in Hl; [by apply IH |].
  destruct (convert_column parse_num df col) as [df1 |] eqn:Hc; [| done]. simpl in Hl.
  apply convert_column_Ok_inv in Hc as [_ ->].
  apply IH in Hl. eapply Forall2_trans; [by intros; eapply coerced_from_trans | | exact Hl].
  apply Forall2_fmap_r, Forall_Forall2_diag, Forall_true. intros [n v]. unfold coerced_from. simpl.
  destruct (String.eqb_spec n col) as [-> |]; simpl.
  - repeat split; [by intros | by right].
  - repeat split; by left.
Qed.

Lemma clean_frame_names raw : (clean_frame (A := A) raw).*1 = cleaned_names raw.
Proof. unfold clean_frame, cleaned_names. rewrite <- list_fmap_compose. done. Qed.

Lemma name_count_elem c (l : list string) : (0 < name_count c l)%nat -> c ∈ l.
Proof.
  unfold name_count. destruct (filter (fun n => n = c) l) as [| y ?] eqn:Hf; simpl; [lia |].
  assert (y ∈ filter (fun n => n = c) l) as Hy by (rewrite Hf; set_solver).
  intros _. by apply list_elem_of_filter in Hy as [-> ?].
Qed.

(** C28 (functional): when the cleaned header names other than [Year] are
    distinct, cleaning a dataset succeeds and returns the cleaned frame
    (names through [clean_column], cells through [clean_cell]) with every
    column but [Year] passed through [pd.to_numeric(errors="ignore")]. *)
Theorem clean_dataset_Ok raw :
  NoDup (filter (fun c => c <> "Year") (cleaned_names raw)) ->
  clean_dataset parse_num raw =
  Ok ((fun p => if String.eqb p.1 "Year" then p else (p.1, to_numeric_ignore parse_num p.2))
        <$> clean_frame raw).
Proof.
  intros Hnd. unfold clean_dataset. rewrite convert_loop_Ok; rewrite ?clean_frame_names; [| done |].
  - f_equal. apply list_fmap_ext. intros i [n v] Hi. unfold coerce_col. simpl.
    rewrite bool_decide_eq_true_2.
    + by destruct (String.eqb n "Year").
    + rewrite <- clean_frame_names. by apply (list_elem_of_fmap_2 fst _ (n, v)), list_elem_of_lookup_2 with i.
  - intros c Hc Hy. rewrite <- (name_count_filter (fun c => c <> "Year")) by done.
    apply name_count_NoDup; [done |]. by apply list_elem_of_filter.
Qed.

(** C29 (error): two raw headers that clean to the same name other than
    [Year] make the script raise the [TypeError] of [pd.to_numeric],
    since [df[col]] is then a frame and not a series. *)
Theorem clean_dataset_duplicate raw c :
  c <> "Year" -> (1 < name_count c (cleaned_names raw))%nat ->
  clean_dataset parse_num raw = Raise (TypeError to_numeric_arg_msg).
Proof.
  intros Hy Hdup. unfold clean_dataset. apply convert_loop_raise; [done |].
  exists c. rewrite clean_frame_names. split_and!; [| done | done]. apply name_count_elem. lia.
Qed.

(** C30 (invariant): whenever cleaning a dataset returns, every column
    keeps its cleaned name and position, the [Year] column keeps its
    cleaned strings, and every other column is either its cleaned
    strings or their [pd.to_numeric(errors="ignore")] coercion. *)
Theorem clean_dataset_coerced raw df' :
  clean_dataset parse_num raw = Ok df' -> Forall2 coerced_from (clean_frame raw) df'.
Proof. apply convert_loop_coerced. Qed.

End CoerceFacts.

(** ** The script (lines 4-12 and 59-84) *)

Definition RAW_DATASETS : py_dict :=
  [("pdiabe", "data/uscdm_emu_pdiabe_regression_ests.csv");
   ("phearte", "data/uscdm_emu_phearte_regression_ests.csv");
   ("phibpe", "data/uscdm_emu_phibpe_regression_ests.csv");
   ("pcogstate", "data/uscdm_emu_pcogstate_regression_ests.csv")].

Definition CLEANED_DIR : string := "clean_data".

(** [os.path.join(CLEANED_DIR, f"{name}_cleaned.csv")]. *)
Definition output_path (name : string) : string :=
  String.append CLEANED_DIR (String.append "/" (String.append name "_cleaned.csv")).

(** The message of [df["Year"].unique()] on a frame. *)
Definition unique_attr_msg : string := "'DataFrame' object has no attribute 'unique'".

Section Script.
Context {A : Type} (parse_num : string -> option A).

(** [debug_dataset] (lines 32-57) prints only, but [df["Year"].unique()]
    raises [AttributeError] when several columns are named [Year], for
    [df["Year"]] is then a frame. *)
Definition debug_dataset (df : CFrame A) : PyRes unit :=
  if bool_decide (1 < name_count "Year" df.*1)%nat then Raise (AttributeError unique_attr_msg)
  else Ok tt.

(** One pass of the loop body on a file that exists: clean, write the
    output file, debug. *)
Definition clean_one (out : gmap string (CFrame A)) (name : string) (raw : RawFrame)
    : gmap string (CFrame A) * option PyExc :=
  match clean_dataset parse_num raw with
  | Raise e => (out, Some e)
  | Ok df =>
      let out := <[output_path name := df]> out in
      match debug_dataset df with Ok _ => (out, None) | Raise e => (out, Some e) end
  end.

(** [for name, path in RAW_DATASETS.items()] (lines 59-84): [fs] maps the
    existing raw files to their contents, [out] the files written so
    far; an exception stops the script, the files already written stay. *)
Fixpoint clean_loop (items : py_dict) (fs : gmap string RawFrame) (out : gmap string (CFrame A))
    : gmap string (CFrame A) * option PyExc :=
  match items with
  | [] => (out, None)
  | (name, path) :: items' =>
      match fs !! path with
      | None => clean_loop items' fs out
      | Some raw =>
          match clean_one out name raw with
          | (out', None) => clean_loop items' fs out'
          | (out', Some e) => (out', Some e)
          end
      end
  end.

Definition clean_script (fs : gmap string RawFrame) : gmap string (CFrame A) * option PyExc :=
  clean_loop RAW_DATASETS fs ∅.

End Script.

Lemma output_path_inj (n1 n2 : string) : output_path n1 = output_path n2 -> n1 = n2.
Proof.
  unfold output_path. intros H%string_append_inj_l%string_append_inj_l.
  by eapply string_append_inj_r.
Qed.

Section ScriptFacts.
Context {A : Type} (parse_num : string -> option A).

(** The cleaned frame of the raw file at [path], when it exists and cleans. *)
Definition cleaned_output (fs : gmap string RawFrame) (path : string) : option (CFrame A) :=
  fs !! path ≫= fun raw =>
    match clean_dataset parse_num raw with Ok df => Some df | Raise _ => None end.

(** Every raw file the script finds cleans and passes [debug_dataset]. *)
Definition script_ok (items : py_dict) (fs : gmap string RawFrame) : Prop :=
  forall name path raw, (name, path) ∈ items -> fs !! path = Some raw ->
  exists df, clean_dataset parse_num raw = Ok df /\ debug_dataset df = Ok tt.

Lemma clean_loop_lookup items fs out :
  NoDup items.*1 -> script_ok items fs ->
  (clean_loop parse_num items fs out).2 = None /\
  forall n, (clean_loop parse_num items fs out).1 !! output_path n =
    match list_to_map (M := gmap string string) items !! n with
    | Some path => match fs !! path with Some _ => cleaned_output fs path | None => out !! output_path n end
    | None => out !! output_path n
    end.
Proof.
  revert out. induction items as [| [n' p'] items IH]; intros out Hnd Hok; [done |].
  csimpl in Hnd. apply NoDup_cons in Hnd as [Hn' Hnd].
  assert (script_ok items fs) as Hok' by (intros nm pt rw ? ?; apply (Hok nm pt rw); [set_solver | done]).
  simpl. destruct (fs !! p') as [raw |] eqn:Hp.
  - destruct (Hok n' p' raw) as (df & Hdf & Hdbg); [set_solver | done |].
    unfold clean_one. rewrite Hdf, Hdbg. destruct (IH (<[output_path n' := df]> out) Hnd Hok') as [IH1 IH2].
    split; [done |]. intros n. rewrite IH2, ?list_to_map_cons. destruct (decide (n = n')) as [-> | Hne].
    + rewrite (not_elem_of_list_to_map_1 items n') by done.
      rewrite !lookup_insert_eq, Hp. unfold cleaned_output. rewrite Hp. simpl. by rewrite Hdf.
    + rewrite (lookup_insert_ne _ n' n) by done.
      rewrite lookup_insert_ne by (by intros ?%output_path_inj). done.
  - destruct (IH out Hnd Hok') as [IH1 IH2]. split; [done |]. intros n. rewrite IH2, ?list_to_map_cons.
    destruct (decide (n = n')) as [-> | Hne].
    + by rewrite lookup_insert_eq, Hp, (not_elem_of_list_to_map_1 items n').
    + by rewrite lookup_insert_ne.
Qed.

(** Each file [app.py] loads is the output path of the raw dataset of the
    same key. *)
Lemma cleaned_datasets_paths key path :
  (key, path) ∈ CLEANED_DATASETS ->
  exists rp, (key, rp) ∈ RAW_DATASETS /\
    list_to_map (M := gmap string string) RAW_DATASETS !! key = Some rp /\ path = output_path key.
Proof.
  unfold CLEANED_DATASETS. intros Hin.
  repeat (apply elem_of_cons in Hin as [[= -> ->] | Hin];
    [eexists; split_and!; [apply list_elem_of_In; simpl; intuition | reflexivity | reflexivity] |]).
  by apply elem_of_nil in Hin.
Qed.

(** C31 (refinement, across the two programs): when every raw file the
    script finds cleans and passes [debug_dataset], the script raises
    nothing, and for each entry of [CLEANED_DATASETS] in [app.py] the file
    written at its path is the cleaned frame of the raw file
    [RAW_DATASETS] names for the same key; it is absent exactly when
    that raw file is. *)
Theorem clean_script_outputs fs :
  script_ok RAW_DATASETS fs ->
  (clean_script parse_num fs).2 = None /\
  forall key path, (key, path) ∈ CLEANED_DATASETS ->
  exists rp, (key, rp) ∈ RAW_DATASETS /\
    (clean_script parse_num fs).1 !! path = cleaned_output fs rp.
Proof.
  intros Hok. destruct (clean_loop_lookup RAW_DATASETS fs ∅) as [H1 H2]; [apply (bool_decide_unpack _); by vm_compute | done |].
  split; [done |]. intros key path (rp & Hrp & Hmap & ->)%cleaned_datasets_paths.
  exists rp. split; [done |]. unfold clean_script. rewrite H2, Hmap.
  destruct (fs !! rp) eqn:Hfs; [done |]. unfold cleaned_output. by rewrite Hfs.
Qed.

End ScriptFacts.

(** ** Examples *)

(** A raw export: a [Year] column, an Excel-escaped header and cell, and
    a column with a cell that is not a number. *)
Definition example_raw : RawFrame :=
  [("Year", ["2024"; "2026"]);
   (String.append excel_open (String.append "_cons" dq_str),
      [String.append excel_open (String.append "3" dq_str); " 4 "]);
   (" year_inc ", ["1"; "x"])].

(** Two raw headers, one quoted, that clean to the same name. *)
Definition example_raw_dup : RawFrame :=
  [(String dq (String.append "a" dq_str), ["1"]); ("a", ["2"])].

Lemma example_clean :
  clean_dataset parse_z example_raw =
  Ok [("Year", [CStr "2024"; CStr "2026"]); ("_cons", [CNum 3%Z; CNum 4%Z]);
      ("year_inc", [CStr "1"; CStr "x"])].
Proof. by vm_compute. Qed.

Ltac neq_char := let H := fresh in intros H; vm_compute in H; discriminate H.

Lemma clean_column_excel_roundtrip_witness :
  str_head "_cons" <> Some dq /\ str_last "_cons" <> Some dq /\
  clean_column (String.append excel_open (String.append "_cons" dq_str)) = "_cons".
Proof. split_and!; [neq_char | neq_char | apply clean_column_excel_roundtrip; neq_char]. Defined.

Lemma clean_column_id_witness :
  (forall a, str_head "n_startpop" = Some a \/ str_last "n_startpop" = Some a ->
     py_isspace a = false /\ a <> dq) /\
  clean_column "n_startpop" = "n_startpop".
Proof.
  assert (forall a, str_head "n_startpop" = Some a \/ str_last "n_startpop" = Some a ->
            py_isspace a = false /\ a <> dq) as H.
  { intros a [Ha | Ha]; vm_compute in Ha; injection Ha as <-; (split; [reflexivity | neq_char]). }
  split; [exact H | apply clean_column_id, H].
Defined.

Lemma clean_dataset_Ok_witness :
  NoDup (filter (fun c => c <> "Year") (cleaned_names example_raw)) /\
  clean_dataset parse_z example_raw =
  Ok ((fun p => if String.eqb p.1 "Year" then p else (p.1, to_numeric_ignore parse_z p.2))
        <$> clean_frame example_raw).
Proof.
  assert (NoDup (filter (fun c => c <> "Year") (cleaned_names example_raw))) as H
    by (apply (bool_decide_unpack _); by vm_compute).
  split; [exact H | apply clean_dataset_Ok, H].
Defined.

Lemma clean_dataset_duplicate_witness :
  "a" <> "Year" /\ (1 < name_count "a" (cleaned_names example_raw_dup))%nat /\
  clean_dataset parse_z example_raw_dup = Raise (TypeError to_numeric_arg_msg).
Proof.
  split_and!; [done | by vm_compute | apply (clean_dataset_duplicate _ _ "a"); [done | by vm_compute]].
Defined.

Lemma clean_dataset_coerced_witness :
  Forall2 (coerced_from parse_z) (clean_frame example_raw)
    [("Year", [CStr "2024"; CStr "2026"]); ("_cons", [CNum 3%Z; CNum 4%Z]);
     ("year_inc", [CStr "1"; CStr "x"])].
Proof. apply clean_dataset_coerced. by vm_compute. Defined.

Lemma clean_cell_column_differ_witness :
  let v := String.append excel_open (String.append (String dq (String.append "a" dq_str)) dq_str) in
  clean_column v = "a" /\ clean_cell v = String dq (String.append "a" dq_str).
Proof. apply clean_cell_column_differ; neq_char. Defined.

(** A file system with the diabetes export only. *)
Definition example_raw_fs : gmap string RawFrame :=
  {[ "data/uscdm_emu_pdiabe_regression_ests.csv" := example_raw ]}.

Lemma clean_script_outputs_witness :
  script_ok parse_z RAW_DATASETS example_raw_fs /\
  (clean_script parse_z example_raw_fs).2 = None /\
  forall key path, (key, path) ∈ CLEANED_DATASETS ->
  exists rp, (key, rp) ∈ RAW_DATASETS /\
    (clean_script parse_z example_raw_fs).1 !! path = cleaned_output parse_z example_raw_fs rp.
Proof.
  assert (script_ok parse_z RAW_DATASETS example_raw_fs) as H.
  { intros name path raw _ Hp. unfold example_raw_fs in Hp.
    destruct (decide (path = "data/uscdm_emu_pdiabe_regression_ests.csv")) as [-> | Hne].
    - rewrite lookup_singleton_eq in Hp. injection Hp as <-. eexists. split; by vm_compute.
    - by rewrite lookup_singleton_ne in Hp. }
  split; [exact H | apply clean_script_outputs, H].
Defined.
